(** * Notes backend: session gate, notes handlers and migration runner

    A shallow embedding of the Go backend ([internal/app]): the migration
    runner, the session middleware and the notes handlers, over an explicit
    model of the two tables and of the ledger, followed by the properties
    the specification states about them.

    Go strings are byte strings; they are modelled by [string] (one [ascii]
    per byte).  Go's [int] is the 64-bit integer of the deployment target and
    is modelled by [Z] with the wrap-around written out ([Go.wrap64]). *)

From Stdlib Require Import ZArith NArith Ascii String List Lia Bool.
From stdpp Require Import base decidable option list sorting gmap strings.

Local Open Scope string_scope.
#[local] Set Warnings "-clear-no-such-hyp".

(** ** The parts of the Go standard library the backend calls *)

Module Go.

(** A string given by its byte values. *)
Definition bytes (l : list N) : list ascii := ascii_of_N <$> l.

(** The UTF-8 encodings of the runes for which [unicode.IsSpace] holds:
    U+0009..U+000D, U+0020, U+0085, U+00A0, U+1680, U+2000..U+200A,
    U+2028, U+2029, U+202F, U+205F and U+3000. *)
Definition spaceRunes : list (list ascii) :=
  bytes <$>
    [ [9]; [10]; [11]; [12]; [13]; [32];
      [194; 133]; [194; 160];
      [225; 154; 128];
      [226; 128; 128]; [226; 128; 129]; [226; 128; 130]; [226; 128; 131];
      [226; 128; 132]; [226; 128; 133]; [226; 128; 134]; [226; 128; 135];
      [226; 128; 136]; [226; 128; 137]; [226; 128; 138];
      [226; 128; 168]; [226; 128; 169]; [226; 128; 175];
      [226; 129; 159];
      [227; 128; 128] ]%N.

Fixpoint hasPrefixBytes (w s : list ascii) : bool :=
  match w, s with
  | [], _ => true
  | _ :: _, [] => false
  | a :: w', b :: s' => if Ascii.eqb a b then hasPrefixBytes w' s' else false
  end.

(** Width in bytes of the white-space rune [s] starts with, [0] when it
    starts with none; [ws] is the table of encodings. *)
Definition leadingSpace (ws : list (list ascii)) (s : list ascii) : nat :=
  match List.find (fun w => hasPrefixBytes w s) ws with
  | Some w => List.length w
  | None => 0
  end.

(** [strings.TrimLeftFunc(s, unicode.IsSpace)]: drop white-space runes
    until the first rune that is none.  [skip] counts the bytes of the
    current white-space rune still to drop. *)
Fixpoint trimLeftFrom (ws : list (list ascii)) (skip : nat) (s : list ascii)
  : list ascii :=
  match s with
  | [] => []
  | _ :: r =>
      match skip with
      | S k => trimLeftFrom ws k r
      | O =>
          match leadingSpace ws s with
          | O => s
          | S k => trimLeftFrom ws k r
          end
      end
  end.

Definition trimLeft (s : list ascii) : list ascii :=
  trimLeftFrom spaceRunes 0 s.

(** [strings.TrimRightFunc(s, unicode.IsSpace)]: the same from the end
    (a rune decoded backwards is white space exactly when the string ends
    with one of the encodings). *)
Definition trimRight (s : list ascii) : list ascii :=
  List.rev (trimLeftFrom (List.rev (A:=ascii) <$> spaceRunes) 0 (List.rev s)).

(** [strings.TrimSpace]. *)
Definition TrimSpace (s : string) : string :=
  string_of_list_ascii (trimRight (trimLeft (list_ascii_of_string s))).

(** [c < utf8.RuneSelf]. *)
Definition isASCIIByte (c : ascii) : bool := (N_of_ascii c <? 128)%N.

Definition lowerByte (c : ascii) : ascii :=
  let n := N_of_ascii c in
  if ((65 <=? n) && (n <=? 90))%N then ascii_of_N (n + 32) else c.

Fixpoint mapBytes (f : ascii -> ascii) (s : string) : string :=
  match s with
  | EmptyString => EmptyString
  | String c r => String (f c) (mapBytes f r)
  end.

Fixpoint allBytes (p : ascii -> bool) (s : string) : bool :=
  match s with
  | EmptyString => true
  | String c r => p c && allBytes p r
  end.

(** [strings.ToLower]: ASCII-only strings are lowered byte by byte; any
    other string goes through [strings.Map(unicode.ToLower, s)], whose
    Unicode tables are left to the parameter [mapUnicodeLower]. *)
Definition ToLower (mapUnicodeLower : string -> string) (s : string) : string :=
  if allBytes isASCIIByte s then mapBytes lowerByte s else mapUnicodeLower s.

(** [strings.HasSuffix]. *)
Definition HasSuffix (s suffix : string) : bool :=
  hasPrefixBytes (List.rev (list_ascii_of_string suffix))
                 (List.rev (list_ascii_of_string s)).

(** [sort.Strings]: ascending byte-wise lexicographic order. *)
Definition sortStrings (l : list string) : list string :=
  merge_sort String.le l.

(** Go's [int] on a 64-bit target. *)
Definition minInt : Z := - 2 ^ 63.
Definition maxInt : Z := 2 ^ 63 - 1.

(** Two's complement wrap-around of an arithmetic result into [int]. *)
Definition wrap64 (z : Z) : Z := ((z + 2 ^ 63) mod 2 ^ 64 - 2 ^ 63)%Z.

Definition digitVal (c : ascii) : option Z :=
  let n := N_of_ascii c in
  if ((48 <=? n) && (n <=? 57))%N then Some (Z.of_N n - 48)%Z else None.

(** Value of a string of decimal digits, [None] when a byte is no digit. *)
Fixpoint digitsFrom (acc : Z) (s : string) : option Z :=
  match s with
  | EmptyString => Some acc
  | String c r =>
      match digitVal c with
      | Some d => digitsFrom (acc * 10 + d)%Z r
      | None => None
      end
  end.

(** [strconv.Atoi]: an optional sign and at least one decimal digit, the
    value within [int]; [None] stands for both [ErrSyntax] and
    [ErrRange]. *)
Definition Atoi (s : string) : option Z :=
  let '(neg, ds) :=
    match s with
    | String "-" r => (true, r)
    | String "+" r => (false, r)
    | _ => (false, s)
    end in
  match ds with
  | EmptyString => None
  | _ =>
      match digitsFrom 0 ds with
      | None => None
      | Some n =>
          let v := if neg then (- n)%Z else n in
          if ((minInt <=? v) && (v <=? maxInt))%Z then Some v else None
      end
  end.

(** [strconv.ParseBool]. *)
Definition ParseBool (str : string) : option bool :=
  if decide (str ∈ ["1"; "t"; "T"; "TRUE"; "true"; "True"]) then Some true
  else if decide (str ∈ ["0"; "f"; "F"; "FALSE"; "false"; "False"]) then Some false
  else None.

End Go.

(** ** The migration runner ([runMigrations]) *)

Module Migrate.

(** An [os.DirEntry]. *)
Record DirEntry := {
  Name : string;
  IsDir : bool
}.

(** The database as the runner sees it: [schema] stands for everything
    the scripts create, [ledger] for the rows of [schema_migrations]
    ([None] while the table does not exist). *)
Record Database := {
  schema : list string;
  ledger : option (list string)
}.

(** The statements that can fail for reasons outside the runner. *)
Inductive DbOp :=
  | OpEnsure
  | OpCheck (name : string)
  | OpBegin (name : string)
  | OpCommit (name : string).

(** What the runner takes from outside: the file system, the effect of a
    script on the database ([None]: the script fails) and the statements
    that fail on their own. *)
Record Env := {
  readDir : string -> option (list DirEntry);
  (** [os.ReadFile(filepath.Join(dir, name))]. *)
  readFile : string -> string -> option string;
  execScript : string -> Database -> option Database;
  fault : DbOp -> bool
}.

(** A [pgx.Tx]: the database at [Begin] and the working copy the
    statements of the transaction act on. *)
Record Tx := {
  txBase : Database;
  txWork : Database
}.

(** The runner threads the database and stops at the first error. *)
Definition M (A : Type) : Type := Database -> (string + A) * Database.

Definition ret {A} (a : A) : M A := fun db => (inr a, db).

Definition fail {A} (e : string) : M A := fun db => (inl e, db).

Definition bind {A B} (m : M A) (k : A -> M B) : M B :=
  fun db =>
    match m db with
    | (inl e, db') => (inl e, db')
    | (inr a, db') => k a db'
    end.

Notation "'let*' x := m 'in' k" := (bind m (fun x => k))
  (at level 10, x name, m at level 100, k at level 200).

Section Runner.
Variable env : Env.

(** [CREATE TABLE IF NOT EXISTS schema_migrations]. *)
Definition ensureMigrationsTable : M unit :=
  fun db =>
    if fault env OpEnsure then (inl "ensure schema_migrations table", db)
    else match ledger db with
         | Some _ => (inr tt, db)
         | None => (inr tt, {| schema := schema db; ledger := Some [] |})
         end.

(** [SELECT EXISTS(SELECT 1 FROM schema_migrations WHERE name = $1)]. *)
Definition queryApplied (name : string) : M bool :=
  fun db =>
    if fault env (OpCheck name) then (inl ("check migration " ++ name), db)
    else match ledger db with
         | Some l => (inr (bool_decide (name ∈ l)), db)
         | None => (inl ("check migration " ++ name), db)
         end.

Definition begin (name : string) : M Tx :=
  fun db =>
    if fault env (OpBegin name) then (inl ("start migration tx " ++ name), db)
    else (inr {| txBase := db; txWork := db |}, db).

(** [tx.Exec(ctx, string(content))]. *)
Definition txExecScript (content : string) (tx : Tx) : option Tx :=
  match execScript env content (txWork tx) with
  | Some work => Some {| txBase := txBase tx; txWork := work |}
  | None => None
  end.

(** [INSERT INTO schema_migrations (name) VALUES ($1)]; [name] is the
    primary key. *)
Definition txInsertLedger (name : string) (tx : Tx) : option Tx :=
  match ledger (txWork tx) with
  | None => None
  | Some l =>
      if decide (name ∈ l) then None
      else Some {| txBase := txBase tx;
                   txWork := {| schema := schema (txWork tx);
                                ledger := Some (l ++ [name])%list |} |}
  end.

(** [tx.Rollback]: the database is the one at [Begin]. *)
Definition rollback (tx : Tx) : M unit := fun _ => (inr tt, txBase tx).

(** [tx.Commit]: the working copy becomes the database, or the commit
    fails and the database is the one at [Begin]. *)
Definition commit (name : string) (tx : Tx) : M unit :=
  fun _ =>
    if fault env (OpCommit name)
    then (inl ("commit migration " ++ name), txBase tx)
    else (inr tt, txWork tx).

(** The body of the loop over [migrationNames]. *)
Definition applyMigration (migrationsDir name : string) : M unit :=
  let* applied := queryApplied name in
  if applied : bool then ret tt
  else
    match readFile env migrationsDir name with
    | None => fail ("read migration " ++ name)
    | Some content =>
        let* tx := begin name in
        match txExecScript content tx with
        | None => let* _ := rollback tx in fail ("run migration " ++ name)
        | Some tx1 =>
            match txInsertLedger name tx1 with
            | None => let* _ := rollback tx1 in fail ("persist migration " ++ name)
            | Some tx2 => commit name tx2
            end
        end
    end.

Fixpoint applyMigrations (migrationsDir : string) (names : list string)
  : M unit :=
  match names with
  | [] => ret tt
  | name :: rest =>
      let* _ := applyMigration migrationsDir name in
      applyMigrations migrationsDir rest
  end.

(** The names collected from the directory, before [sort.Strings]. *)
Definition sqlFileNames (files : list DirEntry) : list string :=
  Name <$> List.filter (fun file => negb (IsDir file)
                                      && Go.HasSuffix (Name file) ".sql")
                       files.

Definition runMigrations (migrationsDir : string) : M unit :=
  let* _ := ensureMigrationsTable in
  match readDir env migrationsDir with
  | None => fail ("read migrations dir " ++ migrationsDir)
  | Some files =>
      let migrationNames := Go.sortStrings (sqlFileNames files) in
      applyMigrations migrationsDir migrationNames
  end.

End Runner.

(** *** The run in the words of the specification *)

Section RunnerSpec.
Variable env : Env.
Variable migrationsDir : string.

(** What one file of the directory leads to, from the database [db]: it
    is skipped, or its script and its ledger entry are committed
    together, or the run fails and the database is still [db]. *)
Inductive FileOutcome (name : string) (db : Database)
  : string + unit -> Database -> Prop :=
  | FileSkipped (l : list string) :
      fault env (OpCheck name) = false ->
      ledger db = Some l ->
      name ∈ l ->
      FileOutcome name db (inr tt) db
  | FileApplied (l l' : list string) (content : string) (work : Database) :
      fault env (OpCheck name) = false ->
      ledger db = Some l ->
      name ∉ l ->
      readFile env migrationsDir name = Some content ->
      fault env (OpBegin name) = false ->
      execScript env content db = Some work ->
      ledger work = Some l' ->
      name ∉ l' ->
      fault env (OpCommit name) = false ->
      FileOutcome name db (inr tt)
                  {| schema := schema work; ledger := Some (l' ++ [name])%list |}
  | FileCheckFailed :
      fault env (OpCheck name) = true ∨ ledger db = None ->
      FileOutcome name db (inl ("check migration " ++ name)) db
  | FileUnreadable (l : list string) :
      fault env (OpCheck name) = false ->
      ledger db = Some l ->
      name ∉ l ->
      readFile env migrationsDir name = None ->
      FileOutcome name db (inl ("read migration " ++ name)) db
  | FileNoTransaction (l : list string) (content : string) :
      fault env (OpCheck name) = false ->
      ledger db = Some l ->
      name ∉ l ->
      readFile env migrationsDir name = Some content ->
      fault env (OpBegin name) = true ->
      FileOutcome name db (inl ("start migration tx " ++ name)) db
  | FileScriptFailed (l : list string) (content : string) :
      fault env (OpCheck name) = false ->
      ledger db = Some l ->
      name ∉ l ->
      readFile env migrationsDir name = Some content ->
      fault env (OpBegin name) = false ->
      execScript env content db = None ->
      FileOutcome name db (inl ("run migration " ++ name)) db
  | FileLedgerFailed (l : list string) (content : string) (work : Database) :
      fault env (OpCheck name) = false ->
      ledger db = Some l ->
      name ∉ l ->
      readFile env migrationsDir name = Some content ->
      fault env (OpBegin name) = false ->
      execScript env content db = Some work ->
      ledger work = None ∨ (∃ l', ledger work = Some l' ∧ name ∈ l') ->
      FileOutcome name db (inl ("persist migration " ++ name)) db
  | FileCommitFailed (l l' : list string) (content : string) (work : Database) :
      fault env (OpCheck name) = false ->
      ledger db = Some l ->
      name ∉ l ->
      readFile env migrationsDir name = Some content ->
      fault env (OpBegin name) = false ->
      execScript env content db = Some work ->
      ledger work = Some l' ->
      name ∉ l' ->
      fault env (OpCommit name) = true ->
      FileOutcome name db (inl ("commit migration " ++ name)) db.

(** The files are taken in the given order; the first failure ends the
    run with its error. *)
Inductive RunOutcome : list string -> Database -> string + unit -> Database -> Prop :=
  | RunDone (db : Database) : RunOutcome [] db (inr tt) db
  | RunNext (name : string) (rest : list string) (db db1 db2 : Database)
            (res : string + unit) :
      FileOutcome name db (inr tt) db1 ->
      RunOutcome rest db1 res db2 ->
      RunOutcome (name :: rest) db res db2
  | RunAborted (name : string) (rest : list string) (db : Database) (e : string) :
      FileOutcome name db (inl e) db ->
      RunOutcome (name :: rest) db (inl e) db.

End RunnerSpec.

(** The database once the ledger table is ensured. *)
Definition ensured (db : Database) : Database :=
  {| schema := schema db;
     ledger := Some (match ledger db with Some l => l | None => [] end) |}.

(** *** A sample directory *)

Definition sampleFiles : list DirEntry :=
  [ {| Name := "002_b.sql"; IsDir := false |};
    {| Name := "001_a.sql"; IsDir := false |};
    {| Name := "notes.txt"; IsDir := false |};
    {| Name := "000_dir.sql"; IsDir := true |} ].

(** Every file holds its own name as script; a script succeeds unless it
    is ["002_b.sql"], and adds itself to the schema. *)
Definition sampleEnv : Env :=
  {| readDir := fun _ => Some sampleFiles;
     readFile := fun _ name => Some name;
     execScript := fun content db =>
       if decide (content = "002_b.sql") then None
       else Some {| schema := (schema db ++ [content])%list;
                    ledger := ledger db |};
     fault := fun _ => false |}.

Definition freshDatabase : Database := {| schema := []; ledger := None |}.

End Migrate.

(** ** PostgreSQL: the byte strings the server takes as [text] *)

Module Pg.

(** A continuation byte of UTF-8. *)
Definition continuation (b : N) : bool := ((128 <=? b) && (b <=? 191))%N.

(** The second byte the server allows after the leading byte [b0] of a
    sequence of three or four bytes: no overlong form, no surrogate,
    nothing beyond U+10FFFF. *)
Definition second (b0 b1 : N) : bool :=
  (if b0 =? 224 then (160 <=? b1) && (b1 <=? 191)
   else if b0 =? 237 then (128 <=? b1) && (b1 <=? 159)
   else if b0 =? 240 then (144 <=? b1) && (b1 <=? 191)
   else if b0 =? 244 then (128 <=? b1) && (b1 <=? 143)
   else continuation b1)%N.

(** The check a database of encoding UTF8 runs on every text value it
    receives: no NUL byte, and every sequence a well-formed UTF-8
    encoding. *)
Fixpoint wellFormed (s : list N) : bool :=
  match s with
  | [] => true
  | b0 :: s1 =>
      if (b0 =? 0)%N then false
      else if (b0 <? 128)%N then wellFormed s1
      else if (b0 <? 194)%N then false
      else if (b0 <? 224)%N then
        match s1 with
        | b1 :: s2 => continuation b1 && wellFormed s2
        | _ => false
        end
      else if (b0 <? 240)%N then
        match s1 with
        | b1 :: b2 :: s3 => second b0 b1 && continuation b2 && wellFormed s3
        | _ => false
        end
      else if (b0 <=? 244)%N then
        match s1 with
        | b1 :: b2 :: b3 :: s4 =>
            second b0 b1 && continuation b2 && continuation b3 && wellFormed s4
        | _ => false
        end
      else false
  end.

(** Whether the server takes the bytes of [s] as a value of type [text];
    a statement with a text parameter it does not take fails before it
    runs. *)
Definition validText (s : string) : bool :=
  wellFormed (N_of_ascii <$> list_ascii_of_string s).

End Pg.

(** ** Data model ([db/migrations/001_init.sql], [type note]) *)

(** [uuid.UUID]: a 128-bit value. *)
Definition UUID : Type := N.

(** [time.Time] / [timestamptz]: microseconds on the server clock. *)
Definition Time : Type := Z.

Record note := {
  ID : UUID;
  Title : string;
  Content : string;
  Tags : list string;
  IsFavorite : bool;
  CreatedAt : Time;
  UpdatedAt : Time
}.

(** A row of [sessions]. *)
Record session := {
  session_id : UUID;
  session_token : string;
  session_created_at : Time;
  session_expires_at : Time
}.

(** The database behind the pool: both tables in storage order, and whether
    the pool reaches the server ([online = false]: every statement returns
    an error).  A statement with a text parameter the server does not take
    ([Pg.validText]) returns an error as well. *)
Record Store := {
  notes : list note;
  sessions : list session;
  online : bool
}.

#[global] Instance note_eq_dec : EqDecision note.
Proof. solve_decision. Defined.

#[global] Instance session_eq_dec : EqDecision session.
Proof. solve_decision. Defined.

(** [a] may come before [b] under [ORDER BY updated_at DESC]. *)
Definition newerFirst (a b : note) : Prop := (UpdatedAt b <= UpdatedAt a)%Z.

#[global] Instance newerFirst_dec : RelDecision newerFirst.
Proof. intros a b. unfold newerFirst. apply _. Defined.

(** What the handlers take from outside the repository. *)
Class Platform := {
  (** [strings.Map(unicode.ToLower, s)], the path of [strings.ToLower] for
      strings with a non-ASCII byte. *)
  mapUnicodeLower : string -> string;
  (** PostgreSQL's [text ILIKE pattern], taken as a total function: the
      patterns of the handlers end in ["%"], and the server rejects only
      a pattern that ends in a lone escape character. *)
  ilike : string -> string -> bool;
  (** [uuid.Parse]. *)
  uuidParse : string -> option UUID
}.

(** ** HTTP requests and responses *)

(** The JSON body of create and update. *)
Record noteRequest := {
  reqTitle : string;
  reqContent : string;
  reqTags : list string;
  reqIsFavorite : bool
}.

(** The parts of [*http.Request] the handlers read. *)
Record Request := {
  (** [r.Cookie(cfg.SessionCookieName)]: [None] when the cookie is absent. *)
  cookieValue : option string;
  (** [r.URL.Query()], in order of appearance. *)
  urlQuery : list (string * string);
  (** [chi.URLParam(r, "id")]. *)
  urlParamID : string;
  (** [json.Decode] of the body into the create/update request; [None]
      when decoding fails. *)
  bodyNote : option noteRequest;
  (** [json.Decode] of the body into the favorite request. *)
  bodyFavorite : option bool;
  (** The value stored under [sessionTokenKey] in the request context. *)
  ctxSessionToken : option string
}.

(** What a handler reads from the server besides the store: the clock
    ([NOW()]) and the next [uuid.New()]. *)
Record Sys := {
  now : Time;
  newUUID : UUID
}.

(** A request as [requireSession] hands it to the next handler. *)
Definition withSessionToken (r : Request) (tok : string) : Request :=
  {| cookieValue := cookieValue r; urlQuery := urlQuery r;
     urlParamID := urlParamID r; bodyNote := bodyNote r;
     bodyFavorite := bodyFavorite r; ctxSessionToken := Some tok |}.

Inductive Payload :=
  | PError (message : string)
  | POk
  | PNote (n : note)
  | PList (items : list note) (page limit total : Z)
  | PEmpty.

(** A [Set-Cookie] header for the session cookie: value and expiry. *)
Record SetCookie := {
  setValue : string;
  setExpires : Time
}.

Record Response := {
  status : Z;
  payload : Payload;
  setCookie : option SetCookie
}.

Definition Handler : Type := Request -> Sys -> Store -> Response * Store.

Definition StatusOK : Z := 200.
Definition StatusCreated : Z := 201.
Definition StatusNoContent : Z := 204.
Definition StatusBadRequest : Z := 400.
Definition StatusUnauthorized : Z := 401.
Definition StatusNotFound : Z := 404.
Definition StatusInternalServerError : Z := 500.

Definition writeJSON (st : Z) (p : Payload) : Response :=
  {| status := st; payload := p; setCookie := None |}.

Definition writeError (st : Z) (message : string) : Response :=
  writeJSON st (PError message).

(** [clearSessionCookie] followed by [writeJSON]. *)
Definition withClearedCookie (r : Response) : Response :=
  {| status := status r; payload := payload r;
     setCookie := Some {| setValue := ""; setExpires := 0%Z |} |}.

(** [url.Values.Get]: the first value of the key, [""] when there is none. *)
Fixpoint Get (q : list (string * string)) (key : string) : string :=
  match q with
  | [] => ""
  | (k, v) :: q' => if decide (k = key) then v else Get q' key
  end.

(** ** Helpers of [internal/app] *)

Definition parsePositiveInt (raw : string) (fallback : Z) : Z :=
  if decide (raw = "") then fallback
  else match Go.Atoi raw with
       | None => fallback
       | Some value => if (value <=? 0)%Z then fallback else value
       end.

Section App.
Context {pf : Platform}.

Definition ToLower : string -> string := Go.ToLower mapUnicodeLower.

(** The body of the loop of [sanitizeTags]: [uniq] is the set of tags
    seen, [clean] the result so far. *)
Definition sanitizeStep (acc : gset string * list string) (tag : string)
  : gset string * list string :=
  let '(uniq, clean) := acc in
  let t := ToLower (Go.TrimSpace tag) in
  if decide (t = "") then (uniq, clean)
  else
    let t := if (32 <? String.length t)%nat then substring 0 32 t else t in
    if decide (t ∈ uniq) then (uniq, clean)
    else ({[ t ]} ∪ uniq, (clean ++ [t])%list).

Definition sanitizeTags (tags : list string) : list string :=
  if decide (List.length tags = 0%nat) then []
  else (foldl sanitizeStep (∅, []) tags).2.

Definition parseUUIDParam (r : Request) : string + UUID :=
  let raw := urlParamID r in
  if decide (raw = "") then inl "id is required"
  else match uuidParse raw with
       | None => inl "invalid id"
       | Some parsed => inr parsed
       end.

(** *** The SQL statements, over [Store] *)

(** [SELECT EXISTS(SELECT 1 FROM sessions WHERE token = $1 AND
    expires_at > NOW())].  The token comes from a cookie value, which
    [net/http] hands out only when made of printable ASCII bytes: text the
    server takes. *)
Definition sessionExists (tok : string) (t : Time) (st : Store) : option bool :=
  if online st
  then Some (existsb (fun s => bool_decide (session_token s = tok)
                                 && (t <? session_expires_at s)%Z)
                     (sessions st))
  else None.

(** [DELETE FROM sessions WHERE token = $1]. *)
Definition deleteSession (tok : string) (st : Store) : option Store :=
  if online st
  then Some {| notes := notes st;
               sessions := List.filter
                             (fun s => negb (bool_decide (session_token s = tok)))
                             (sessions st);
               online := online st |}
  else None.

(** The [WHERE] clause of [countQuery]. *)
Definition countWhere (q tag : string) (favorite : option bool) (n : note)
  : bool :=
  (bool_decide (q = "")
     || ilike (Title n) ("%" ++ q ++ "%")
     || ilike (Content n) ("%" ++ q ++ "%"))
  && (bool_decide (tag = "") || bool_decide (tag ∈ Tags n))
  && match favorite with
     | None => true
     | Some b => Bool.eqb (IsFavorite n) b
     end.

(** The [WHERE] clause of the statement selecting the page. *)
Definition pageWhere (q tag : string) (favorite : option bool) (n : note)
  : bool :=
  (bool_decide (q = "")
     || ilike (Title n) ("%" ++ q ++ "%")
     || ilike (Content n) ("%" ++ q ++ "%"))
  && (bool_decide (tag = "") || bool_decide (tag ∈ Tags n))
  && match favorite with
     | None => true
     | Some b => Bool.eqb (IsFavorite n) b
     end.

(** [SELECT COUNT( * ) FROM notes WHERE ...]; [$1] and [$2] are text. *)
Definition countNotes (q tag : string) (favorite : option bool) (st : Store)
  : option Z :=
  if online st
  then if Pg.validText q && Pg.validText tag
       then Some (Z.of_nat (List.length (List.filter (countWhere q tag favorite)
                                                     (notes st))))
       else None
  else None.

(** [ORDER BY updated_at DESC].  Rows with equal [updated_at] come in an
    order the engine chooses anew in every statement; the order of the
    merge stands for one such choice, so that only what holds of every
    sorted permutation of the rows, or of rows without ties, is to be read
    off it. *)
Definition orderByUpdatedAtDesc (rows : list note) : list note :=
  merge_sort newerFirst rows.

(** [SELECT ... FROM notes WHERE ... ORDER BY updated_at DESC LIMIT $4
    OFFSET $5]; [$1] and [$2] are text; a negative [LIMIT] or [OFFSET] is
    an error of the statement. *)
Definition selectPage (q tag : string) (favorite : option bool)
           (limit offset : Z) (st : Store) : option (list note) :=
  if online st
  then if Pg.validText q && Pg.validText tag
       then if ((limit <? 0) || (offset <? 0))%Z then None
            else Some (take (Z.to_nat limit)
                         (drop (Z.to_nat offset)
                            (orderByUpdatedAtDesc
                               (List.filter (pageWhere q tag favorite)
                                            (notes st)))))
       else None
  else None.

(** [SELECT ... FROM notes WHERE id = $1]: [Some None] is [pgx.ErrNoRows]. *)
Definition selectNote (id : UUID) (st : Store) : option (option note) :=
  if online st
  then Some (List.find (fun n => bool_decide (ID n = id)) (notes st))
  else None.

(** The text parameters of the statements writing a note: the title, the
    content and every element of the tags. *)
Definition noteTexts (title content : string) (tags : list string)
  : list string :=
  title :: content :: tags.

(** [INSERT INTO notes (id, title, content, tags, is_favorite) VALUES ...
    RETURNING ...]: title, content and tags are text, [id] is the primary
    key, both timestamps default to [now()]. *)
Definition insertNote (id : UUID) (title content : string) (tags : list string)
           (fav : bool) (t : Time) (st : Store) : option (note * Store) :=
  if online st
  then if forallb Pg.validText (noteTexts title content tags)
       then if existsb (fun n => bool_decide (ID n = id)) (notes st) then None
            else let n := {| ID := id; Title := title; Content := content;
                             Tags := tags; IsFavorite := fav;
                             CreatedAt := t; UpdatedAt := t |} in
                 Some (n, {| notes := (notes st ++ [n])%list;
                             sessions := sessions st;
                             online := online st |})
       else None
  else None.

(** [UPDATE notes SET ... WHERE id = $1 RETURNING ...] with the row
    rewritten by [f]; [texts] are the text parameters of the statement. *)
Definition updateNote (id : UUID) (texts : list string) (f : note -> note)
           (st : Store) : option (option note * Store) :=
  if online st
  then if forallb Pg.validText texts
       then Some (f <$> List.find (fun n => bool_decide (ID n = id)) (notes st),
                  {| notes := (fun n => if bool_decide (ID n = id) then f n else n)
                                <$> notes st;
                     sessions := sessions st;
                     online := online st |})
       else None
  else None.

(** [DELETE FROM notes WHERE id = $1], with [RowsAffected]. *)
Definition deleteNote (id : UUID) (st : Store) : option (nat * Store) :=
  if online st
  then let gone := List.filter (fun n => bool_decide (ID n = id)) (notes st) in
       Some (List.length gone,
             {| notes := List.filter (fun n => negb (bool_decide (ID n = id)))
                                     (notes st);
                sessions := sessions st;
                online := online st |})
  else None.

(** *** Session gate and logout *)

Definition requireSession (next : Handler) : Handler :=
  fun r sys st =>
    match cookieValue r with
    | None => (writeError StatusUnauthorized "unauthorized", st)
    | Some value =>
        if decide (Go.TrimSpace value = "")
        then (writeError StatusUnauthorized "unauthorized", st)
        else
          let token := Go.TrimSpace value in
          match sessionExists token (now sys) st with
          | None => (writeError StatusInternalServerError "database error", st)
          | Some false => (writeError StatusUnauthorized "unauthorized", st)
          | Some true => next (withSessionToken r token) sys st
          end
    end.

Definition handleLogout : Handler :=
  fun r sys st =>
    let st' :=
      match cookieValue r with
      | None => st
      | Some value =>
          if decide (Go.TrimSpace value = "") then st
          else match deleteSession value st with
               | Some st' => st'
               | None => st
               end
      end in
    (withClearedCookie (writeJSON StatusOK POk), st').

(** *** Notes handlers *)

Definition handleListNotes : Handler :=
  fun r sys st =>
    let query := Go.TrimSpace (Get (urlQuery r) "query") in
    let tag := Go.TrimSpace (Get (urlQuery r) "tag") in
    let favoriteRaw := Go.TrimSpace (Get (urlQuery r) "favorite") in
    let parsedFavorite : option (option bool) :=
      if decide (favoriteRaw = "") then Some None
      else match Go.ParseBool favoriteRaw with
           | None => None
           | Some parsed => Some (Some parsed)
           end in
    match parsedFavorite with
    | None => (writeError StatusBadRequest "favorite must be true or false", st)
    | Some favorite =>
        let page := parsePositiveInt (Get (urlQuery r) "page") 1 in
        let limit := parsePositiveInt (Get (urlQuery r) "limit") 30 in
        let limit := if (100 <? limit)%Z then 100%Z else limit in
        let offset := Go.wrap64 ((page - 1) * limit) in
        match countNotes query tag favorite st with
        | None => (writeError StatusInternalServerError "database error", st)
        | Some total =>
            match selectPage query tag favorite limit offset st with
            | None => (writeError StatusInternalServerError "database error", st)
            | Some items => (writeJSON StatusOK (PList items page limit total), st)
            end
        end
    end.

Definition handleGetNote : Handler :=
  fun r sys st =>
    match parseUUIDParam r with
    | inl err => (writeError StatusBadRequest err, st)
    | inr noteID =>
        match selectNote noteID st with
        | Some None => (writeError StatusNotFound "note not found", st)
        | None => (writeError StatusInternalServerError "database error", st)
        | Some (Some n) => (writeJSON StatusOK (PNote n), st)
        end
    end.

Definition handleCreateNote : Handler :=
  fun r sys st =>
    match bodyNote r with
    | None => (writeError StatusBadRequest "invalid json body", st)
    | Some req =>
        let title := Go.TrimSpace (reqTitle req) in
        let title := if decide (title = "") then "Untitled" else title in
        let content := reqContent req in
        let tags := sanitizeTags (reqTags req) in
        match insertNote (newUUID sys) title content tags (reqIsFavorite req)
                         (now sys) st with
        | None => (writeError StatusInternalServerError "database error", st)
        | Some (n, st') => (writeJSON StatusCreated (PNote n), st')
        end
    end.

Definition handleUpdateNote : Handler :=
  fun r sys st =>
    match parseUUIDParam r with
    | inl err => (writeError StatusBadRequest err, st)
    | inr noteID =>
        match bodyNote r with
        | None => (writeError StatusBadRequest "invalid json body", st)
        | Some req =>
            let title := Go.TrimSpace (reqTitle req) in
            let title := if decide (title = "") then "Untitled" else title in
            let tags := sanitizeTags (reqTags req) in
            let set (n : note) : note :=
              {| ID := ID n; Title := title; Content := reqContent req;
                 Tags := tags; IsFavorite := reqIsFavorite req;
                 CreatedAt := CreatedAt n; UpdatedAt := now sys |} in
            match updateNote noteID (noteTexts title (reqContent req) tags)
                             set st with
            | Some (None, st') => (writeError StatusNotFound "note not found", st')
            | None => (writeError StatusInternalServerError "database error", st)
            | Some (Some n, st') => (writeJSON StatusOK (PNote n), st')
            end
        end
    end.

Definition handleDeleteNote : Handler :=
  fun r sys st =>
    match parseUUIDParam r with
    | inl err => (writeError StatusBadRequest err, st)
    | inr noteID =>
        match deleteNote noteID st with
        | None => (writeError StatusInternalServerError "database error", st)
        | Some (O, st') => (writeError StatusNotFound "note not found", st')
        | Some (_, st') => (writeJSON StatusNoContent PEmpty, st')
        end
    end.

Definition handleFavoriteNote : Handler :=
  fun r sys st =>
    match parseUUIDParam r with
    | inl err => (writeError StatusBadRequest err, st)
    | inr noteID =>
        match bodyFavorite r with
        | None => (writeError StatusBadRequest "invalid json body", st)
        | Some value =>
            let set (n : note) : note :=
              {| ID := ID n; Title := Title n; Content := Content n;
                 Tags := Tags n; IsFavorite := value;
                 CreatedAt := CreatedAt n; UpdatedAt := now sys |} in
            match updateNote noteID [] set st with
            | Some (None, st') => (writeError StatusNotFound "note not found", st')
            | None => (writeError StatusInternalServerError "database error", st)
            | Some (Some n, st') => (writeJSON StatusOK (PNote n), st')
            end
        end
    end.

End App.

(** ** [encoding/base64]: the raw URL encoding *)

Module Base64.

(** [encodeURL]. *)
Definition alphabet : string :=
  "ABCDEFGHIJKLMNOPQRSTUVWXYZabcdefghijklmnopqrstuvwxyz0123456789-_".

(** The character of a 6-bit value. *)
Definition char (v : N) : ascii :=
  match String.get (N.to_nat (N.land v 63)) alphabet with
  | Some c => c
  | None => "A"%char
  end.

(** [RawURLEncoding.EncodeToString]: three bytes give four characters, a
    rest of one byte two, of two bytes three; no padding. *)
Fixpoint encode (src : list ascii) : string :=
  match src with
  | b0 :: b1 :: b2 :: rest =>
      let val := N.lor (N.lor (N.shiftl (N_of_ascii b0) 16)
                              (N.shiftl (N_of_ascii b1) 8))
                       (N_of_ascii b2) in
      String (char (N.shiftr val 18))
        (String (char (N.shiftr val 12))
           (String (char (N.shiftr val 6))
              (String (char val) (encode rest))))
  | [b0; b1] =>
      let val := N.lor (N.shiftl (N_of_ascii b0) 16)
                       (N.shiftl (N_of_ascii b1) 8) in
      String (char (N.shiftr val 18))
        (String (char (N.shiftr val 12))
           (String (char (N.shiftr val 6)) EmptyString))
  | [b0] =>
      let val := N.shiftl (N_of_ascii b0) 16 in
      String (char (N.shiftr val 18))
        (String (char (N.shiftr val 12)) EmptyString)
  | [] => EmptyString
  end.

End Base64.

(** ** [internal/config] *)

Module config.

Record Config := {
  Port : string;
  DatabaseURL : string;
  AppPassword : string;
  SessionCookieName : string;
  (** A [time.Duration]: nanoseconds. *)
  SessionTTL : Z;
  CookieSecure : bool;
  CookieDomain : string;
  AllowedOrigin : string;
  MigrationsDir : string
}.

(** The errors of [Load]. *)
Inductive LoadError :=
  | InvalidSessionTTLHours (raw : string)
  | DatabaseURLRequired
  | AppPasswordRequired.

(** [time.Hour]. *)
Definition Hour : Z := 3600000000000.

(** [strings.EqualFold(s, "true")]: the letters of ["true"] have no case
    variant outside ASCII, so the comparison is the one of the ASCII
    lowering. *)
Definition equalFoldTrue (s : string) : bool :=
  bool_decide (Go.mapBytes Go.lowerByte s = "true").

Section Load.
(** [os.Getenv]: the value of a variable, [""] when it is not set. *)
Variable Getenv : string -> string.

Definition getEnv (key fallback : string) : string :=
  let value := Go.TrimSpace (Getenv key) in
  if decide (value ≠ "") then value else fallback.

Definition Load : LoadError + Config :=
  let sessionHours := getEnv "SESSION_TTL_HOURS" "168" in
  match Go.Atoi sessionHours with
  | None => inl (InvalidSessionTTLHours sessionHours)
  | Some hours =>
      if (hours <=? 0)%Z then inl (InvalidSessionTTLHours sessionHours)
      else
        let cfg :=
          {| Port := getEnv "PORT" "8080";
             DatabaseURL := Go.TrimSpace (Getenv "DATABASE_URL");
             AppPassword := Go.TrimSpace (Getenv "APP_PASSWORD");
             SessionCookieName := getEnv "SESSION_COOKIE_NAME" "notes_session";
             SessionTTL := Go.wrap64 (hours * Hour);
             CookieSecure := equalFoldTrue (getEnv "SESSION_COOKIE_SECURE" "false");
             CookieDomain := Go.TrimSpace (Getenv "SESSION_COOKIE_DOMAIN");
             AllowedOrigin := Go.TrimSpace (Getenv "ALLOWED_ORIGIN");
             MigrationsDir := getEnv "MIGRATIONS_DIR" "../db/migrations" |} in
        if decide (DatabaseURL cfg = "") then inl DatabaseURLRequired
        else if decide (AppPassword cfg = "") then inl AppPasswordRequired
        else inr cfg
  end.

End Load.

End config.

(** ** Login, session status and the routes *)

(** [crypto/rand]: whether [rand.Read] fails, and the bytes it delivers. *)
Record Entropy := {
  randFails : bool;
  randByte : nat -> ascii
}.

(** [generateSessionToken]: 32 random bytes in the raw URL encoding. *)
Definition generateSessionToken (e : Entropy) : option string :=
  if randFails e then None
  else Some (Base64.encode (randByte e <$> seq 0 32)).

(** [INSERT INTO sessions (id, token, expires_at) VALUES ($1, $2, $3)]:
    [id] is the primary key, [token] is unique, [created_at] defaults to
    [now()]. *)
Definition insertSession (id : UUID) (tok : string) (expiresAt t : Time)
           (st : Store) : option Store :=
  if online st
  then if existsb (fun s => bool_decide (session_id s = id)
                            || bool_decide (session_token s = tok))
                  (sessions st)
       then None
       else Some {| notes := notes st;
                    sessions := (sessions st ++
                                 [ {| session_id := id; session_token := tok;
                                      session_created_at := t;
                                      session_expires_at := expiresAt |} ])%list;
                    online := online st |}
  else None.

(** [setSessionCookie] followed by [writeJSON]. *)
Definition withSessionCookie (tok : string) (expiresAt : Time) (r : Response)
  : Response :=
  {| status := status r; payload := payload r;
     setCookie := Some {| setValue := tok; setExpires := expiresAt |} |}.

(** [handleLogin].  [password] is [json.Decode] of the body into the login
    request ([None] when decoding fails); [subtle.ConstantTimeCompare] is 1
    exactly for equal byte strings; [time.Now()] is the clock of [NOW()],
    and the expiry is kept in microseconds as the column does. *)
Definition handleLogin (cfg : config.Config) (password : option string)
           (e : Entropy) : Handler :=
  fun r sys st =>
    match password with
    | None => (writeError StatusBadRequest "invalid json body", st)
    | Some pw =>
        if negb (bool_decide (pw = config.AppPassword cfg))
        then (writeError StatusUnauthorized "invalid password", st)
        else
          match generateSessionToken e with
          | None =>
              (writeError StatusInternalServerError "failed to create session", st)
          | Some token =>
              let expiresAt := (now sys + config.SessionTTL cfg / 1000)%Z in
              match insertSession (newUUID sys) token expiresAt (now sys) st with
              | None =>
                  (writeError StatusInternalServerError "database error", st)
              | Some st' =>
                  (withSessionCookie token expiresAt (writeJSON StatusOK POk), st')
              end
          end
    end.

(** The bodies [handleSessionStatus] writes. *)
Inductive StatusBody :=
  | SBAuthenticated (authenticated : bool)
  | SBError (message : string).

Record StatusReply := {
  srStatus : Z;
  srBody : StatusBody;
  srSetCookie : option SetCookie
}.

Definition clearedCookie : SetCookie := {| setValue := ""; setExpires := 0%Z |}.

(** [handleSessionStatus]: the look-up is by the cookie value as it came. *)
Definition handleSessionStatus (r : Request) (sys : Sys) (st : Store)
  : StatusReply * Store :=
  match cookieValue r with
  | None =>
      ({| srStatus := StatusOK; srBody := SBAuthenticated false;
          srSetCookie := None |}, st)
  | Some value =>
      if decide (Go.TrimSpace value = "")
      then ({| srStatus := StatusOK; srBody := SBAuthenticated false;
               srSetCookie := None |}, st)
      else
        match sessionExists value (now sys) st with
        | None =>
            ({| srStatus := StatusInternalServerError;
                srBody := SBError "database error"; srSetCookie := None |}, st)
        | Some false =>
            ({| srStatus := StatusOK; srBody := SBAuthenticated false;
                srSetCookie := Some clearedCookie |}, st)
        | Some true =>
            ({| srStatus := StatusOK; srBody := SBAuthenticated true;
                srSetCookie := None |}, st)
        end
  end.

(** The routes of [mountRoutes], as chi has matched method and path. *)
Inductive Route :=
  | GetHealth
  | PostAuthLogin
  | PostAuthLogout
  | GetAuthSession
  | GetNotes
  | PostNotes
  | GetNote
  | PutNote
  | DeleteNote
  | PostNoteFavorite.

(** What a route answers. *)
Inductive Reply :=
  | ReplyJSON (r : Response)
  | ReplyStatus (r : StatusReply)
  | ReplyHealth.

(** A request with what only [handleLogin] reads. *)
Record Inbound := {
  inRequest : Request;
  inPassword : option string;
  inEntropy : Entropy
}.

Section Routes.
Context {pf : Platform}.

(** The handler [mountRoutes] mounts on a route; the notes routes are the
    group using [requireSession]. *)
Definition serve (cfg : config.Config) (route : Route) (i : Inbound) (sys : Sys)
           (st : Store) : Reply * Store :=
  let json (h : Handler) :=
    let '(resp, st') := h (inRequest i) sys st in (ReplyJSON resp, st') in
  match route with
  | GetHealth => (ReplyHealth, st)
  | PostAuthLogin => json (handleLogin cfg (inPassword i) (inEntropy i))
  | PostAuthLogout => json handleLogout
  | GetAuthSession =>
      let '(resp, st') := handleSessionStatus (inRequest i) sys st in
      (ReplyStatus resp, st')
  | GetNotes => json (requireSession handleListNotes)
  | PostNotes => json (requireSession handleCreateNote)
  | GetNote => json (requireSession handleGetNote)
  | PutNote => json (requireSession handleUpdateNote)
  | DeleteNote => json (requireSession handleDeleteNote)
  | PostNoteFavorite => json (requireSession handleFavoriteNote)
  end.

End Routes.

(** A platform for running the handlers on ASCII input: strings with a
    non-ASCII byte are left as they are by the Unicode path, [ILIKE] is only
    decided for the pattern ["%%"], any non-empty run of decimal digits
    parses as the identifier of that value. *)
Definition asciiPlatform : Platform :=
  {| mapUnicodeLower := fun s => s;
     ilike := fun _ pat => bool_decide (pat = "%%");
     uuidParse := fun s => match Go.digitsFrom 0 s with
                           | Some z => Some (Z.to_N z)
                           | None => None
                           end |}.

(** ** Specification-side definitions *)

Section SpecDefs.
Context {pf : Platform}.

(** The tag normalisation in the words of the specification: lowercase,
    trim, truncate to 32. *)
Definition normalizeTag (tag : string) : string :=
  substring 0 32 (ToLower (Go.TrimSpace tag)).

(** De-duplication preserving the first occurrence. *)
Fixpoint dedupFirst (l : list string) : list string :=
  match l with
  | [] => []
  | x :: r => x :: filter (fun y => y ≠ x) (dedupFirst r)
  end.

(** The stored tags in the words of the specification. *)
Definition specTags (tags : list string) : list string :=
  dedupFirst (filter (fun t => t ≠ "") (normalizeTag <$> tags)).

(** The title normalisation in the words of the specification: trim;
    empty becomes ["Untitled"]. *)
Definition normalizeTitle (submitted : string) : string :=
  if decide (Go.TrimSpace submitted = "") then "Untitled"
  else Go.TrimSpace submitted.

(** The row a create request stores. *)
Definition createdNote (req : noteRequest) (sys : Sys) : note :=
  {| ID := newUUID sys;
     Title := normalizeTitle (reqTitle req);
     Content := reqContent req;
     Tags := sanitizeTags (reqTags req);
     IsFavorite := reqIsFavorite req;
     CreatedAt := now sys;
     UpdatedAt := now sys |}.

(** The row an update request leaves in place of [old]. *)
Definition updatedNote (req : noteRequest) (sys : Sys) (old : note) : note :=
  {| ID := ID old;
     Title := normalizeTitle (reqTitle req);
     Content := reqContent req;
     Tags := sanitizeTags (reqTags req);
     IsFavorite := reqIsFavorite req;
     CreatedAt := CreatedAt old;
     UpdatedAt := now sys |}.

(** The server takes as text what a create or an update of [req] binds to
    its statement: the normalised title, the content and the stored
    tags. *)
Definition textAccepted (req : noteRequest) : Prop :=
  forallb Pg.validText
          (noteTexts (normalizeTitle (reqTitle req)) (reqContent req)
                     (sanitizeTags (reqTags req))) = true.

(** The tag list the specification allows to store for [tags]. *)
Definition tagsWellStored (tags stored : list string) : Prop :=
  NoDup stored
  ∧ ("" ∉ stored)
  ∧ Forall (fun t => (String.length t <= 32)%nat) stored
  ∧ (∀ t, t ∈ stored ↔ t ≠ "" ∧ ∃ tag, tag ∈ tags ∧ t = normalizeTag tag)
  ∧ stored = specTags tags.

End SpecDefs.

(** *** What [handleListNotes] reads off the URL *)

Section ListSpec.
Context {pf : Platform}.

Definition listQuery (r : Request) : string :=
  Go.TrimSpace (Get (urlQuery r) "query").

Definition listTag (r : Request) : string :=
  Go.TrimSpace (Get (urlQuery r) "tag").

Definition favoriteRaw (r : Request) : string :=
  Go.TrimSpace (Get (urlQuery r) "favorite").

(** The favorite filter: [None] when the parameter is rejected,
    [Some None] when there is no filter. *)
Definition favoriteFilter (r : Request) : option (option bool) :=
  if decide (favoriteRaw r = "") then Some None
  else match Go.ParseBool (favoriteRaw r) with
       | None => None
       | Some parsed => Some (Some parsed)
       end.

Definition listPage (r : Request) : Z :=
  parsePositiveInt (Get (urlQuery r) "page") 1.

Definition listLimit (r : Request) : Z :=
  let limit := parsePositiveInt (Get (urlQuery r) "limit") 30 in
  if (100 <? limit)%Z then 100%Z else limit.

Definition listOffset (r : Request) : Z :=
  Go.wrap64 ((listPage r - 1) * listLimit r).

(** The filter in the words of the specification: an optional query
    matched against title or content, an optional tag that must be among
    the tags of the note, an optional favorite flag; an empty query or tag
    matches every note. *)
Definition satisfiesFilter (q tag : string) (favorite : option bool) (n : note)
  : Prop :=
  (q = "" ∨ ilike (Title n) ("%" ++ q ++ "%") = true
          ∨ ilike (Content n) ("%" ++ q ++ "%") = true)
  ∧ (tag = "" ∨ tag ∈ Tags n)
  ∧ (∀ b, favorite = Some b -> IsFavorite n = b).

#[global] Instance satisfiesFilter_dec q tag favorite n :
  Decision (satisfiesFilter q tag favorite n).
Proof.
  unfold satisfiesFilter.
  assert (Decision (∀ b, favorite = Some b -> IsFavorite n = b)) as Hfav.
  { destruct favorite as [b|].
    - destruct (decide (IsFavorite n = b)) as [Hb|Hb].
      + left. by intros ? [= <-].
      + right. intros Hall. by apply Hb, Hall.
    - left. by intros ?. }
  apply _.
Defined.

(** The rows satisfying the filter of the request, in storage order. *)
Definition matchingRows (r : Request) (favorite : option bool) (st : Store)
  : list note :=
  filter (satisfiesFilter (listQuery r) (listTag r) favorite) (notes st).

(** No two of the rows share their [updated_at]: [ORDER BY updated_at
    DESC] leaves the engine no choice. *)
Definition noTies (rows : list note) : Prop :=
  NoDup (UpdatedAt <$> rows).

(** The slice of the ordered matching rows at [offset], [limit] long. *)
Definition pageSlice (r : Request) (favorite : option bool) (st : Store)
           (limit offset : Z) : list note :=
  take (Z.to_nat limit)
       (drop (Z.to_nat offset) (orderByUpdatedAtDesc (matchingRows r favorite st))).

(** The statements of [handleListNotes] once the favorite filter is
    known. *)
Definition listWith (favorite : option bool) (r : Request) (st : Store)
  : Response * Store :=
  match countNotes (listQuery r) (listTag r) favorite st with
  | None => (writeError StatusInternalServerError "database error", st)
  | Some total =>
      match selectPage (listQuery r) (listTag r) favorite
                       (listLimit r) (listOffset r) st with
      | None => (writeError StatusInternalServerError "database error", st)
      | Some items =>
          (writeJSON StatusOK (PList items (listPage r) (listLimit r) total), st)
      end
  end.

End ListSpec.

(** The literals [strconv.ParseBool] reads as true, and as false. *)
Definition trueLiterals : list string := ["1"; "t"; "T"; "TRUE"; "true"; "True"].
Definition falseLiterals : list string := ["0"; "f"; "F"; "FALSE"; "false"; "False"].

(** The [UNIQUE] constraint on [sessions.token]. *)
Definition uniqueTokens (st : Store) : Prop :=
  NoDup (session_token <$> sessions st).

(** The primary key of [notes]. *)
Definition uniqueIDs (st : Store) : Prop :=
  NoDup (ID <$> notes st).

(** Concatenations of encodings from the table [ws]. *)
Inductive Runs (ws : list (list ascii)) : list ascii -> Prop :=
  | Runs_nil : Runs ws []
  | Runs_cons (w s : list ascii) :
      w ∈ ws -> Runs ws s -> Runs ws (w ++ s).

(** A string made of white-space runes only (the empty string included). *)
Definition whitespaceOnly (s : string) : Prop :=
  Runs Go.spaceRunes (list_ascii_of_string s).

(** [s] starts with a white-space rune. *)
Definition startsWithSpace (s : string) : Prop :=
  ∃ w r, w ∈ Go.spaceRunes ∧ list_ascii_of_string s = (w ++ r)%list.

(** [s] ends with a white-space rune. *)
Definition endsWithSpace (s : string) : Prop :=
  ∃ w r, w ∈ Go.spaceRunes ∧ list_ascii_of_string s = (r ++ w)%list.

(** [t] is [s] without its surrounding white space. *)
Definition trimmedOf (s t : string) : Prop :=
  (∃ p q, list_ascii_of_string s
          = (p ++ list_ascii_of_string t ++ q)%list
          ∧ Runs Go.spaceRunes p ∧ Runs Go.spaceRunes q)
  ∧ ¬ startsWithSpace t ∧ ¬ endsWithSpace t.

(** The row [n] holds the title and the content of [req] as the
    specification wants them stored: ["Untitled"] for a title that is empty
    or made of white space only, any other title without its surrounding
    white space, the content as submitted. *)
Definition storedAsSubmitted (req : noteRequest) (n : note) : Prop :=
  (whitespaceOnly (reqTitle req) -> Title n = "Untitled")
  ∧ (¬ whitespaceOnly (reqTitle req) ->
     Title n = Go.TrimSpace (reqTitle req)
     ∧ trimmedOf (reqTitle req) (Title n)
     ∧ Title n ≠ "")
  ∧ Content n = reqContent req.

(** ** Sample data *)

(** A reachable, empty database. *)
Definition emptyStore : Store :=
  {| notes := []; sessions := []; online := true |}.

Definition sampleSys (t : Z) (id : N) : Sys :=
  {| now := t; newUUID := id |}.

Definition sys5 : Sys := sampleSys 5 1.

(** A request past the session gate with a JSON note body. *)
Definition noteBodyRequest (idParam : string) (req : noteRequest) : Request :=
  {| cookieValue := Some "tok"; urlQuery := []; urlParamID := idParam;
     bodyNote := Some req; bodyFavorite := None;
     ctxSessionToken := Some "tok" |}.

(** A request with a URL query and no body. *)
Definition queryRequest (idParam : string) (q : list (string * string)) : Request :=
  {| cookieValue := Some "tok"; urlQuery := q; urlParamID := idParam;
     bodyNote := None; bodyFavorite := None;
     ctxSessionToken := Some "tok" |}.

(** A request carrying only the session cookie. *)
Definition cookieRequest (value : string) : Request :=
  {| cookieValue := Some value; urlQuery := []; urlParamID := "";
     bodyNote := None; bodyFavorite := None; ctxSessionToken := None |}.

(** 31 letters, so that a 32nd byte is the last one kept. *)
Definition letters31 : string := "aaaaaaaaaaaaaaaaaaaaaaaaaaaaaaa".

Definition sampleNoteRequest : noteRequest :=
  {| reqTitle := "  "; reqContent := " x "; reqTags := ["A"; "a"; " a "];
     reqIsFavorite := false |}.

(** A session issued for the token ["tok"], valid until time 100, and the
    store holding it. *)
Definition sampleSession : session :=
  {| session_id := 9%N; session_token := "tok";
     session_created_at := 0%Z; session_expires_at := 100%Z |}.

Definition sessionStore : Store :=
  {| notes := []; sessions := [sampleSession]; online := true |}.

Definition sys200 : Sys := sampleSys 200 2.

Definition sys300 : Sys := sampleSys 300 3.

(** A request with white space around its title. *)
Definition paddedNoteRequest : noteRequest :=
  {| reqTitle := "  Shopping list "; reqContent := " x ";
     reqTags := ["Home"]; reqIsFavorite := true |}.

(** A handler standing for the one behind the session gate. *)
Definition okHandler : Handler := fun _ _ st => (writeJSON StatusOK POk, st).

(** The row [sampleNoteRequest] creates at [sys5] on the ASCII platform,
    and the store holding it. *)
Definition sampleNote : note :=
  {| ID := 1%N; Title := "Untitled"; Content := " x "; Tags := ["a"];
     IsFavorite := false; CreatedAt := 5%Z; UpdatedAt := 5%Z |}.

Definition sampleStore : Store :=
  {| notes := [sampleNote]; sessions := []; online := true |}.

(** A second row, last updated at time 50, and the store with both. *)
Definition otherNote : note :=
  {| ID := 2%N; Title := "other"; Content := "y"; Tags := [];
     IsFavorite := true; CreatedAt := 50%Z; UpdatedAt := 50%Z |}.

Definition twoNoteStore : Store :=
  {| notes := [sampleNote; otherNote]; sessions := []; online := true |}.

(** [sampleNote] after an update with [sampleNoteRequest] at [sys200]. *)
Definition sampleNoteUpdated : note :=
  {| ID := 1%N; Title := "Untitled"; Content := " x "; Tags := ["a"];
     IsFavorite := false; CreatedAt := 5%Z; UpdatedAt := 200%Z |}.

(** A tag whose 32nd byte is a space. *)
Definition spaceAt32Request : noteRequest :=
  {| reqTitle := "t"; reqContent := ""; reqTags := [letters31 ++ " b"];
     reqIsFavorite := false |}.

(** [k] notes, the one with identifier [i] last updated at time [i]. *)
Fixpoint numberedNotes (k : nat) : list note :=
  match k with
  | O => []
  | S k' => (numberedNotes k' ++
             [ {| ID := N.of_nat k; Title := "n"; Content := ""; Tags := [];
                  IsFavorite := false; CreatedAt := 0%Z;
                  UpdatedAt := Z.of_nat k |} ])%list
  end.

Definition fifteenNotes : Store :=
  {| notes := numberedNotes 15; sessions := []; online := true |}.

(** ** Further specification-side definitions *)

(** Scripts leave the entries of the ledger in place. *)
Definition keepsLedgerEntries (env : Migrate.Env) : Prop :=
  ∀ content d work l,
    Migrate.execScript env content d = Some work ->
    Migrate.ledger d = Some l ->
    ∃ l', Migrate.ledger work = Some l' ∧ l ⊆ l'.

(** A byte of the raw URL alphabet. *)
Definition urlSafe (c : ascii) : bool :=
  existsb (Ascii.eqb c) (list_ascii_of_string Base64.alphabet).

(** A directory like [Migrate.sampleFiles] whose scripts all succeed. *)
Definition calmEnv : Migrate.Env :=
  {| Migrate.readDir := fun _ => Some Migrate.sampleFiles;
     Migrate.readFile := fun _ name => Some name;
     Migrate.execScript := fun content db =>
       Some {| Migrate.schema := (Migrate.schema db ++ [content])%list;
               Migrate.ledger := Migrate.ledger db |};
     Migrate.fault := fun _ => false |}.

(** The database [calmEnv] leaves. *)
Definition migratedDatabase : Migrate.Database :=
  {| Migrate.schema := ["001_a.sql"; "002_b.sql"];
     Migrate.ledger := Some ["001_a.sql"; "002_b.sql"] |}.

(** An environment with the two required variables set. *)
Definition sampleGetenv (key : string) : string :=
  if decide (key = "DATABASE_URL") then " postgres://db/notes "
  else if decide (key = "APP_PASSWORD") then "secret"
  else "".

(** The largest [SESSION_TTL_HOURS] whose duration fits [int64]. *)
Definition maxTTLHours : Z := 2562047.

(** A configuration with the password ["secret"] and a TTL of 168 hours. *)
Definition sampleConfig : config.Config :=
  {| config.Port := "8080";
     config.DatabaseURL := "postgres://db/notes";
     config.AppPassword := "secret";
     config.SessionCookieName := "notes_session";
     config.SessionTTL := 604800000000000;
     config.CookieSecure := false;
     config.CookieDomain := "";
     config.AllowedOrigin := "";
     config.MigrationsDir := "../db/migrations" |}.

(** An entropy source delivering the byte 0 only; its token is 43 times
    ["A"]. *)
Definition zeroEntropy : Entropy :=
  {| randFails := false; randByte := fun _ => "000"%char |}.

Definition zeroToken : string :=
  "AAAAAAAAAAAAAAAAAAAAAAAAAAAAAAAAAAAAAAAAAAA".

(** What the schema and the handlers promise of a stored note: a title
    that is not empty, tags without duplicates and empty strings and of at
    most 32 bytes, and an update time not before the creation time. *)
Definition wellFormedNote (n : note) : Prop :=
  Title n ≠ ""
  ∧ NoDup (Tags n)
  ∧ ("" ∉ Tags n)
  ∧ Forall (fun t => (String.length t <= 32)%nat) (Tags n)
  ∧ (CreatedAt n <= UpdatedAt n)%Z.

(** The handlers that take the note id from the URL. *)
Definition takesNoteID {pf : Platform} (h : Handler) : Prop :=
  h = handleGetNote ∨ h = handleUpdateNote ∨ h = handleDeleteNote
  ∨ h = handleFavoriteNote.

(** The handlers of the notes routes. *)
Definition notesHandler {pf : Platform} (h : Handler) : Prop :=
  h = handleListNotes ∨ h = handleCreateNote ∨ takesNoteID h.

(** A request with a favorite body. *)
Definition favoriteRequest (idParam : string) (value : bool) : Request :=
  {| cookieValue := Some "tok"; urlQuery := []; urlParamID := idParam;
     bodyNote := None; bodyFavorite := Some value;
     ctxSessionToken := Some "tok" |}.

(** A request whose body decodes both as a note and as a favorite flag. *)
Definition bothBodiesRequest (idParam : string) : Request :=
  {| cookieValue := Some "tok"; urlQuery := []; urlParamID := idParam;
     bodyNote := Some sampleNoteRequest; bodyFavorite := Some true;
     ctxSessionToken := Some "tok" |}.

(** [sampleNote] after a favorite call with [true] at [sys200], and the
    store that call leaves of [twoNoteStore]. *)
Definition sampleNoteFavorited : note :=
  {| ID := 1%N; Title := "Untitled"; Content := " x "; Tags := ["a"];
     IsFavorite := true; CreatedAt := 5%Z; UpdatedAt := 200%Z |}.

Definition favoritedStore : Store :=
  {| notes := [sampleNoteFavorited; otherNote]; sessions := [];
     online := true |}.

(** [twoNoteStore] after the update of [sampleNote]. *)
Definition updatedStore : Store :=
  {| notes := [sampleNoteUpdated; otherNote]; sessions := []; online := true |}.

(** What reaches the router with the cookie ["tok"] and the URL id [idParam]. *)
Definition sampleInbound (idParam : string) : Inbound :=
  {| inRequest := queryRequest idParam []; inPassword := None;
     inEntropy := zeroEntropy |}.

(** A list request whose query is a NUL byte ([?query=%00]). *)
Definition nulQueryRequest : Request :=
  queryRequest "" [("query", String "000"%char "")].

(** Eleven times U+4E2D, 33 bytes: cut to its first 32 bytes it ends inside
    a rune. *)
Definition elevenRunes : string :=
  string_of_list_ascii (Go.bytes (concat (replicate 11 [228; 184; 173]%N))).

Definition cutRuneRequest : noteRequest :=
  {| reqTitle := "t"; reqContent := ""; reqTags := [elevenRunes];
     reqIsFavorite := false |}.

(** The routes [mountRoutes] puts behind [requireSession]. *)
Definition gated (route : Route) : bool :=
  match route with
  | GetNotes | PostNotes | GetNote | PutNote | DeleteNote | PostNoteFavorite => true
  | _ => false
  end.

(** The routes answering a GET. *)
Definition readOnly (route : Route) : bool :=
  match route with
  | GetHealth | GetAuthSession | GetNotes | GetNote => true
  | _ => false
  end.

(** No session of the store is live for the cookie of the request. *)
Definition noLiveSession (r : Request) (sys : Sys) (st : Store) : Prop :=
  ∀ v s, cookieValue r = Some v -> s ∈ sessions st ->
         session_token s = Go.TrimSpace v ->
         (session_expires_at s <= now sys)%Z.

(** A tag of ASCII bytes that is at most 32 bytes long once trimmed. *)
Definition shortASCIITag (tag : string) : Prop :=
  Go.allBytes Go.isASCIIByte tag = true
  ∧ (String.length (Go.TrimSpace tag) <= 32)%nat.

(** ** Strings *)

Lemma substring_0_length (n : nat) (s : string) :
  String.length (substring 0 n s) = Nat.min n (String.length s).
Proof.
  revert n. induction s as [|c s IH]; intros [|n]; simpl; auto.
Qed.

Lemma substring_0_all (n : nat) (s : string) :
  (String.length s <= n)%nat -> substring 0 n s = s.
Proof.
  revert n. induction s as [|c s IH]; intros [|n] Hn; simpl in *; try done; try lia.
  f_equal. apply IH. lia.
Qed.

Lemma substring_0_nonempty (n : nat) (s : string) :
  s ≠ "" -> substring 0 (S n) s ≠ "".
Proof. destruct s; simpl; congruence. Qed.

(** ** Trimming *)

Section Trim.
Variable ws : list (list ascii).
Hypothesis ws_nonempty : Forall (fun w => w ≠ []) ws.

Lemma hasPrefixBytes_spec (w s : list ascii) :
  Go.hasPrefixBytes w s = true ↔ ∃ r, s = (w ++ r)%list.
Proof.
  revert s. induction w as [|a w IH]; intros s; simpl.
  { split; [by exists s|done]. }
  destruct s as [|b s]; [split; [done|by intros [r ?]]|].
  destruct (Ascii.eqb_spec a b) as [->|Hab].
  - rewrite IH. split; intros [r Hr]; exists r; congruence.
  - split; [done|]. intros [r [= ? ?]]. done.
Qed.

Lemma leadingSpace_pos (s : list ascii) (k : nat) :
  Go.leadingSpace ws s = S k ->
  ∃ w r, w ∈ ws ∧ s = (w ++ r)%list ∧ List.length w = S k.
Proof.
  unfold Go.leadingSpace.
  destruct (List.find _ ws) as [w|] eqn:Hf; [|done].
  intros Hlen. apply find_some in Hf as [Hin Hpre].
  apply hasPrefixBytes_spec in Hpre as [r ->].
  exists w, r. by rewrite <- list_elem_of_In in Hin.
Qed.

Lemma leadingSpace_zero (s w : list ascii) :
  Go.leadingSpace ws s = 0%nat -> w ∈ ws -> ¬ ∃ r, s = (w ++ r)%list.
Proof.
  unfold Go.leadingSpace. intros Hz Hin Hpre.
  destruct (List.find _ ws) as [w'|] eqn:Hf.
  - apply find_some in Hf as [Hin' _].
    rewrite <- list_elem_of_In in Hin'.
    rewrite Forall_forall in ws_nonempty.
    apply (ws_nonempty w' Hin'). by apply length_zero_iff_nil.
  - apply hasPrefixBytes_spec in Hpre.
    rewrite list_elem_of_In in Hin.
    pose proof (find_none _ _ Hf w Hin) as Hn. simpl in Hn. congruence.
Qed.

Lemma trimLeftFrom_skip (k : nat) (s : list ascii) :
  Go.trimLeftFrom ws k s = Go.trimLeftFrom ws 0 (drop k s).
Proof.
  revert k. induction s as [|c s IH]; intros [|k]; try done.
  simpl. apply IH.
Qed.

Lemma trimLeftFrom_step (s : list ascii) :
  Go.trimLeftFrom ws 0 s =
    match Go.leadingSpace ws s with
    | O => s
    | S k => Go.trimLeftFrom ws 0 (drop (S k) s)
    end.
Proof.
  destruct s as [|c s]; simpl.
  - by destruct (Go.leadingSpace ws []).
  - destruct (Go.leadingSpace ws (c :: s)); [done|]. apply trimLeftFrom_skip.
Qed.

(** Left trimming removes a run of encodings and stops where no encoding
    starts. *)
Lemma trimLeftFrom_decompose (s : list ascii) :
  ∃ p, s = (p ++ Go.trimLeftFrom ws 0 s)%list
       ∧ Runs ws p
       ∧ Go.leadingSpace ws (Go.trimLeftFrom ws 0 s) = 0%nat.
Proof.
  induction s as [s IH] using (induction_ltof1 _ (@List.length ascii)).
  unfold ltof in IH. rewrite trimLeftFrom_step.
  destruct (Go.leadingSpace ws s) as [|k] eqn:Hk.
  { exists []. repeat split; [constructor|done]. }
  destruct (leadingSpace_pos _ _ Hk) as (w & r & Hin & -> & Hlen).
  rewrite <- Hlen, drop_app_length.
  destruct (IH r) as (p & Hp & Hruns & Hz).
  { rewrite length_app. lia. }
  exists (w ++ p)%list. repeat split; [|by constructor|done].
  rewrite <- app_assoc. by f_equal.
Qed.

Lemma Runs_app (s1 s2 : list ascii) :
  Runs ws s1 -> Runs ws s2 -> Runs ws (s1 ++ s2).
Proof.
  induction 1 as [|w s Hin _ IH]; [done|]. intros H2.
  rewrite <- app_assoc. constructor; auto.
Qed.

Lemma Runs_leading (s : list ascii) :
  Runs ws s -> s ≠ [] -> Go.leadingSpace ws s ≠ 0%nat.
Proof.
  intros Hr Hne Hz. destruct Hr as [|w s Hin Hr]; [done|].
  apply (leadingSpace_zero _ w Hz Hin). by exists s.
Qed.

(** No encoding of the table is a proper prefix of another one. *)
Hypothesis ws_prefix_free :
  ∀ w w', w ∈ ws -> w' ∈ ws -> Go.hasPrefixBytes w w' = true -> w = w'.

Lemma prefix_unique (w w' r r' : list ascii) :
  w ∈ ws -> w' ∈ ws -> (w ++ r = w' ++ r')%list -> w = w'.
Proof.
  intros Hw Hw' Heq.
  destruct (decide (List.length w <= List.length w')%nat) as [Hle|Hgt].
  - apply ws_prefix_free; [done..|]. apply hasPrefixBytes_spec.
    exists (drop (List.length w) w').
    rewrite <- (take_drop (List.length w) w') at 1. f_equal.
    apply (f_equal (take (List.length w))) in Heq.
    rewrite take_app_length, take_app_le in Heq by done. done.
  - symmetry. apply ws_prefix_free; [done..|]. apply hasPrefixBytes_spec.
    exists (drop (List.length w') w).
    rewrite <- (take_drop (List.length w') w) at 1. f_equal.
    apply (f_equal (take (List.length w'))) in Heq.
    rewrite take_app_length, take_app_le in Heq by lia. done.
Qed.

Lemma Runs_trimLeftFrom (s : list ascii) :
  Runs ws s -> Go.trimLeftFrom ws 0 s = [].
Proof.
  induction 1 as [|w s Hin Hr IH]; [done|].
  rewrite trimLeftFrom_step.
  destruct (Go.leadingSpace ws (w ++ s)) as [|k] eqn:Hk.
  { exfalso. apply (leadingSpace_zero _ w Hk Hin). by exists s. }
  destruct (leadingSpace_pos _ _ Hk) as (w' & r & Hin' & Heq & Hlen).
  assert (w = w') as <- by (by eapply prefix_unique).
  by rewrite <- Hlen, drop_app_length.
Qed.

End Trim.

Lemma Runs_rev (ws : list (list ascii)) (s : list ascii) :
  Runs ws s -> Runs (List.rev (A:=ascii) <$> ws) (List.rev s).
Proof.
  induction 1 as [|w s Hin _ IH]; [constructor|].
  rewrite rev_app_distr.
  apply Runs_app; [done|].
  rewrite <- (app_nil_r (List.rev w)). constructor; [|constructor].
  apply list_elem_of_fmap. by exists w.
Qed.

Lemma spaceRunes_nonempty : Forall (fun w => w ≠ []) Go.spaceRunes.
Proof. apply (bool_decide_unpack _). by vm_compute. Qed.

Lemma spaceRunes_rev_nonempty :
  Forall (fun w => w ≠ []) (List.rev (A:=ascii) <$> Go.spaceRunes).
Proof. apply (bool_decide_unpack _). by vm_compute. Qed.

Lemma spaceRunes_prefix_free (w w' : list ascii) :
  w ∈ Go.spaceRunes -> w' ∈ Go.spaceRunes ->
  Go.hasPrefixBytes w w' = true -> w = w'.
Proof.
  assert (Hall : Forall (fun w => Forall (fun w' =>
                   Go.hasPrefixBytes w w' = true -> w = w') Go.spaceRunes)
                   Go.spaceRunes).
  { apply (bool_decide_unpack _). by vm_compute. }
  rewrite Forall_forall in Hall. intros Hw Hw'.
  specialize (Hall w Hw). rewrite Forall_forall in Hall. by apply Hall.
Qed.

Lemma rev_rev_table (ws : list (list ascii)) :
  List.rev (A:=ascii) <$> (List.rev (A:=ascii) <$> ws) = ws.
Proof.
  induction ws as [|w ws IH]; [done|].
  rewrite !fmap_cons, rev_involutive. by f_equal.
Qed.

(** [strings.TrimSpace] returns the string without its surrounding white
    space. *)
Lemma TrimSpace_trimmedOf (s : string) : trimmedOf s (Go.TrimSpace s).
Proof.
  unfold trimmedOf, startsWithSpace, endsWithSpace, Go.TrimSpace.
  rewrite list_ascii_of_string_of_list_ascii.
  set (l := list_ascii_of_string s).
  destruct (trimLeftFrom_decompose Go.spaceRunes l) as (p & Hl & Hp & Hzl).
  fold (Go.trimLeft l) in Hl, Hzl. set (t := Go.trimLeft l) in *.
  unfold Go.trimRight.
  destruct (trimLeftFrom_decompose (List.rev (A:=ascii) <$> Go.spaceRunes)
              (List.rev t)) as (q' & Ht & Hq' & Hzr).
  set (u' := Go.trimLeftFrom _ 0 (List.rev t)) in *.
  assert (Ht' : t = (List.rev u' ++ List.rev q')%list).
  { by rewrite <- rev_app_distr, <- Ht, rev_involutive. }
  split; [|split].
  - exists p, (List.rev q'). split; [by rewrite <- Ht'|]. split; [done|].
    rewrite <- (rev_rev_table Go.spaceRunes). by apply Runs_rev.
  - intros (w & r & Hw & Hr).
    apply (leadingSpace_zero Go.spaceRunes spaceRunes_nonempty t w Hzl Hw).
    exists (r ++ List.rev q')%list. by rewrite Ht', Hr, <- app_assoc.
  - intros (w & r & Hw & Hr).
    apply (leadingSpace_zero _ spaceRunes_rev_nonempty u' (List.rev w) Hzr).
    + apply list_elem_of_fmap. by exists w.
    + exists (List.rev r).
      by rewrite <- rev_app_distr, <- Hr, rev_involutive.
Qed.

(** [strings.TrimSpace] returns the empty string exactly for the strings
    made of white space only. *)
Lemma TrimSpace_empty_iff (s : string) :
  Go.TrimSpace s = "" ↔ whitespaceOnly s.
Proof.
  unfold whitespaceOnly. split.
  - intros He.
    destruct (TrimSpace_trimmedOf s) as [(p & q & Hs & Hp & Hq) _].
    rewrite He in Hs. simpl in Hs. rewrite Hs.
    by apply Runs_app.
  - intros Hr. unfold Go.TrimSpace, Go.trimLeft.
    by rewrite (Runs_trimLeftFrom _ spaceRunes_nonempty spaceRunes_prefix_free).
Qed.

(** ** Lists *)

Lemma NoDup_fmap_inj {A B} (f : A -> B) (l : list A) (x y : A) :
  NoDup (f <$> l) -> x ∈ l -> y ∈ l -> f x = f y -> x = y.
Proof.
  induction l as [|z l IH]; [by intros _ ?%elem_of_nil|].
  rewrite fmap_cons, NoDup_cons, !elem_of_cons, list_elem_of_fmap.
  intros [Hz Hnd] [->|Hx] [->|Hy] Hf; try done.
  - exfalso. apply Hz. by exists y.
  - exfalso. apply Hz. by exists x.
  - by apply IH.
Qed.

Lemma filter_all {A} (P : A -> Prop) `{!∀ x, Decision (P x)} (l : list A) :
  (∀ x, P x) -> filter P l = l.
Proof.
  intros HP. induction l as [|x l IH]; [done|].
  rewrite filter_cons_True by done. by f_equal.
Qed.

(** ** Tags *)

Section Tags.
Context {pf : Platform}.

(** What the loop body of [sanitizeTags] computes before the look-up in
    [uniq] is the specification's normal form. *)
Lemma truncated_is_normalizeTag (t : string) :
  (if (32 <? String.length t)%nat then substring 0 32 t else t)
  = substring 0 32 t.
Proof.
  destruct (Nat.ltb_spec 32 (String.length t)) as [Hlt|Hle]; [done|].
  symmetry. by apply substring_0_all.
Qed.

Lemma sanitizeStep_unfold (uniq : gset string) (clean : list string) (tag : string) :
  sanitizeStep (uniq, clean) tag =
    if decide (normalizeTag tag = "") then (uniq, clean)
    else if decide (normalizeTag tag ∈ uniq) then (uniq, clean)
         else ({[ normalizeTag tag ]} ∪ uniq, (clean ++ [normalizeTag tag])%list).
Proof.
  unfold sanitizeStep, normalizeTag.
  rewrite truncated_is_normalizeTag.
  destruct (decide (ToLower (Go.TrimSpace tag) = "")) as [->|Hne]; [done|].
  destruct (decide (substring 0 32 (ToLower (Go.TrimSpace tag)) = "")) as [He|_];
    [|done].
  by apply substring_0_nonempty in He.
Qed.

Lemma dedupFirst_elem_of (l : list string) (x : string) :
  x ∈ dedupFirst l ↔ x ∈ l.
Proof.
  induction l as [|y l IH]; simpl; [done|].
  rewrite !elem_of_cons, list_elem_of_filter, IH.
  destruct (decide (x = y)); naive_solver.
Qed.

Lemma dedupFirst_NoDup (l : list string) : NoDup (dedupFirst l).
Proof.
  induction l as [|y l IH]; simpl; [constructor|].
  constructor; [|by apply NoDup_filter].
  rewrite list_elem_of_filter. naive_solver.
Qed.

(** The loop invariant: [uniq] holds exactly the members of [clean], and
    the rest of the input adds its first occurrences not yet seen. *)
Lemma sanitize_loop (tags : list string) (uniq : gset string) (clean : list string) :
  (∀ x, x ∈ uniq ↔ x ∈ clean) ->
  (foldl sanitizeStep (uniq, clean) tags).2
  = (clean ++ filter (fun y => y ∉ clean) (specTags tags))%list.
Proof.
  revert uniq clean. unfold specTags.
  induction tags as [|tag tags IH]; intros uniq clean Hu; cbn [foldl fmap list_fmap].
  { simpl. by rewrite app_nil_r. }
  rewrite sanitizeStep_unfold.
  destruct (decide (normalizeTag tag = "")) as [He|Hne].
  { rewrite filter_cons_False by (by intros ?). by apply IH. }
  rewrite filter_cons_True by done. simpl.
  destruct (decide (normalizeTag tag ∈ uniq)) as [Hin|Hnin].
  - rewrite IH by done.
    rewrite filter_cons_False by (apply Hu in Hin; tauto).
    rewrite list_filter_filter_l; [done|].
    intros y Hy ->. apply Hy. by apply Hu.
  - rewrite IH.
    + rewrite filter_cons_True by (rewrite <- Hu; done).
      rewrite <- app_assoc. simpl. do 2 f_equal.
      rewrite list_filter_filter.
      apply list_filter_iff. intros y.
      rewrite elem_of_app, list_elem_of_singleton. tauto.
    + intros x. rewrite elem_of_union, elem_of_singleton, elem_of_app,
        list_elem_of_singleton, Hu. tauto.
Qed.

(** [sanitizeTags] refines the normalisation of the specification. *)
Lemma sanitizeTags_specTags (tags : list string) :
  sanitizeTags tags = specTags tags.
Proof.
  unfold sanitizeTags.
  destruct (decide (List.length tags = 0%nat)) as [Hlen|_].
  { by destruct tags. }
  rewrite sanitize_loop by set_solver. simpl.
  apply filter_all. intros x. apply not_elem_of_nil.
Qed.

End Tags.

(** ** What create and update store *)

Section Stored.
Context {pf : Platform}.

Lemma find_by_ID (id : UUID) (l : list note) (n : note) :
  List.find (fun n => bool_decide (ID n = id)) l = Some n ->
  ID n = id ∧ n ∈ l.
Proof.
  induction l as [|m l IH]; simpl; [done|].
  case_bool_decide as Hm.
  - intros [= ->]. split; [done|]. apply elem_of_cons. by left.
  - intros Hf. destruct (IH Hf) as [? ?]. split; [done|].
    apply elem_of_cons. by right.
Qed.

Lemma handleCreateNote_stores (r : Request) (sys : Sys) (st st' : Store)
      (resp : Response) (n : note) :
  handleCreateNote r sys st = (resp, st') ->
  payload resp = PNote n ->
  ∃ req, bodyNote r = Some req
         ∧ n = createdNote req sys
         ∧ status resp = StatusCreated
         ∧ notes st' = (notes st ++ [n])%list
         ∧ sessions st' = sessions st
         ∧ online st' = true
         ∧ List.find (fun m => bool_decide (ID m = ID n)) (notes st) = None.
Proof.
  unfold handleCreateNote, insertNote.
  destruct (bodyNote r) as [req|]; [|by intros [= <- <-]].
  destruct (online st) eqn:Hon; [|by intros [= <- <-]].
  destruct (forallb _ _); [|by intros [= <- <-]].
  destruct (existsb _ _) eqn:Hex; [by intros [= <- <-]|].
  intros [= <- <-]; simpl. intros [= <-].
  exists req. repeat split; try done. simpl.
  destruct (List.find _ (notes st)) as [m|] eqn:Hf; [|done].
  apply find_some in Hf.
  assert (existsb (fun n => bool_decide (ID n = newUUID sys)) (notes st) = true)
    as Hex' by (apply existsb_exists; eauto).
  congruence.
Qed.

Lemma find_app_None {A} (p : A -> bool) (l1 l2 : list A) :
  List.find p l1 = None -> List.find p (l1 ++ l2) = List.find p l2.
Proof.
  induction l1 as [|x l1 IH]; simpl; [done|].
  destruct (p x); [done|]. apply IH.
Qed.

Lemma find_deleted (id : UUID) (l : list note) :
  List.find (fun n => bool_decide (ID n = id))
            (List.filter (fun n => negb (bool_decide (ID n = id))) l) = None.
Proof.
  induction l as [|m l IH]; simpl; [done|].
  case_bool_decide as Hm; simpl; [done|].
  by rewrite bool_decide_false.
Qed.

Lemma filter_by_ID_nonempty (id : UUID) (l : list note) (m : note) :
  m ∈ l -> ID m = id ->
  List.filter (fun n => bool_decide (ID n = id)) l ≠ [].
Proof.
  intros Hin Hid He.
  assert (In m (List.filter (fun n => bool_decide (ID n = id)) l)) as Hm.
  { apply filter_In. split; [by apply list_elem_of_In|].
    by apply bool_decide_eq_true. }
  by rewrite He in Hm.
Qed.

Lemma handleUpdateNote_stores (r : Request) (sys : Sys) (st st' : Store)
      (resp : Response) (n : note) :
  handleUpdateNote r sys st = (resp, st') ->
  payload resp = PNote n ->
  ∃ req old, bodyNote r = Some req
             ∧ parseUUIDParam r = inr (ID old)
             ∧ old ∈ notes st
             ∧ n = updatedNote req sys old
             ∧ status resp = StatusOK
             ∧ n ∈ notes st'
             ∧ online st' = true
             ∧ notes st' = (fun m => if bool_decide (ID m = ID old)
                                     then updatedNote req sys m else m)
                             <$> notes st.
Proof.
  unfold handleUpdateNote, updateNote.
  destruct (parseUUIDParam r) as [e|id] eqn:Hid; [by intros [= <- <-]|].
  destruct (bodyNote r) as [req|]; [|by intros [= <- <-]].
  destruct (online st) eqn:Hon; [|by intros [= <- <-]].
  destruct (forallb _ _); [|by intros [= <- <-]].
  destruct (List.find _ (notes st)) as [old|] eqn:Hf; simpl;
    [|by intros [= <- <-]].
  intros [= <- <-]; simpl. intros [= <-].
  apply find_by_ID in Hf as [<- Hin].
  exists req, old. repeat split; try done.
  apply list_elem_of_fmap. exists old. split; [|done].
  by rewrite bool_decide_true.
Qed.

Lemma sanitizeTags_wellStored (tags : list string) :
  tagsWellStored tags (sanitizeTags tags).
Proof.
  unfold tagsWellStored. rewrite sanitizeTags_specTags. unfold specTags.
  assert (Hmem : ∀ t, t ∈ dedupFirst (filter (fun t => t ≠ "") (normalizeTag <$> tags))
                      ↔ t ≠ "" ∧ ∃ tag, tag ∈ tags ∧ t = normalizeTag tag).
  { intros t. rewrite dedupFirst_elem_of, list_elem_of_filter, list_elem_of_fmap.
    naive_solver. }
  split; [apply dedupFirst_NoDup|].
  split; [rewrite Hmem; tauto|].
  split; [|done].
  apply Forall_forall. intros t [_ (tag & _ & ->)]%Hmem.
  unfold normalizeTag. rewrite substring_0_length. lia.
Qed.

(** *** The primary key of [notes] is kept by the handlers *)

Lemma filter_IDs_NoDup (p : note -> bool) (l : list note) :
  NoDup (ID <$> l) -> NoDup (ID <$> List.filter p l).
Proof.
  induction l as [|m l IH]; simpl; [done|].
  rewrite NoDup_cons. intros [Hm Hl].
  destruct (p m); [|by apply IH].
  rewrite fmap_cons. apply NoDup_cons. split; [|by apply IH].
  intros (x & Hx & Hin)%list_elem_of_fmap. apply Hm.
  apply list_elem_of_fmap. exists x. split; [done|].
  apply list_elem_of_In. apply list_elem_of_In, filter_In in Hin. tauto.
Qed.

Lemma handlers_keep_uniqueIDs (h : Handler) (r : Request) (sys : Sys)
      (st : Store) :
  h = handleCreateNote ∨ h = handleUpdateNote ∨ h = handleDeleteNote
    ∨ h = handleFavoriteNote ∨ h = handleGetNote ∨ h = handleListNotes ->
  uniqueIDs st -> uniqueIDs (h r sys st).2.
Proof.
  unfold uniqueIDs.
  assert (Hmap : ∀ (id : UUID) (f : note -> note),
             (∀ m, ID (f m) = ID m) ->
             ID <$> ((fun n => if bool_decide (ID n = id) then f n else n)
                       <$> notes st) = ID <$> notes st).
  { intros id f Hf. rewrite <- list_fmap_compose. apply list_fmap_ext.
    intros i m _. simpl. by case_bool_decide. }
  intros [-> | [-> | [-> | [-> | [-> | ->]]]]] Hst.
  - unfold handleCreateNote, insertNote.
    destruct (bodyNote r); [|done]. destruct (online st); [|done].
    destruct (forallb _ _); [|done].
    destruct (existsb _ _) eqn:Hex; [done|]. simpl.
    rewrite fmap_app. apply NoDup_app. split; [done|]. split.
    + intros x Hx Hx'. apply list_elem_of_singleton in Hx'. subst x.
      apply list_elem_of_fmap in Hx as (m & Hm & Hin).
      assert (existsb (fun n => bool_decide (ID n = newUUID sys)) (notes st)
              = true) as Hex'; [|congruence].
      apply existsb_exists. exists m. split; [by apply list_elem_of_In|].
      by apply bool_decide_eq_true.
    + apply NoDup_singleton.
  - unfold handleUpdateNote, updateNote.
    destruct (parseUUIDParam r); [done|]. destruct (bodyNote r); [|done].
    destruct (online st); [|done]. destruct (forallb _ _); [|done].
    destruct (List.find _ (notes st)); simpl; by rewrite Hmap.
  - unfold handleDeleteNote, deleteNote.
    destruct (parseUUIDParam r); [done|]. destruct (online st); [|done].
    destruct (List.length _); simpl; by apply filter_IDs_NoDup.
  - unfold handleFavoriteNote, updateNote.
    destruct (parseUUIDParam r); [done|]. destruct (bodyFavorite r); [|done].
    destruct (online st); [|done]. cbn [forallb].
    destruct (List.find _ (notes st)); simpl; by rewrite Hmap.
  - unfold handleGetNote.
    destruct (parseUUIDParam r); [done|].
    by destruct (selectNote _ st) as [[?|]|].
  - unfold handleListNotes.
    destruct (decide _); [|destruct (Go.ParseBool _); [|done]];
      destruct (countNotes _ _ _ st); try done;
      by destruct (selectPage _ _ _ _ _ st).
Qed.

End Stored.

(** ** Claims on what create and update store *)

Section StoredClaims.
Context {pf : Platform}.

(** C1 (as amended).  For every tag list submitted on create or update,
    the stored tag list has no duplicates, no empty string and no element
    longer than 32 bytes; its elements are exactly the non-empty
    lowercased, trimmed submitted tags cut to their first 32 bytes, in the
    order of their first occurrence; ["A"; "a"; " a "] is stored as
    ["a"]. *)
Theorem C1_stored_tags (r : Request) (sys : Sys) (st st' : Store)
        (resp : Response) (n : note) :
  handleCreateNote r sys st = (resp, st')
    ∨ handleUpdateNote r sys st = (resp, st') ->
  payload resp = PNote n ->
  ∃ req, bodyNote r = Some req
         ∧ n ∈ notes st'
         ∧ tagsWellStored (reqTags req) (Tags n)
         ∧ sanitizeTags ["A"; "a"; " a "] = ["a"].
Proof.
  intros [Hc|Hu] Hp.
  - destruct (handleCreateNote_stores _ _ _ _ _ _ Hc Hp)
      as (req & Hb & -> & _ & Hn & _).
    exists req. split; [done|]. split.
    { rewrite Hn. apply elem_of_app. right. by apply list_elem_of_singleton. }
    split; [apply sanitizeTags_wellStored|reflexivity].
  - destruct (handleUpdateNote_stores _ _ _ _ _ _ Hu Hp)
      as (req & old & Hb & _ & _ & -> & _ & Hn & _ & _).
    exists req. split; [done|]. split; [done|].
    split; [apply sanitizeTags_wellStored|reflexivity].
Qed.

(** C6.  On a reachable store, for a body that decodes into text the
    server takes: a create with an unused id answers 201 with a note it has
    appended to the stored notes, an update of an existing row answers 200
    with a note that has replaced that row; in the note, a title submitted
    empty or made of white space only is ["Untitled"], every other title
    is the submitted one without its surrounding white space, and the
    content is the submitted one unchanged.  Whenever create or update
    answers with a note at all, that note is stored and holds title and
    content in this way. *)
Theorem C6_stored_title_and_content (r : Request) (sys : Sys) (st : Store)
        (req : noteRequest) :
  bodyNote r = Some req ->
  online st = true ->
  textAccepted req ->
  ((∀ m, m ∈ notes st -> ID m ≠ newUUID sys) ->
   ∃ n, handleCreateNote r sys st
        = (writeJSON StatusCreated (PNote n),
           {| notes := (notes st ++ [n])%list; sessions := sessions st;
              online := true |})
        ∧ storedAsSubmitted req n)
  ∧ (∀ old, uniqueIDs st -> old ∈ notes st ->
            parseUUIDParam r = inr (ID old) ->
            ∃ n st', handleUpdateNote r sys st
                     = (writeJSON StatusOK (PNote n), st')
                     ∧ n ∈ notes st'
                     ∧ (∀ m, m ∈ notes st' -> ID m = ID old -> m = n)
                     ∧ storedAsSubmitted req n)
  ∧ (∀ resp st' n,
       handleCreateNote r sys st = (resp, st')
         ∨ handleUpdateNote r sys st = (resp, st') ->
       payload resp = PNote n ->
       n ∈ notes st' ∧ storedAsSubmitted req n).
Proof.
  intros Hbody Hon Htext.
  assert (Ht : ∀ n, Title n = normalizeTitle (reqTitle req) ->
                    Content n = reqContent req -> storedAsSubmitted req n).
  { intros n Hti Hc. unfold storedAsSubmitted. rewrite Hti, Hc.
    unfold normalizeTitle.
    destruct (decide (Go.TrimSpace (reqTitle req) = "")) as [He|Hne].
    - apply TrimSpace_empty_iff in He. split; [done|]. split; [tauto|done].
    - split; [by intros ?%TrimSpace_empty_iff|]. split; [|done].
      intros _. split; [done|]. split; [apply TrimSpace_trimmedOf|done]. }
  unfold textAccepted, normalizeTitle in Htext.
  split; [|split].
  - intros Hfresh.
    exists (createdNote req sys). split; [|by apply Ht].
    unfold handleCreateNote, insertNote. rewrite Hbody, Hon, Htext.
    assert (existsb (fun n => bool_decide (ID n = newUUID sys)) (notes st)
            = false) as ->; [|done].
    apply not_true_is_false. intros (m & Hm & Hid)%existsb_exists.
    apply bool_decide_eq_true in Hid. apply list_elem_of_In in Hm.
    by apply (Hfresh m).
  - intros old Huniq Hold Hid.
    assert (Hfind : List.find (fun n => bool_decide (ID n = ID old)) (notes st)
                    = Some old).
    { destruct (List.find _ (notes st)) as [m|] eqn:Hf.
      - apply find_by_ID in Hf as [Hm Hin]. f_equal.
        by apply (NoDup_fmap_inj ID (notes st)).
      - apply list_elem_of_In in Hold.
        pose proof (find_none _ _ Hf old Hold) as Hb. simpl in Hb.
        by apply bool_decide_eq_false in Hb. }
    exists (updatedNote req sys old). eexists.
    split; [|split; [|split; [|by apply Ht]]].
    + unfold handleUpdateNote, updateNote.
      rewrite Hid, Hbody, Hon, Htext, Hfind. reflexivity.
    + cbn [notes]. apply list_elem_of_fmap. exists old. split; [|done].
      by rewrite bool_decide_true.
    + cbn [notes]. intros m (m0 & -> & Hm0)%list_elem_of_fmap.
      case_bool_decide as Hb.
      * intros _. by rewrite (NoDup_fmap_inj ID (notes st) m0 old).
      * intros Hm. by destruct Hb.
  - intros resp st' n [Hc|Hu] Hp.
    + destruct (handleCreateNote_stores _ _ _ _ _ _ Hc Hp)
        as (req' & Hb & -> & _ & Hn & _).
      assert (req' = req) as -> by congruence.
      split; [|by apply Ht].
      rewrite Hn. apply elem_of_app. right. by apply list_elem_of_singleton.
    + destruct (handleUpdateNote_stores _ _ _ _ _ _ Hu Hp)
        as (req' & old & Hb & _ & _ & -> & _ & Hn & _ & _).
      assert (req' = req) as -> by congruence.
      split; [done|]. by apply Ht.
Qed.

(** C8.  A get on the id returned by create yields the stored row:
    normalised title and tags, the content as submitted and the submitted
    favorite flag; and after a delete of an existing id succeeded (204), a
    get on that id fails with 404. *)
Theorem C8_round_trip (rc rg rd rg' : Request) (sysc sysg sysd sysg' : Sys)
        (st st1 std : Store) (resp : Response) (n : note) (id : UUID) :
  handleCreateNote rc sysc st = (resp, st1) ->
  payload resp = PNote n ->
  parseUUIDParam rg = inr (ID n) ->
  parseUUIDParam rd = inr id ->
  online std = true ->
  (∃ m, m ∈ notes std ∧ ID m = id) ->
  parseUUIDParam rg' = inr id ->
  (∃ req, bodyNote rc = Some req
          ∧ handleGetNote rg sysg st1 = (writeJSON StatusOK (PNote n), st1)
          ∧ Title n = normalizeTitle (reqTitle req)
          ∧ Tags n = sanitizeTags (reqTags req)
          ∧ Content n = reqContent req
          ∧ IsFavorite n = reqIsFavorite req)
  ∧ (handleDeleteNote rd sysd std).1 = writeJSON StatusNoContent PEmpty
  ∧ handleGetNote rg' sysg' (handleDeleteNote rd sysd std).2
    = (writeError StatusNotFound "note not found",
       (handleDeleteNote rd sysd std).2).
Proof.
  intros Hc Hp Hg Hd Hon (m & Hm & Hid) Hg'. split.
  - destruct (handleCreateNote_stores _ _ _ _ _ _ Hc Hp)
      as (req & Hb & Hn & _ & Hst & _ & Hon1 & Hfresh).
    exists req. split; [done|]. split; [|by rewrite Hn].
    unfold handleGetNote, selectNote. rewrite Hg, Hon1, Hst.
    rewrite find_app_None by done. simpl.
    by rewrite bool_decide_true.
  - unfold handleDeleteNote, deleteNote. rewrite Hd, Hon.
    pose proof (filter_by_ID_nonempty id (notes std) m Hm Hid) as Hne.
    destruct (List.filter (fun n => bool_decide (ID n = id)) (notes std))
      as [|x xs] eqn:Hf; [done|]. simpl.
    split; [done|].
    unfold handleGetNote, selectNote. rewrite Hg'. simpl.
    by rewrite find_deleted.
Qed.

End StoredClaims.

Section StoredSamples.
#[local] Existing Instance asciiPlatform.

Lemma C1_stored_tags_witness :
  ∃ req, bodyNote (noteBodyRequest "" sampleNoteRequest) = Some req
         ∧ createdNote sampleNoteRequest sys5
             ∈ notes (handleCreateNote (noteBodyRequest "" sampleNoteRequest)
                        sys5 emptyStore).2
         ∧ tagsWellStored (reqTags req) ["a"]
         ∧ sanitizeTags ["A"; "a"; " a "] = ["a"].
Proof.
  apply (C1_stored_tags
           (noteBodyRequest "" sampleNoteRequest) sys5 emptyStore
           (handleCreateNote (noteBodyRequest "" sampleNoteRequest)
              sys5 emptyStore).2
           (handleCreateNote (noteBodyRequest "" sampleNoteRequest)
              sys5 emptyStore).1
           (createdNote sampleNoteRequest sys5)).
  - left. vm_compute. reflexivity.
  - vm_compute. reflexivity.
Defined.

(** A tag with a space as its 32nd byte followed by more text is stored
    with that space at its end: the stored element is not trimmed. *)
Lemma C1_truncated_tag_not_trimmed :
  ∃ n t, payload (handleCreateNote
                    (noteBodyRequest "" spaceAt32Request)
                    sys5 emptyStore).1 = PNote n
         ∧ t ∈ Tags n
         ∧ t = letters31 ++ " "
         ∧ Go.TrimSpace t ≠ t.
Proof.
  eexists. exists (letters31 ++ " ").
  split; [vm_compute; reflexivity|].
  split; [apply list_elem_of_singleton; vm_compute; reflexivity|].
  split; [reflexivity|]. by vm_compute.
Qed.

Lemma C6_stored_title_and_content_witness :
  (∃ n, handleCreateNote (noteBodyRequest "" paddedNoteRequest) sys300
                         twoNoteStore
        = (writeJSON StatusCreated (PNote n),
           {| notes := (notes twoNoteStore ++ [n])%list;
              sessions := sessions twoNoteStore; online := true |})
        ∧ Title n = "Shopping list"
        ∧ Content n = " x ")
  ∧ (∃ n st', handleUpdateNote (noteBodyRequest "1" sampleNoteRequest) sys200
                               twoNoteStore
              = (writeJSON StatusOK (PNote n), st')
              ∧ n ∈ notes st'
              ∧ (∀ m, m ∈ notes st' -> ID m = ID sampleNote -> m = n)
              ∧ Title n = "Untitled"
              ∧ Content n = " x ").
Proof.
  split.
  - destruct (C6_stored_title_and_content
                (noteBodyRequest "" paddedNoteRequest) sys300 twoNoteStore
                paddedNoteRequest) as (Hcreate & _ & _).
    + reflexivity.
    + reflexivity.
    + vm_compute. reflexivity.
    + destruct Hcreate as (n & Hn & _ & Htitle & Hcontent).
      * intros m Hm. apply list_elem_of_In in Hm.
        destruct Hm as [<- | [<- | []]]; vm_compute; discriminate.
      * exists n. split; [exact Hn|]. split; [|exact Hcontent].
        destruct Htitle as (Htitle & _).
        { intros Hw. apply TrimSpace_empty_iff in Hw. vm_compute in Hw.
          discriminate Hw. }
        rewrite Htitle. vm_compute. reflexivity.
  - destruct (C6_stored_title_and_content
                (noteBodyRequest "1" sampleNoteRequest) sys200 twoNoteStore
                sampleNoteRequest) as (_ & Hupdate & _).
    + reflexivity.
    + reflexivity.
    + vm_compute. reflexivity.
    + destruct (Hupdate sampleNote) as (n & st' & Hn & Hin & Hone & Hblank & _ & Hcontent).
      * unfold uniqueIDs. apply (bool_decide_unpack _). vm_compute. reflexivity.
      * apply list_elem_of_In. left. reflexivity.
      * vm_compute. reflexivity.
      * exists n, st'. split; [exact Hn|]. split; [exact Hin|].
        split; [exact Hone|]. split; [|exact Hcontent].
        apply Hblank. apply TrimSpace_empty_iff. vm_compute. reflexivity.
Defined.

Lemma C8_round_trip_witness :
  (∃ req, bodyNote (noteBodyRequest "" sampleNoteRequest) = Some req
          ∧ handleGetNote (queryRequest "1" []) sys5 sampleStore
            = (writeJSON StatusOK (PNote sampleNote), sampleStore)
          ∧ Title sampleNote = normalizeTitle (reqTitle req)
          ∧ Tags sampleNote = sanitizeTags (reqTags req)
          ∧ Content sampleNote = reqContent req
          ∧ IsFavorite sampleNote = reqIsFavorite req)
  ∧ (handleDeleteNote (queryRequest "1" []) sys5 sampleStore).1
    = writeJSON StatusNoContent PEmpty
  ∧ handleGetNote (queryRequest "1" []) sys5
      (handleDeleteNote (queryRequest "1" []) sys5 sampleStore).2
    = (writeError StatusNotFound "note not found",
       (handleDeleteNote (queryRequest "1" []) sys5 sampleStore).2).
Proof.
  apply (C8_round_trip (noteBodyRequest "" sampleNoteRequest)
           (queryRequest "1" []) (queryRequest "1" []) (queryRequest "1" [])
           sys5 sys5 sys5 sys5 emptyStore sampleStore sampleStore
           (writeJSON StatusCreated (PNote sampleNote)) sampleNote 1%N).
  - vm_compute. reflexivity.
  - reflexivity.
  - vm_compute. reflexivity.
  - vm_compute. reflexivity.
  - reflexivity.
  - exists sampleNote. split; [|reflexivity].
    apply list_elem_of_singleton. reflexivity.
  - vm_compute. reflexivity.
Defined.

End StoredSamples.

(** ** Sessions *)

Section Sessions.
Context {pf : Platform}.

Lemma sessionExists_false (tok : string) (t : Time) (st : Store) :
  online st = true ->
  (∀ x, x ∈ sessions st -> session_token x = tok ->
        (session_expires_at x <= t)%Z) ->
  sessionExists tok t st = Some false.
Proof.
  intros Hon Hall. unfold sessionExists. rewrite Hon. f_equal.
  apply not_true_is_false. intros (x & Hx & Hb)%existsb_exists.
  apply andb_true_iff in Hb as [Htok Hexp].
  apply bool_decide_eq_true in Htok. apply Z.ltb_lt in Hexp.
  apply list_elem_of_In in Hx. specialize (Hall x Hx Htok). lia.
Qed.

Lemma sessionExists_true (tok : string) (t : Time) (st : Store) (s : session) :
  online st = true -> s ∈ sessions st -> session_token s = tok ->
  (t < session_expires_at s)%Z ->
  sessionExists tok t st = Some true.
Proof.
  intros Hon Hs Htok Hexp. unfold sessionExists. rewrite Hon. f_equal.
  apply existsb_exists. exists s. split; [by apply list_elem_of_In|].
  apply andb_true_iff. split; [by apply bool_decide_eq_true|by apply Z.ltb_lt].
Qed.

Lemma requireSession_rejects (next : Handler) (r : Request) (sys : Sys)
      (st : Store) (value : string) :
  cookieValue r = Some value ->
  sessionExists (Go.TrimSpace value) (now sys) st = Some false ->
  requireSession next r sys st
  = (writeError StatusUnauthorized "unauthorized", st).
Proof.
  intros Hc He. unfold requireSession. rewrite Hc.
  destruct (decide (Go.TrimSpace value = "")); [done|]. by rewrite He.
Qed.

Lemma requireSession_passes (next : Handler) (r : Request) (sys : Sys)
      (st : Store) (value : string) :
  cookieValue r = Some value ->
  Go.TrimSpace value ≠ "" ->
  sessionExists (Go.TrimSpace value) (now sys) st = Some true ->
  requireSession next r sys st
  = next (withSessionToken r (Go.TrimSpace value)) sys st.
Proof.
  intros Hc Hne He. unfold requireSession. rewrite Hc.
  destruct (decide (Go.TrimSpace value = "")); [done|]. by rewrite He.
Qed.

(** C4.  The session check answers false, and the gate 401 with the same
    response, both for a token no row carries and for a token whose row has
    an expiry that is not in the future. *)
Theorem C4_missing_and_expired_alike (next : Handler) (r : Request) (sys : Sys)
        (st1 st2 : Store) (value : string) (s : session) :
  cookieValue r = Some value ->
  online st1 = true ->
  online st2 = true ->
  (∀ x, x ∈ sessions st1 -> session_token x ≠ Go.TrimSpace value) ->
  uniqueTokens st2 ->
  s ∈ sessions st2 ->
  session_token s = Go.TrimSpace value ->
  (session_expires_at s <= now sys)%Z ->
  sessionExists (Go.TrimSpace value) (now sys) st1 = Some false
  ∧ sessionExists (Go.TrimSpace value) (now sys) st2 = Some false
  ∧ requireSession next r sys st1
    = (writeError StatusUnauthorized "unauthorized", st1)
  ∧ requireSession next r sys st2
    = (writeError StatusUnauthorized "unauthorized", st2)
  ∧ (requireSession next r sys st1).1 = (requireSession next r sys st2).1.
Proof.
  intros Hc Hon1 Hon2 Hnone Huniq Hs Htok Hexp.
  assert (H1 : sessionExists (Go.TrimSpace value) (now sys) st1 = Some false).
  { apply sessionExists_false; [done|]. intros x Hx Hx'. by destruct (Hnone x Hx). }
  assert (H2 : sessionExists (Go.TrimSpace value) (now sys) st2 = Some false).
  { apply sessionExists_false; [done|]. intros x Hx Hx'.
    by rewrite (NoDup_fmap_inj session_token (sessions st2) x s Huniq Hx Hs)
      by congruence. }
  pose proof (requireSession_rejects next r sys st1 value Hc H1) as R1.
  pose proof (requireSession_rejects next r sys st2 value Hc H2) as R2.
  repeat split; try done. by rewrite R1, R2.
Qed.

(** C9.  The gate looks the trimmed cookie value up, logout deletes by the
    untrimmed one: with a cookie value that trimming changes and whose
    trimmed form is the token of a live session, requests pass the gate,
    logout answers 200 and leaves the row, and requests still pass the gate
    afterwards. *)
Theorem C9_logout_keeps_padded_session (next : Handler) (r : Request)
        (sys sys' : Sys) (st : Store) (value : string) (s : session) :
  cookieValue r = Some value ->
  Go.TrimSpace value ≠ value ->
  Go.TrimSpace value ≠ "" ->
  online st = true ->
  s ∈ sessions st ->
  session_token s = Go.TrimSpace value ->
  (now sys < session_expires_at s)%Z ->
  (now sys' < session_expires_at s)%Z ->
  requireSession next r sys st
  = next (withSessionToken r (Go.TrimSpace value)) sys st
  ∧ (handleLogout r sys st).1 = withClearedCookie (writeJSON StatusOK POk)
  ∧ s ∈ sessions (handleLogout r sys st).2
  ∧ requireSession next r sys' (handleLogout r sys st).2
    = next (withSessionToken r (Go.TrimSpace value)) sys'
           (handleLogout r sys st).2.
Proof.
  intros Hc Hpad Hne Hon Hs Htok Hexp Hexp'.
  split.
  { apply requireSession_passes; [done..|]. by eapply sessionExists_true. }
  unfold handleLogout, deleteSession. rewrite Hc, Hon.
  destruct (decide (Go.TrimSpace value = "")); [done|]. simpl.
  split; [done|].
  assert (Hin : s ∈ List.filter
                      (fun x => negb (bool_decide (session_token x = value)))
                      (sessions st)).
  { apply list_elem_of_In, filter_In. split; [by apply list_elem_of_In|].
    apply negb_true_iff, bool_decide_eq_false. congruence. }
  split; [done|].
  apply requireSession_passes; [done..|]. by eapply sessionExists_true.
Qed.

End Sessions.

Section SessionSamples.
#[local] Existing Instance asciiPlatform.

Lemma C4_missing_and_expired_alike_witness :
  sessionExists (Go.TrimSpace "tok") (now sys200) emptyStore = Some false
  ∧ sessionExists (Go.TrimSpace "tok") (now sys200) sessionStore = Some false
  ∧ requireSession okHandler (cookieRequest "tok") sys200 emptyStore
    = (writeError StatusUnauthorized "unauthorized", emptyStore)
  ∧ requireSession okHandler (cookieRequest "tok") sys200 sessionStore
    = (writeError StatusUnauthorized "unauthorized", sessionStore)
  ∧ (requireSession okHandler (cookieRequest "tok") sys200 emptyStore).1
    = (requireSession okHandler (cookieRequest "tok") sys200 sessionStore).1.
Proof.
  apply (C4_missing_and_expired_alike okHandler (cookieRequest "tok") sys200
           emptyStore sessionStore "tok" sampleSession).
  - reflexivity.
  - reflexivity.
  - reflexivity.
  - intros x Hx. by apply elem_of_nil in Hx.
  - unfold uniqueTokens. simpl. apply NoDup_singleton.
  - apply list_elem_of_singleton. reflexivity.
  - vm_compute. reflexivity.
  - vm_compute. discriminate.
Defined.

Lemma C9_logout_keeps_padded_session_witness :
  requireSession okHandler (cookieRequest " tok") sys5 sessionStore
  = okHandler (withSessionToken (cookieRequest " tok") (Go.TrimSpace " tok"))
              sys5 sessionStore
  ∧ (handleLogout (cookieRequest " tok") sys5 sessionStore).1
    = withClearedCookie (writeJSON StatusOK POk)
  ∧ sampleSession ∈ sessions (handleLogout (cookieRequest " tok") sys5 sessionStore).2
  ∧ requireSession okHandler (cookieRequest " tok") sys5
      (handleLogout (cookieRequest " tok") sys5 sessionStore).2
    = okHandler (withSessionToken (cookieRequest " tok") (Go.TrimSpace " tok"))
                sys5 (handleLogout (cookieRequest " tok") sys5 sessionStore).2.
Proof.
  apply (C9_logout_keeps_padded_session okHandler (cookieRequest " tok")
           sys5 sys5 sessionStore " tok" sampleSession).
  - reflexivity.
  - vm_compute. discriminate.
  - vm_compute. discriminate.
  - reflexivity.
  - apply list_elem_of_singleton. reflexivity.
  - vm_compute. reflexivity.
  - vm_compute. reflexivity.
  - vm_compute. reflexivity.
Defined.

End SessionSamples.

(** ** Listing *)

#[global] Instance newerFirst_transitive : Transitive newerFirst.
Proof. unfold newerFirst. intros a b c. lia. Qed.

#[global] Instance newerFirst_total : Total newerFirst.
Proof. unfold newerFirst. intros a b. lia. Qed.

Section Listing.
Context {pf : Platform}.

Lemma handleListNotes_unfold (r : Request) (sys : Sys) (st : Store) :
  handleListNotes r sys st =
    match favoriteFilter r with
    | None => (writeError StatusBadRequest "favorite must be true or false", st)
    | Some favorite => listWith favorite r st
    end.
Proof. reflexivity. Qed.

Lemma decide_filter {A} (p : A -> bool) (P : A -> Prop)
      `{!∀ x, Decision (P x)} (l : list A) :
  (∀ x, p x = true ↔ P x) -> List.filter p l = filter P l.
Proof.
  intros Hp. induction l as [|x l IH]; [done|]. simpl.
  destruct (p x) eqn:Hx.
  - rewrite filter_cons_True by (by apply Hp). by f_equal.
  - rewrite filter_cons_False; [done|]. rewrite <- Hp. congruence.
Qed.

Lemma where_satisfiesFilter (q tag : string) (favorite : option bool) (n : note) :
  (bool_decide (q = "")
     || ilike (Title n) ("%" ++ q ++ "%")
     || ilike (Content n) ("%" ++ q ++ "%"))
  && (bool_decide (tag = "") || bool_decide (tag ∈ Tags n))
  && match favorite with
     | None => true
     | Some b => Bool.eqb (IsFavorite n) b
     end = true
  ↔ satisfiesFilter q tag favorite n.
Proof.
  unfold satisfiesFilter.
  rewrite !andb_true_iff, !orb_true_iff, !bool_decide_eq_true.
  assert (Hfav : match favorite with
                 | None => true
                 | Some b => Bool.eqb (IsFavorite n) b
                 end = true ↔ ∀ b, favorite = Some b -> IsFavorite n = b).
  { destruct favorite as [b|].
    - split.
      + intros He%eqb_prop b0 [= <-]. done.
      + intros Hall. apply eqb_true_iff. by apply Hall.
    - split; [by intros _ ?|done]. }
  rewrite Hfav. tauto.
Qed.

(** The counting statement filters by the filter of the specification. *)
Lemma countWhere_spec (q tag : string) (favorite : option bool) (n : note) :
  countWhere q tag favorite n = true ↔ satisfiesFilter q tag favorite n.
Proof. apply where_satisfiesFilter. Qed.

(** So does the statement selecting the page. *)
Lemma pageWhere_spec (q tag : string) (favorite : option bool) (n : note) :
  pageWhere q tag favorite n = true ↔ satisfiesFilter q tag favorite n.
Proof. apply where_satisfiesFilter. Qed.

Lemma listWith_ok (favorite : option bool) (r : Request) (st : Store) :
  online st = true ->
  Pg.validText (listQuery r) = true ->
  Pg.validText (listTag r) = true ->
  (0 <= listOffset r)%Z ->
  (0 <= listLimit r)%Z ->
  listWith favorite r st
  = (writeJSON StatusOK
       (PList (pageSlice r favorite st (listLimit r) (listOffset r))
              (listPage r) (listLimit r)
              (Z.of_nat (List.length (matchingRows r favorite st)))), st).
Proof.
  intros Hon Hq Ht Hoff Hlim. unfold listWith, countNotes, selectPage.
  rewrite Hon, Hq, Ht. cbn [andb].
  destruct (Z.ltb_spec (listLimit r) 0); [lia|].
  destruct (Z.ltb_spec (listOffset r) 0); [lia|]. simpl.
  unfold pageSlice, matchingRows.
  rewrite (decide_filter _ _ _ (countWhere_spec _ _ _)).
  by rewrite (decide_filter _ _ _ (pageWhere_spec _ _ _)).
Qed.

Lemma parsePositiveInt_cases (raw : string) (fallback : Z) :
  (∀ v, Go.Atoi raw = Some v -> (0 < v)%Z -> parsePositiveInt raw fallback = v)
  ∧ ((¬ ∃ v, Go.Atoi raw = Some v ∧ (0 < v)%Z) ->
     parsePositiveInt raw fallback = fallback).
Proof.
  unfold parsePositiveInt. split.
  - intros v Hv Hpos. destruct (decide (raw = "")) as [->|_]; [done|].
    rewrite Hv. destruct (Z.leb_spec v 0); [lia|done].
  - intros Hno. destruct (decide (raw = "")); [done|].
    destruct (Go.Atoi raw) as [v|]; [|done].
    destruct (Z.leb_spec v 0); [done|]. exfalso. apply Hno. by exists v.
Qed.

Lemma parsePositiveInt_positive (raw : string) (fallback : Z) :
  (0 < fallback)%Z -> (0 < parsePositiveInt raw fallback)%Z.
Proof.
  intros Hf. unfold parsePositiveInt.
  destruct (decide (raw = "")); [done|].
  destruct (Go.Atoi raw) as [v|]; [|done].
  destruct (Z.leb_spec v 0); [done|lia].
Qed.

Lemma listPage_positive (r : Request) : (1 <= listPage r)%Z.
Proof.
  unfold listPage.
  pose proof (parsePositiveInt_positive (Get (urlQuery r) "page") 1). lia.
Qed.

Lemma listLimit_range (r : Request) : (1 <= listLimit r <= 100)%Z.
Proof.
  unfold listLimit.
  pose proof (parsePositiveInt_positive (Get (urlQuery r) "limit") 30).
  destruct (Z.ltb_spec 100 (parsePositiveInt (Get (urlQuery r) "limit") 30)); lia.
Qed.

Lemma wrap64_small (z : Z) :
  (Go.minInt <= z <= Go.maxInt)%Z -> Go.wrap64 z = z.
Proof.
  unfold Go.wrap64, Go.minInt, Go.maxInt. intros Hz.
  rewrite Z.mod_small; lia.
Qed.

Lemma ParseBool_literals (str : string) :
  (str ∈ trueLiterals -> Go.ParseBool str = Some true)
  ∧ (str ∈ falseLiterals -> Go.ParseBool str = Some false)
  ∧ (str ∉ trueLiterals -> str ∉ falseLiterals -> Go.ParseBool str = None).
Proof.
  unfold Go.ParseBool, trueLiterals, falseLiterals.
  split; [|split].
  - intros Ht. by rewrite decide_True.
  - intros Hf. destruct (decide (str ∈ _)) as [Ht|_]; [|by rewrite decide_True].
    exfalso. revert Ht Hf. rewrite !elem_of_cons, !elem_of_nil.
    intros [->|[->|[->|[->|[->|[->|[]]]]]]]; naive_solver.
  - intros Ht Hf. by rewrite !decide_False.
Qed.

Lemma handleListNotes_listed (r : Request) (sys : Sys) (st st' : Store)
      (resp : Response) (items : list note) (page limit total : Z) :
  handleListNotes r sys st = (resp, st') ->
  payload resp = PList items page limit total ->
  ∃ favorite, favoriteFilter r = Some favorite
              ∧ online st = true
              ∧ (0 <= listOffset r)%Z
              ∧ st' = st
              ∧ status resp = StatusOK
              ∧ page = listPage r
              ∧ limit = listLimit r
              ∧ total = Z.of_nat (List.length (matchingRows r favorite st))
              ∧ items = pageSlice r favorite st (listLimit r) (listOffset r).
Proof.
  rewrite handleListNotes_unfold.
  destruct (favoriteFilter r) as [favorite|]; [|by intros [= <- <-]].
  unfold listWith, countNotes, selectPage.
  destruct (online st); [|by intros [= <- <-]].
  destruct (Pg.validText (listQuery r) && Pg.validText (listTag r));
    [|by intros [= <- <-]].
  destruct (Z.ltb_spec (listLimit r) 0); [by intros [= <- <-]|].
  destruct (Z.ltb_spec (listOffset r) 0); [by intros [= <- <-]|].
  simpl. intros [= <- <-]. simpl. intros [= <- <- <- <-].
  exists favorite. unfold pageSlice, matchingRows.
  rewrite (decide_filter _ _ _ (countWhere_spec _ _ _)).
  by rewrite (decide_filter _ _ _ (pageWhere_spec _ _ _)).
Qed.

Lemma handleListNotes_ok (r : Request) (sys : Sys) (st : Store)
      (favorite : option bool) :
  online st = true ->
  Pg.validText (listQuery r) = true ->
  Pg.validText (listTag r) = true ->
  favoriteFilter r = Some favorite ->
  (0 <= listOffset r)%Z ->
  handleListNotes r sys st
  = (writeJSON StatusOK
       (PList (pageSlice r favorite st (listLimit r) (listOffset r))
              (listPage r) (listLimit r)
              (Z.of_nat (List.length (matchingRows r favorite st)))), st).
Proof.
  intros Hon Hq Ht Hf Hoff. rewrite handleListNotes_unfold, Hf.
  apply listWith_ok; [done..|]. pose proof (listLimit_range r). lia.
Qed.

Lemma orderByUpdatedAtDesc_sorted (rows : list note) :
  StronglySorted newerFirst (orderByUpdatedAtDesc rows).
Proof. apply StronglySorted_merge_sort; apply _. Qed.

Lemma orderByUpdatedAtDesc_perm (rows : list note) :
  orderByUpdatedAtDesc rows ≡ₚ rows.
Proof. apply merge_sort_Permutation. Qed.

Lemma StronglySorted_take_drop {A} (R : relation A) (l : list A) (k j : nat) :
  StronglySorted R l -> StronglySorted R (take k (drop j l)).
Proof.
  intros Hl.
  rewrite <- (take_drop j l) in Hl. apply StronglySorted_app_1_r in Hl.
  rewrite <- (take_drop k (drop j l)) in Hl. by apply StronglySorted_app_1_l in Hl.
Qed.

Lemma pageSlice_sorted (r : Request) (favorite : option bool) (st : Store)
      (limit offset : Z) :
  StronglySorted newerFirst (pageSlice r favorite st limit offset).
Proof. apply StronglySorted_take_drop, orderByUpdatedAtDesc_sorted. Qed.

(** The newest row, when it is strictly newer than all others, heads the
    ordered rows. *)
Lemma orderByUpdatedAtDesc_head (rows : list note) (n : note) :
  n ∈ rows ->
  (∀ m, m ∈ rows -> m ≠ n -> (UpdatedAt m < UpdatedAt n)%Z) ->
  ∃ rest, orderByUpdatedAtDesc rows = n :: rest.
Proof.
  intros Hn Hnewest.
  pose proof (orderByUpdatedAtDesc_sorted rows) as Hs.
  pose proof (orderByUpdatedAtDesc_perm rows) as Hp.
  destruct (orderByUpdatedAtDesc rows) as [|h rest].
  { apply Permutation_nil_l in Hp. subst rows. by apply elem_of_nil in Hn. }
  exists rest. f_equal.
  destruct (decide (h = n)) as [|Hne]; [done|]. exfalso.
  apply StronglySorted_cons in Hs as [Hh _].
  assert (h ∈ rows) as Hin by (rewrite <- Hp; apply elem_of_cons; by left).
  assert (n ∈ rest) as Hrest.
  { rewrite <- Hp in Hn. apply elem_of_cons in Hn as [->|]; done. }
  rewrite Forall_forall in Hh. specialize (Hh n Hrest). unfold newerFirst in Hh.
  specialize (Hnewest h Hin Hne). lia.
Qed.

End Listing.

(** ** Claims on listing *)

Section ListingClaims.
Context {pf : Platform}.

(** C10.  The trimmed [favorite] parameter is read by [strconv.ParseBool]:
    each of "1", "t", "T", "TRUE", "true", "True" filters on favorites,
    each of "0", "f", "F", "FALSE", "false", "False" on non-favorites, any
    other non-empty value is answered 400 "favorite must be true or false",
    and an empty or absent value filters nothing. *)
Theorem C10_favorite_parameter (r : Request) (sys : Sys) (st : Store) :
  (favoriteRaw r = "" -> handleListNotes r sys st = listWith None r st)
  ∧ (favoriteRaw r ∈ trueLiterals ->
     handleListNotes r sys st = listWith (Some true) r st)
  ∧ (favoriteRaw r ∈ falseLiterals ->
     handleListNotes r sys st = listWith (Some false) r st)
  ∧ (favoriteRaw r ≠ "" ->
     favoriteRaw r ∉ trueLiterals ->
     favoriteRaw r ∉ falseLiterals ->
     handleListNotes r sys st
     = (writeError StatusBadRequest "favorite must be true or false", st))
  ∧ (∀ q tag n, satisfiesFilter q tag None n
                ↔ satisfiesFilter q tag (Some (IsFavorite n)) n).
Proof.
  rewrite handleListNotes_unfold. unfold favoriteFilter.
  destruct (ParseBool_literals (favoriteRaw r)) as (Ht & Hf & Hn).
  split; [|split; [|split; [|split]]].
  - intros ->. done.
  - intros Hin. rewrite (Ht Hin).
    destruct (decide (favoriteRaw r = "")) as [He|_]; [|done].
    rewrite He in Hin. exfalso. revert Hin. unfold trueLiterals.
    rewrite !elem_of_cons, elem_of_nil. naive_solver.
  - intros Hin. rewrite (Hf Hin).
    destruct (decide (favoriteRaw r = "")) as [He|_]; [|done].
    rewrite He in Hin. exfalso. revert Hin. unfold falseLiterals.
    rewrite !elem_of_cons, elem_of_nil. naive_solver.
  - intros Hne Hnt Hnf. rewrite (Hn Hnt Hnf).
    by destruct (decide (favoriteRaw r = "")).
  - intros q tag n. unfold satisfiesFilter. split.
    + intros (Hq & Htag & _). repeat split; try done. by intros ? [= <-].
    + intros (Hq & Htag & _). done.
Qed.

(** C7 (as amended).  For every list call that returns a list: the
    effective page is at least 1, the submitted value when that is a
    positive decimal integer within [int] and 1 otherwise; the effective
    limit is between 1 and 100, the submitted value capped at 100 when that
    is a positive decimal integer within [int] and 30 otherwise; and when
    (page - 1) * limit fits [int] the returned slice starts at that
    offset. *)
Theorem C7_page_limit_offset (r : Request) (sys : Sys) (st st' : Store)
        (resp : Response) (items : list note) (page limit total : Z) :
  handleListNotes r sys st = (resp, st') ->
  payload resp = PList items page limit total ->
  (1 <= page)%Z
  ∧ (1 <= limit <= 100)%Z
  ∧ (∀ v, Go.Atoi (Get (urlQuery r) "page") = Some v -> (0 < v)%Z -> page = v)
  ∧ ((¬ ∃ v, Go.Atoi (Get (urlQuery r) "page") = Some v ∧ (0 < v)%Z) ->
     page = 1%Z)
  ∧ (∀ v, Go.Atoi (Get (urlQuery r) "limit") = Some v -> (0 < v)%Z ->
          limit = Z.min v 100)
  ∧ ((¬ ∃ v, Go.Atoi (Get (urlQuery r) "limit") = Some v ∧ (0 < v)%Z) ->
     limit = 30%Z)
  ∧ (((page - 1) * limit <= Go.maxInt)%Z ->
     ∃ favorite, favoriteFilter r = Some favorite
                 ∧ items = pageSlice r favorite st limit ((page - 1) * limit)).
Proof.
  intros Hh Hp.
  destruct (handleListNotes_listed _ _ _ _ _ _ _ _ _ Hh Hp)
    as (favorite & Hf & _ & _ & _ & _ & -> & -> & _ & ->).
  pose proof (listPage_positive r) as Hpage.
  pose proof (listLimit_range r) as Hlimit.
  destruct (parsePositiveInt_cases (Get (urlQuery r) "page") 1) as [Hp1 Hp2].
  destruct (parsePositiveInt_cases (Get (urlQuery r) "limit") 30) as [Hl1 Hl2].
  split; [done|]. split; [done|].
  split; [exact Hp1|]. split; [exact Hp2|].
  split; [|split].
  - intros v Hv Hpos. unfold listLimit. rewrite (Hl1 v Hv Hpos).
    destruct (Z.ltb_spec 100 v); lia.
  - intros Hno. unfold listLimit. by rewrite (Hl2 Hno).
  - intros Hfit. exists favorite. split; [done|].
    unfold listOffset. rewrite wrap64_small; [done|].
    unfold Go.minInt. nia.
Qed.


(** C5.  The items of every list answer are sorted by [updated_at], newest
    first; and when an update is stamped with a clock reading later than
    the [updated_at] of every other row, the updated row comes first in the
    unfiltered listing of the store the update left: every unfiltered list
    call returns a slice of rows that start with it, and a call for page 1
    returns it as its first item. *)
Theorem C5_sorted_and_updated_first (rs ru rl : Request) (syss sysu sysl : Sys)
        (sts sts' st st1 : Store) (resps respu : Response)
        (items : list note) (page limit total : Z) (n : note) :
  handleListNotes rs syss sts = (resps, sts') ->
  payload resps = PList items page limit total ->
  handleUpdateNote ru sysu st = (respu, st1) ->
  payload respu = PNote n ->
  uniqueIDs st ->
  (∀ m, m ∈ notes st -> ID m ≠ ID n -> (UpdatedAt m < now sysu)%Z) ->
  listQuery rl = "" ->
  listTag rl = "" ->
  favoriteRaw rl = "" ->
  (0 <= listOffset rl)%Z ->
  StronglySorted newerFirst items
  ∧ UpdatedAt n = now sysu
  ∧ ∃ rest total,
      handleListNotes rl sysl st1
      = (writeJSON StatusOK
           (PList (take (Z.to_nat (listLimit rl))
                     (drop (Z.to_nat (listOffset rl)) (n :: rest)))
                  (listPage rl) (listLimit rl) total), st1)
      ∧ (listPage rl = 1%Z ->
         ∃ rest', take (Z.to_nat (listLimit rl))
                    (drop (Z.to_nat (listOffset rl)) (n :: rest)) = n :: rest').
Proof.
  intros Hls Hps Hu Hp Huniq Hclock Hq Ht Hfav Hoff.
  split; [|split].
  - destruct (handleListNotes_listed _ _ _ _ _ _ _ _ _ Hls Hps)
      as (favs & _ & _ & _ & _ & _ & _ & _ & _ & ->).
    apply pageSlice_sorted.
  - destruct (handleUpdateNote_stores _ _ _ _ _ _ Hu Hp)
      as (req & old & _ & _ & _ & -> & _). done.
  - destruct (handleUpdateNote_stores _ _ _ _ _ _ Hu Hp)
      as (req & old & _ & _ & Hold & Hn & _ & Hin & Hon1 & Hnotes).
    assert (Hfl : favoriteFilter rl = Some None).
    { unfold favoriteFilter. by rewrite Hfav. }
    rewrite (handleListNotes_ok rl sysl st1 None) by (by rewrite ?Hq, ?Ht).
    unfold pageSlice, matchingRows.
    rewrite Hq, Ht, filter_all
      by (intros m; split; [by left|split; [by left|done]]).
    destruct (orderByUpdatedAtDesc_head (notes st1) n Hin) as [rest Hrest].
    { intros m Hm Hne. rewrite Hnotes in Hm.
      apply list_elem_of_fmap in Hm as (m0 & -> & Hm0).
      assert (ID n = ID old) as HIDn by (by rewrite Hn).
      case_bool_decide as Hid.
      - exfalso. apply Hne. rewrite Hn.
        by rewrite (NoDup_fmap_inj ID (notes st) m0 old Huniq Hm0 Hold Hid).
      - assert (UpdatedAt n = now sysu) as -> by (by rewrite Hn).
        apply Hclock; [done|]. by rewrite HIDn. }
    rewrite Hrest. eexists _, _. split; [done|].
    intros Hpage.
    assert (Hoff0 : listOffset rl = 0%Z).
    { unfold listOffset. rewrite Hpage. by vm_compute. }
    rewrite Hoff0. simpl.
    pose proof (listLimit_range rl) as Hl.
    destruct (Z.to_nat (listLimit rl)) as [|k] eqn:Hk; [lia|].
    simpl. by eexists.
Qed.

End ListingClaims.

Section ListingSamples.
#[local] Existing Instance asciiPlatform.

Lemma C7_page_limit_offset_witness :
  (1 <= 2)%Z
  ∧ (1 <= 100 <= 100)%Z
  ∧ (∀ v, Go.Atoi (Get (urlQuery (queryRequest "" [("page", "2"); ("limit", "500")]))
                       "page") = Some v -> (0 < v)%Z -> 2%Z = v)
  ∧ ((¬ ∃ v, Go.Atoi (Get (urlQuery (queryRequest "" [("page", "2"); ("limit", "500")]))
                          "page") = Some v ∧ (0 < v)%Z) ->
     2%Z = 1%Z)
  ∧ (∀ v, Go.Atoi (Get (urlQuery (queryRequest "" [("page", "2"); ("limit", "500")]))
                       "limit") = Some v -> (0 < v)%Z ->
          100%Z = Z.min v 100)
  ∧ ((¬ ∃ v, Go.Atoi (Get (urlQuery (queryRequest "" [("page", "2"); ("limit", "500")]))
                          "limit") = Some v ∧ (0 < v)%Z) ->
     100%Z = 30%Z)
  ∧ (((2 - 1) * 100 <= Go.maxInt)%Z ->
     ∃ favorite,
       favoriteFilter (queryRequest "" [("page", "2"); ("limit", "500")])
       = Some favorite
       ∧ [] = pageSlice (queryRequest "" [("page", "2"); ("limit", "500")])
                favorite fifteenNotes 100 ((2 - 1) * 100)).
Proof.
  apply (C7_page_limit_offset
           (queryRequest "" [("page", "2"); ("limit", "500")]) sys5
           fifteenNotes fifteenNotes
           (writeJSON StatusOK (PList [] 2 100 15)) [] 2 100 15).
  - vm_compute. reflexivity.
  - reflexivity.
Defined.

(** A limit beyond [int] is not capped at 100 but replaced by 30; and for a
    page whose product with the limit leaves [int], the slice does not start
    at (page - 1) * limit: page 614891469123651722 of fifteen rows with the
    default limit starts at offset 14. *)
Lemma C7_limit_and_offset_beyond_int :
  (∃ items total,
      payload (handleListNotes
                 (queryRequest "" [("limit", "99999999999999999999")])
                 sys5 fifteenNotes).1 = PList items 1 30 total)
  ∧ payload (handleListNotes
               (queryRequest "" [("page", "614891469123651722")])
               sys5 fifteenNotes).1
    = PList (drop 14 (orderByUpdatedAtDesc (notes fifteenNotes)))
            614891469123651722 30 15
  ∧ drop 14 (orderByUpdatedAtDesc (notes fifteenNotes)) ≠ []
  ∧ (14 ≠ (614891469123651722 - 1) * 30)%Z
  ∧ (Z.of_nat (List.length (orderByUpdatedAtDesc (notes fifteenNotes)))
     < (614891469123651722 - 1) * 30)%Z.
Proof.
  split; [eexists _, _; vm_compute; reflexivity|].
  split; [vm_compute; reflexivity|].
  split; [by vm_compute|].
  split; by vm_compute.
Qed.


Lemma C5_sorted_and_updated_first_witness :
  StronglySorted newerFirst
                 (take 10 (orderByUpdatedAtDesc (notes fifteenNotes)))
  ∧ UpdatedAt sampleNoteUpdated = now sys200
  ∧ ∃ rest total,
      handleListNotes (queryRequest "" []) sys5
        {| notes := [sampleNoteUpdated; otherNote]; sessions := [];
           online := true |}
      = (writeJSON StatusOK
           (PList (take (Z.to_nat (listLimit (queryRequest "" [])))
                     (drop (Z.to_nat (listOffset (queryRequest "" [])))
                           (sampleNoteUpdated :: rest)))
                  (listPage (queryRequest "" []))
                  (listLimit (queryRequest "" [])) total),
         {| notes := [sampleNoteUpdated; otherNote]; sessions := [];
            online := true |})
      ∧ (listPage (queryRequest "" []) = 1%Z ->
         ∃ rest', take (Z.to_nat (listLimit (queryRequest "" [])))
                    (drop (Z.to_nat (listOffset (queryRequest "" [])))
                          (sampleNoteUpdated :: rest))
                  = sampleNoteUpdated :: rest').
Proof.
  apply (C5_sorted_and_updated_first
           (queryRequest "" [("limit", "10")])
           (noteBodyRequest "1" sampleNoteRequest)
           (queryRequest "" []) sys5 sys200 sys5
           fifteenNotes fifteenNotes twoNoteStore
           {| notes := [sampleNoteUpdated; otherNote]; sessions := [];
              online := true |}
           (writeJSON StatusOK
              (PList (take 10 (orderByUpdatedAtDesc (notes fifteenNotes)))
                     1 10 15))
           (writeJSON StatusOK (PNote sampleNoteUpdated))
           (take 10 (orderByUpdatedAtDesc (notes fifteenNotes))) 1 10 15
           sampleNoteUpdated).
  - vm_compute. reflexivity.
  - reflexivity.
  - vm_compute. reflexivity.
  - reflexivity.
  - unfold uniqueIDs. simpl. apply (bool_decide_unpack _). vm_compute. exact I.
  - intros m Hm Hid. simpl in Hm.
    apply elem_of_cons in Hm as [->|Hm]; [by destruct Hid|].
    apply list_elem_of_singleton in Hm as ->. vm_compute. reflexivity.
  - vm_compute. reflexivity.
  - vm_compute. reflexivity.
  - vm_compute. reflexivity.
  - vm_compute. discriminate.
Defined.

End ListingSamples.

(** ** The migration runner *)

Lemma list_ascii_of_string_app (a b : string) :
  list_ascii_of_string (a ++ b)
  = (list_ascii_of_string a ++ list_ascii_of_string b)%list.
Proof. induction a as [|c a IH]; simpl; [done|]. by rewrite IH. Qed.

Lemma HasSuffix_spec (s suffix : string) :
  Go.HasSuffix s suffix = true ↔ ∃ p, s = p ++ suffix.
Proof.
  unfold Go.HasSuffix. rewrite hasPrefixBytes_spec. split.
  - intros [r Hr]. exists (string_of_list_ascii (List.rev r)).
    apply (f_equal (@List.rev ascii)) in Hr.
    rewrite rev_involutive, rev_app_distr, rev_involutive in Hr.
    rewrite <- (string_of_list_ascii_of_string s), Hr.
    rewrite <- (string_of_list_ascii_of_string (_ ++ suffix)).
    by rewrite list_ascii_of_string_app, list_ascii_of_string_of_list_ascii.
  - intros [p ->]. exists (List.rev (list_ascii_of_string p)).
    by rewrite list_ascii_of_string_app, rev_app_distr.
Qed.

Lemma sortStrings_sorted (l : list string) : Sorted String.le (Go.sortStrings l).
Proof. apply Sorted_merge_sort. apply _. Qed.

Lemma sortStrings_perm (l : list string) : Go.sortStrings l ≡ₚ l.
Proof. apply merge_sort_Permutation. Qed.

Section MigrationClaims.
Import Migrate.
Variable env : Env.
Variable migrationsDir : string.

Lemma sqlFileNames_elem_of (files : list DirEntry) (x : string) :
  x ∈ sqlFileNames files ↔
  ∃ file, file ∈ files ∧ Name file = x ∧ IsDir file = false
          ∧ ∃ p, x = p ++ ".sql".
Proof.
  unfold sqlFileNames. rewrite list_elem_of_fmap. split.
  - intros (file & -> & Hin). apply list_elem_of_In, filter_In in Hin as [Hin Hb].
    apply andb_true_iff in Hb as [Hd Hs].
    exists file. split; [by apply list_elem_of_In|]. split; [done|].
    split; [by apply negb_true_iff|by apply HasSuffix_spec].
  - intros (file & Hin & <- & Hd & Hs). exists file. split; [done|].
    apply list_elem_of_In, filter_In. split; [by apply list_elem_of_In|].
    apply andb_true_iff. split; [by apply negb_true_iff|by apply HasSuffix_spec].
Qed.

(** One pass of the loop body is one of the outcomes of the specification. *)
Lemma applyMigration_outcome (name : string) (db : Database) :
  FileOutcome env migrationsDir name db
              (applyMigration env migrationsDir name db).1
              (applyMigration env migrationsDir name db).2.
Proof.
  unfold applyMigration, bind, queryApplied, begin, ret, fail, rollback,
    commit, txExecScript, txInsertLedger.
  destruct (fault env (OpCheck name)) eqn:Hchk; simpl.
  { apply FileCheckFailed. by left. }
  destruct (ledger db) as [l|] eqn:Hl; simpl; [|apply FileCheckFailed; by right].
  case_bool_decide as Hin; simpl.
  { by eapply FileSkipped. }
  destruct (readFile env migrationsDir name) as [content|] eqn:Hread; simpl;
    [|by eapply FileUnreadable].
  destruct (fault env (OpBegin name)) eqn:Hbeg; simpl;
    [by eapply FileNoTransaction|].
  destruct (execScript env content db) as [work|] eqn:Hexec; simpl;
    [|by eapply FileScriptFailed].
  destruct (ledger work) as [l'|] eqn:Hl'; simpl;
    [|eapply FileLedgerFailed; eauto].
  destruct (decide (name ∈ l')) as [Hin'|Hnin']; simpl.
  { eapply FileLedgerFailed; eauto. }
  destruct (fault env (OpCommit name)) eqn:Hcom; simpl.
  - by eapply FileCommitFailed.
  - by eapply FileApplied.
Qed.

Lemma applyMigrations_outcome (names : list string) (db : Database) :
  RunOutcome env migrationsDir names db
             (applyMigrations env migrationsDir names db).1
             (applyMigrations env migrationsDir names db).2.
Proof.
  revert db. induction names as [|name rest IH]; intros db; simpl.
  { constructor. }
  pose proof (applyMigration_outcome name db) as Hone.
  unfold bind.
  destruct (applyMigration env migrationsDir name db) as [[e|[]] db1] eqn:Hm;
    simpl in *.
  - assert (db1 = db) as -> by (by inversion Hone).
    by apply RunAborted.
  - eapply RunNext; [done|]. apply IH.
Qed.

(** C2.  With the ledger table ensured and the directory read, the runner
    takes the names of the non-directory entries ending in ".sql" in
    ascending byte-wise order and, from the database with the ledger table,
    runs them as the specification says: a name with a ledger entry changes
    nothing; any other file has its script and its ledger entry committed
    together; at the first failure the run ends with an error and the
    database is the one the earlier files left. *)
Theorem C2_migration_run (db : Database) (files : list DirEntry) :
  fault env OpEnsure = false ->
  readDir env migrationsDir = Some files ->
  let names := Go.sortStrings (sqlFileNames files) in
  Sorted String.le names
  ∧ names ≡ₚ sqlFileNames files
  ∧ (∀ x, x ∈ names ↔
          ∃ file, file ∈ files ∧ Name file = x ∧ IsDir file = false
                  ∧ ∃ p, x = p ++ ".sql")
  ∧ RunOutcome env migrationsDir names (ensured db)
               (runMigrations env migrationsDir db).1
               (runMigrations env migrationsDir db).2
  ∧ (∀ name d,
        let res := (applyMigration env migrationsDir name d).1 in
        let d' := (applyMigration env migrationsDir name d).2 in
        (∀ l, ledger d = Some l -> name ∈ l -> d' = d)
        ∧ (∀ e, res = inl e -> d' = d)
        ∧ (∀ l, res = inr tt -> ledger d = Some l -> name ∉ l ->
                ∃ content work l',
                  readFile env migrationsDir name = Some content
                  ∧ execScript env content d = Some work
                  ∧ ledger work = Some l'
                  ∧ d' = {| schema := schema work;
                            ledger := Some (l' ++ [name])%list |})).
Proof.
  intros Hens Hdir names.
  split; [apply sortStrings_sorted|].
  split; [apply sortStrings_perm|].
  split.
  { intros x. unfold names. rewrite sortStrings_perm. apply sqlFileNames_elem_of. }
  split.
  - unfold runMigrations, bind, ensureMigrationsTable. rewrite Hens, Hdir.
    assert (Hd : (match ledger db with
                  | Some _ => (inr tt, db)
                  | None => (inr tt, {| schema := schema db; ledger := Some [] |})
                  end : (string + unit) * Database) = (inr tt, ensured db)).
    { unfold ensured. destruct db as [sc [l|]]; done. }
    rewrite Hd. apply applyMigrations_outcome.
  - intros name d res d'. subst res d'.
    pose proof (applyMigration_outcome name d) as Ho.
    destruct (applyMigration env migrationsDir name d) as [res d']. simpl in *.
    split; [|split].
    + intros l Hl Hin. inversion Ho; subst; try done; congruence.
    + intros e ->. by inversion Ho.
    + intros l -> Hl Hnin. inversion Ho; subst; [congruence|].
      by exists content, work, l'.
Qed.

End MigrationClaims.

Lemma C2_migration_run_witness :
  let names := Go.sortStrings (Migrate.sqlFileNames Migrate.sampleFiles) in
  Sorted String.le names
  ∧ names ≡ₚ Migrate.sqlFileNames Migrate.sampleFiles
  ∧ (∀ x, x ∈ names ↔
          ∃ file, file ∈ Migrate.sampleFiles ∧ Migrate.Name file = x
                  ∧ Migrate.IsDir file = false
                  ∧ ∃ p, x = p ++ ".sql")
  ∧ Migrate.RunOutcome Migrate.sampleEnv "migrations" names
      (Migrate.ensured Migrate.freshDatabase)
      (Migrate.runMigrations Migrate.sampleEnv "migrations" Migrate.freshDatabase).1
      (Migrate.runMigrations Migrate.sampleEnv "migrations" Migrate.freshDatabase).2
  ∧ (∀ name d,
        let res := (Migrate.applyMigration Migrate.sampleEnv "migrations" name d).1 in
        let d' := (Migrate.applyMigration Migrate.sampleEnv "migrations" name d).2 in
        (∀ l, Migrate.ledger d = Some l -> name ∈ l -> d' = d)
        ∧ (∀ e, res = inl e -> d' = d)
        ∧ (∀ l, res = inr tt -> Migrate.ledger d = Some l -> name ∉ l ->
                ∃ content work l',
                  Migrate.readFile Migrate.sampleEnv "migrations" name = Some content
                  ∧ Migrate.execScript Migrate.sampleEnv content d = Some work
                  ∧ Migrate.ledger work = Some l'
                  ∧ d' = {| Migrate.schema := Migrate.schema work;
                            Migrate.ledger := Some (l' ++ [name])%list |})).
Proof.
  apply (C2_migration_run Migrate.sampleEnv "migrations" Migrate.freshDatabase
           Migrate.sampleFiles).
  - reflexivity.
  - reflexivity.
Defined.

(** The sample run: ["001_a.sql"] is committed with its ledger entry,
    ["002_b.sql"] fails and leaves nothing behind. *)
Example sample_migration_run :
  Migrate.runMigrations Migrate.sampleEnv "migrations" Migrate.freshDatabase
  = (inl "run migration 002_b.sql",
     {| Migrate.schema := ["001_a.sql"];
        Migrate.ledger := Some ["001_a.sql"] |}).
Proof. vm_compute. reflexivity. Qed.

(** * Further properties of the code *)

(** ** Trimming twice *)

Lemma TrimSpace_id (s : string) :
  ¬ startsWithSpace s -> ¬ endsWithSpace s -> Go.TrimSpace s = s.
Proof.
  intros Hstart Hend. unfold Go.TrimSpace, Go.trimLeft, Go.trimRight.
  set (l := list_ascii_of_string s).
  assert (Hl : Go.trimLeftFrom Go.spaceRunes 0 l = l).
  { rewrite trimLeftFrom_step.
    destruct (Go.leadingSpace Go.spaceRunes l) as [|k] eqn:Hk; [done|].
    destruct (leadingSpace_pos _ _ _ Hk) as (w & r & Hw & Hr & _).
    exfalso. apply Hstart. by exists w, r. }
  rewrite Hl.
  assert (Hr : Go.trimLeftFrom (List.rev (A:=ascii) <$> Go.spaceRunes) 0
                 (List.rev l) = List.rev l).
  { rewrite trimLeftFrom_step.
    destruct (Go.leadingSpace _ (List.rev l)) as [|k] eqn:Hk; [done|].
    destruct (leadingSpace_pos _ _ _ Hk) as (w' & r & Hw' & Hr & _).
    apply list_elem_of_fmap in Hw' as (w & -> & Hw).
    exfalso. apply Hend. exists w, (List.rev r).
    split; [done|]. unfold l in Hr.
    by rewrite <- (rev_involutive (list_ascii_of_string s)), Hr,
      rev_app_distr, rev_involutive. }
  rewrite Hr, rev_involutive. apply string_of_list_ascii_of_string.
Qed.

Lemma TrimSpace_idempotent (s : string) :
  Go.TrimSpace (Go.TrimSpace s) = Go.TrimSpace s.
Proof.
  destruct (TrimSpace_trimmedOf s) as (_ & Hs & He). by apply TrimSpace_id.
Qed.

Section TitleAgain.
Context {pf : Platform}.

Lemma normalizeTitle_idempotent (s : string) :
  normalizeTitle (normalizeTitle s) = normalizeTitle s.
Proof.
  unfold normalizeTitle.
  destruct (decide (Go.TrimSpace s = "")) as [He|Hne]; [by vm_compute|].
  rewrite TrimSpace_idempotent. by rewrite decide_False.
Qed.

(** X1.  A title read back from a stored note and submitted again in an
    update is stored unchanged. *)
Theorem stored_title_resubmitted (r1 r2 : Request) (sys1 sys2 : Sys)
        (st0 st1 st2 : Store) (resp1 resp2 : Response) (n1 n2 : note)
        (req2 : noteRequest) :
  handleCreateNote r1 sys1 st0 = (resp1, st1)
    ∨ handleUpdateNote r1 sys1 st0 = (resp1, st1) ->
  payload resp1 = PNote n1 ->
  handleUpdateNote r2 sys2 st1 = (resp2, st2) ->
  payload resp2 = PNote n2 ->
  bodyNote r2 = Some req2 ->
  reqTitle req2 = Title n1 ->
  Title n2 = Title n1 ∧ Title n2 ≠ "".
Proof.
  intros H1 Hp1 H2 Hp2 Hb2 Ht.
  assert (∃ s, Title n1 = normalizeTitle s) as [s Hs].
  { destruct H1 as [Hc|Hu].
    - destruct (handleCreateNote_stores _ _ _ _ _ _ Hc Hp1) as (req & _ & -> & _).
      by eexists.
    - destruct (handleUpdateNote_stores _ _ _ _ _ _ Hu Hp1)
        as (req & old & _ & _ & _ & -> & _). by eexists. }
  destruct (handleUpdateNote_stores _ _ _ _ _ _ H2 Hp2)
    as (req & old & Hb & _ & _ & -> & _).
  rewrite Hb2 in Hb. injection Hb as <-. simpl.
  rewrite Ht, Hs, normalizeTitle_idempotent. split; [done|].
  unfold normalizeTitle. by destruct (decide (Go.TrimSpace s = "")).
Qed.

End TitleAgain.

Section TitleAgainSample.
#[local] Existing Instance asciiPlatform.

Lemma stored_title_resubmitted_witness :
  Title sampleNoteUpdated = Title sampleNote ∧ Title sampleNoteUpdated ≠ "".
Proof.
  apply (stored_title_resubmitted
           (noteBodyRequest "" sampleNoteRequest)
           (noteBodyRequest "1"
              {| reqTitle := "Untitled"; reqContent := " x ";
                 reqTags := ["a"]; reqIsFavorite := false |})
           sys5 sys200 emptyStore sampleStore
           {| notes := [sampleNoteUpdated]; sessions := []; online := true |}
           (writeJSON StatusCreated (PNote sampleNote))
           (writeJSON StatusOK (PNote sampleNoteUpdated))
           sampleNote sampleNoteUpdated
           {| reqTitle := "Untitled"; reqContent := " x ";
              reqTags := ["a"]; reqIsFavorite := false |}).
  - left. vm_compute. reflexivity.
  - reflexivity.
  - vm_compute. reflexivity.
  - reflexivity.
  - reflexivity.
  - reflexivity.
Defined.

End TitleAgainSample.

(** ** Running the migrations again *)

Section MigrationsAgain.
Import Migrate.
Variable env : Env.
Variable migrationsDir : string.
Hypothesis keeps : keepsLedgerEntries env.

(** A run that succeeds leaves every name it was given in the ledger, keeps
    the earlier entries, and met no failing check. *)
Lemma applyMigrations_recorded (names : list string) (d d1 : Database)
      (l : list string) :
  applyMigrations env migrationsDir names d = (inr tt, d1) ->
  ledger d = Some l ->
  ∃ l1, ledger d1 = Some l1
        ∧ l ⊆ l1
        ∧ (∀ x, x ∈ names -> x ∈ l1 ∧ fault env (OpCheck x) = false).
Proof.
  revert d l. induction names as [|name rest IH]; intros d l Hrun Hl.
  { injection Hrun as <-. exists l. split; [done|]. split; [done|].
    by intros x ?%elem_of_nil. }
  simpl in Hrun. unfold bind in Hrun.
  pose proof (applyMigration_outcome env migrationsDir name d) as Hone.
  destruct (applyMigration env migrationsDir name d) as [[e|[]] dm];
    [done|]. simpl in Hone.
  assert (∃ lm, ledger dm = Some lm ∧ l ⊆ lm ∧ name ∈ lm
                ∧ fault env (OpCheck name) = false)
    as (lm & Hlm & Hsub & Hin & Hchk).
  { inversion Hone; subst.
    - exists l. repeat split; try done. congruence.
    - match goal with
      | Hexec : execScript _ _ _ = Some _ |- _ =>
          destruct (keeps _ _ _ _ Hexec Hl) as (l'' & Hl'' & Hsub)
      end.
      assert (l'' = l') as -> by congruence.
      exists (l' ++ [name])%list. simpl. split; [done|].
      split; [|split; [|done]].
      + intros x Hx. apply elem_of_app. left. by apply Hsub.
      + apply elem_of_app. right. by apply list_elem_of_singleton. }
  destruct (IH dm lm Hrun Hlm) as (l1 & Hl1 & Hsub1 & Hall).
  exists l1. split; [done|]. split; [by etrans|].
  intros x [->|Hx]%elem_of_cons; [|by apply Hall].
  split; [by apply Hsub1|done].
Qed.

(** Names that all have a ledger entry are skipped one by one. *)
Lemma applyMigrations_all_applied (names : list string) (d : Database)
      (l : list string) :
  ledger d = Some l ->
  (∀ x, x ∈ names -> x ∈ l ∧ fault env (OpCheck x) = false) ->
  applyMigrations env migrationsDir names d = (inr tt, d).
Proof.
  intros Hl. induction names as [|name rest IH]; intros Hall; [done|].
  simpl. unfold bind, applyMigration, bind, queryApplied.
  destruct (Hall name) as [Hin Hchk]; [apply elem_of_cons; by left|].
  rewrite Hchk, Hl. rewrite bool_decide_true by done. simpl.
  apply IH. intros x Hx. apply Hall. apply elem_of_cons. by right.
Qed.

Lemma runMigrations_succeeded (db db1 : Database) :
  runMigrations env migrationsDir db = (inr tt, db1) ->
  ∃ files, fault env OpEnsure = false
           ∧ readDir env migrationsDir = Some files
           ∧ applyMigrations env migrationsDir
               (Go.sortStrings (sqlFileNames files)) (ensured db)
             = (inr tt, db1).
Proof.
  unfold runMigrations, bind, ensureMigrationsTable.
  destruct (fault env OpEnsure); [done|].
  assert (Hd : (match ledger db with
                | Some _ => (inr tt, db)
                | None => (inr tt, {| schema := schema db; ledger := Some [] |})
                end : (string + unit) * Database) = (inr tt, ensured db)).
  { unfold ensured. destruct db as [sc [l|]]; done. }
  rewrite Hd.
  destruct (readDir env migrationsDir) as [files|]; [|done].
  intros Hrun. by exists files.
Qed.

(** X2.  When the scripts leave the ledger entries in place, a run that
    succeeds has recorded every non-directory entry of the directory whose
    name ends in ".sql". *)
Theorem migrations_all_recorded (db db1 : Database) (files : list DirEntry)
        (file : DirEntry) :
  runMigrations env migrationsDir db = (inr tt, db1) ->
  readDir env migrationsDir = Some files ->
  file ∈ files ->
  IsDir file = false ->
  Go.HasSuffix (Name file) ".sql" = true ->
  ∃ l1, ledger db1 = Some l1 ∧ Name file ∈ l1.
Proof.
  intros Hrun Hdir Hin Hd Hs.
  destruct (runMigrations_succeeded _ _ Hrun) as (files' & _ & Hdir' & Happly).
  assert (files' = files) as -> by congruence.
  destruct (applyMigrations_recorded _ _ _ _ Happly eq_refl)
    as (l1 & Hl1 & _ & Hall).
  exists l1. split; [done|]. apply Hall.
  rewrite sortStrings_perm. apply sqlFileNames_elem_of.
  exists file. repeat split; try done. by apply HasSuffix_spec.
Qed.

(** X3.  When the scripts leave the ledger entries in place, running the
    migrations again after a run that succeeded succeeds and changes
    nothing. *)
Theorem migrations_rerun_changes_nothing (db db1 : Database) :
  runMigrations env migrationsDir db = (inr tt, db1) ->
  runMigrations env migrationsDir db1 = (inr tt, db1).
Proof.
  intros Hrun.
  destruct (runMigrations_succeeded _ _ Hrun) as (files & Hens & Hdir & Happly).
  destruct (applyMigrations_recorded _ _ _ _ Happly eq_refl)
    as (l1 & Hl1 & _ & Hall).
  unfold runMigrations, bind, ensureMigrationsTable.
  rewrite Hens, Hl1, Hdir. by eapply applyMigrations_all_applied.
Qed.

End MigrationsAgain.

Lemma calmEnv_keeps : keepsLedgerEntries calmEnv.
Proof.
  intros content d work l [= <-] Hl. simpl. by exists l.
Qed.

Lemma migrations_all_recorded_witness :
  ∃ l1, Migrate.ledger migratedDatabase = Some l1
        ∧ Migrate.Name {| Migrate.Name := "002_b.sql"; Migrate.IsDir := false |}
            ∈ l1.
Proof.
  apply (migrations_all_recorded calmEnv "migrations" calmEnv_keeps
           Migrate.freshDatabase migratedDatabase Migrate.sampleFiles
           {| Migrate.Name := "002_b.sql"; Migrate.IsDir := false |}).
  - vm_compute. reflexivity.
  - reflexivity.
  - apply elem_of_cons. left. reflexivity.
  - reflexivity.
  - vm_compute. reflexivity.
Defined.

Lemma migrations_rerun_changes_nothing_witness :
  Migrate.runMigrations calmEnv "migrations" migratedDatabase
  = (inr tt, migratedDatabase).
Proof.
  apply (migrations_rerun_changes_nothing calmEnv "migrations" calmEnv_keeps
           Migrate.freshDatabase migratedDatabase).
  vm_compute. reflexivity.
Defined.

(** ** Configuration *)

Section Configuration.
Import config.
Variable Getenv : string -> string.

Lemma getEnv_cases (key fallback : string) :
  (whitespaceOnly (Getenv key) -> getEnv Getenv key fallback = fallback)
  ∧ (¬ whitespaceOnly (Getenv key) ->
     getEnv Getenv key fallback = Go.TrimSpace (Getenv key)
     ∧ getEnv Getenv key fallback ≠ "").
Proof.
  unfold getEnv. rewrite <- TrimSpace_empty_iff.
  destruct (decide (Go.TrimSpace (Getenv key) ≠ "")) as [Hne|He].
  - split; [done|]. by intros _.
  - apply dec_stable in He. split; [done|]. by intros [].
Qed.

(** X4.  [Load] succeeds exactly when [SESSION_TTL_HOURS] (168 when unset or
    blank) is a positive decimal integer within [int] and neither
    [DATABASE_URL] nor [APP_PASSWORD] is unset or made of white space. *)
Theorem Load_succeeds_iff :
  (∃ cfg, Load Getenv = inr cfg)
  ↔ (∃ hours, Go.Atoi (getEnv Getenv "SESSION_TTL_HOURS" "168") = Some hours
              ∧ (0 < hours)%Z)
    ∧ ¬ whitespaceOnly (Getenv "DATABASE_URL")
    ∧ ¬ whitespaceOnly (Getenv "APP_PASSWORD").
Proof.
  unfold Load. rewrite <- !TrimSpace_empty_iff.
  destruct (Go.Atoi (getEnv Getenv "SESSION_TTL_HOURS" "168")) as [hours|].
  - destruct (Z.leb_spec hours 0) as [Hle|Hlt].
    + split; [by intros [cfg ?]|]. intros [(h & [= <-] & Hh) _]. lia.
    + simpl.
      destruct (decide (Go.TrimSpace (Getenv "DATABASE_URL") = "")) as [Hd|Hd].
      { split; [by intros [cfg ?]|]. tauto. }
      destruct (decide (Go.TrimSpace (Getenv "APP_PASSWORD") = "")) as [Ha|Ha].
      { split; [by intros [cfg ?]|]. tauto. }
      split; [|by eexists]. intros _. split; [by exists hours|done].
  - split; [by intros [cfg ?]|]. by intros [(h & ? & _) _].
Qed.

Lemma Load_inr (cfg : Config) :
  Load Getenv = inr cfg ->
  ∃ hours, Go.Atoi (getEnv Getenv "SESSION_TTL_HOURS" "168") = Some hours
           ∧ (0 < hours)%Z
           ∧ cfg = {| Port := getEnv Getenv "PORT" "8080";
                      DatabaseURL := Go.TrimSpace (Getenv "DATABASE_URL");
                      AppPassword := Go.TrimSpace (Getenv "APP_PASSWORD");
                      SessionCookieName :=
                        getEnv Getenv "SESSION_COOKIE_NAME" "notes_session";
                      SessionTTL := Go.wrap64 (hours * Hour);
                      CookieSecure :=
                        equalFoldTrue (getEnv Getenv "SESSION_COOKIE_SECURE" "false");
                      CookieDomain := Go.TrimSpace (Getenv "SESSION_COOKIE_DOMAIN");
                      AllowedOrigin := Go.TrimSpace (Getenv "ALLOWED_ORIGIN");
                      MigrationsDir :=
                        getEnv Getenv "MIGRATIONS_DIR" "../db/migrations" |}
           ∧ DatabaseURL cfg ≠ "" ∧ AppPassword cfg ≠ "".
Proof.
  unfold Load.
  destruct (Go.Atoi (getEnv Getenv "SESSION_TTL_HOURS" "168")) as [hours|];
    [|done].
  destruct (Z.leb_spec hours 0) as [Hle|Hlt]; [done|]. simpl.
  destruct (decide (Go.TrimSpace (Getenv "DATABASE_URL") = "")); [done|].
  destruct (decide (Go.TrimSpace (Getenv "APP_PASSWORD") = "")); [done|].
  intros [= <-]. exists hours. by repeat split.
Qed.

(** X5.  A loaded configuration has a database URL and a password that are
    the values of their variables without surrounding white space and are
    not empty, and a port, a cookie name and a migrations directory that are
    not empty. *)
Theorem Load_fields (cfg : Config) :
  Load Getenv = inr cfg ->
  trimmedOf (Getenv "DATABASE_URL") (DatabaseURL cfg)
  ∧ DatabaseURL cfg ≠ ""
  ∧ trimmedOf (Getenv "APP_PASSWORD") (AppPassword cfg)
  ∧ AppPassword cfg ≠ ""
  ∧ Port cfg ≠ ""
  ∧ SessionCookieName cfg ≠ ""
  ∧ MigrationsDir cfg ≠ "".
Proof.
  intros (hours & _ & _ & -> & Hd & Ha)%Load_inr. simpl in *.
  assert (Hne : ∀ key fallback, fallback ≠ "" -> getEnv Getenv key fallback ≠ "").
  { intros key fallback Hf. unfold getEnv.
    by destruct (decide (Go.TrimSpace (Getenv key) ≠ "")). }
  repeat split; try done; try apply TrimSpace_trimmedOf; by apply Hne.
Qed.

(** X6.  The session TTL of a loaded configuration is the number of hours
    times [time.Hour] as long as the hours do not exceed 2562047; for
    2562048 to 5124095 hours [Load] still succeeds and the TTL is
    negative. *)
Theorem Load_session_ttl (cfg : Config) :
  Load Getenv = inr cfg ->
  ∃ hours, Go.Atoi (getEnv Getenv "SESSION_TTL_HOURS" "168") = Some hours
           ∧ (0 < hours)%Z
           ∧ ((hours <= maxTTLHours)%Z ->
              SessionTTL cfg = (hours * 3600000000000)%Z
              ∧ (0 < SessionTTL cfg / 1000)%Z)
           ∧ ((maxTTLHours < hours <= 5124095)%Z -> (SessionTTL cfg < 0)%Z).
Proof.
  intros (hours & Hh & Hpos & -> & _)%Load_inr. simpl.
  exists hours. split; [done|]. split; [done|]. unfold maxTTLHours, Hour. split.
  - intros Hle. rewrite wrap64_small by (unfold Go.minInt, Go.maxInt; lia).
    split; [done|].
    replace (hours * 3600000000000)%Z with ((hours * 3600000000) * 1000)%Z by lia.
    rewrite Z.div_mul by done. lia.
  - intros [Hlt Hle]. unfold Go.wrap64.
    replace ((hours * 3600000000000 + 2 ^ 63) mod 2 ^ 64)%Z
      with (hours * 3600000000000 + 2 ^ 63 - 2 ^ 64)%Z; [lia|].
    apply Z.mod_unique with (q := 1%Z); lia.
Qed.

End Configuration.

Lemma Load_fields_witness :
  trimmedOf (sampleGetenv "DATABASE_URL") "postgres://db/notes"
  ∧ "postgres://db/notes" ≠ ""
  ∧ trimmedOf (sampleGetenv "APP_PASSWORD") "secret"
  ∧ "secret" ≠ ""
  ∧ "8080" ≠ ""
  ∧ "notes_session" ≠ ""
  ∧ "../db/migrations" ≠ "".
Proof.
  apply (Load_fields sampleGetenv
           {| config.Port := "8080";
              config.DatabaseURL := "postgres://db/notes";
              config.AppPassword := "secret";
              config.SessionCookieName := "notes_session";
              config.SessionTTL := 604800000000000;
              config.CookieSecure := false;
              config.CookieDomain := "";
              config.AllowedOrigin := "";
              config.MigrationsDir := "../db/migrations" |}).
  vm_compute. reflexivity.
Defined.

Lemma Load_session_ttl_witness :
  ∃ hours, Go.Atoi (config.getEnv sampleGetenv "SESSION_TTL_HOURS" "168")
           = Some hours
           ∧ (0 < hours)%Z
           ∧ ((hours <= maxTTLHours)%Z ->
              604800000000000%Z = (hours * 3600000000000)%Z
              ∧ (0 < 604800000000000 / 1000)%Z)
           ∧ ((maxTTLHours < hours <= 5124095)%Z -> (604800000000000 < 0)%Z).
Proof.
  apply (Load_session_ttl sampleGetenv
           {| config.Port := "8080";
              config.DatabaseURL := "postgres://db/notes";
              config.AppPassword := "secret";
              config.SessionCookieName := "notes_session";
              config.SessionTTL := 604800000000000;
              config.CookieSecure := false;
              config.CookieDomain := "";
              config.AllowedOrigin := "";
              config.MigrationsDir := "../db/migrations" |}).
  vm_compute. reflexivity.
Defined.

(** ** Session tokens *)

Lemma allBytes_Forall (p : ascii -> bool) (s : string) :
  Go.allBytes p s = true ↔ Forall (fun c => p c = true) (list_ascii_of_string s).
Proof.
  induction s as [|c s IH]; simpl.
  - split; [constructor|done].
  - rewrite andb_true_iff, Forall_cons, IH. done.
Qed.

Lemma char_urlSafe (v : N) : urlSafe (Base64.char v) = true.
Proof.
  unfold Base64.char.
  assert (Hall : forallb (fun k => match String.get k Base64.alphabet with
                                   | Some c => urlSafe c
                                   | None => false
                                   end) (seq 0 64) = true)
    by (by vm_compute).
  rewrite forallb_forall in Hall.
  assert (Hlt : (N.to_nat (N.land v 63) < 64)%nat).
  { change 63%N with (N.ones 6). rewrite N.land_ones.
    pose proof (N.mod_upper_bound v (2 ^ 6)) as Hm. simpl in Hm. lia. }
  specialize (Hall (N.to_nat (N.land v 63))).
  destruct (String.get _ Base64.alphabet) as [c|].
  - apply Hall. apply in_seq. lia.
  - exfalso. assert (false = true) as Hf; [|done]. apply Hall, in_seq. lia.
Qed.

Lemma encode_urlSafe (src : list ascii) :
  Go.allBytes urlSafe (Base64.encode src) = true.
Proof.
  assert (H : ∀ k src, (List.length src <= k)%nat ->
                       Go.allBytes urlSafe (Base64.encode src) = true).
  { clear src. induction k as [|k IH]; intros src Hk.
    - destruct src; [done|simpl in Hk; lia].
    - destruct src as [|b0 [|b1 [|b2 rest]]]; simpl; rewrite ?char_urlSafe;
        try done.
      simpl. apply IH. simpl in Hk. lia. }
  by apply (H (List.length src)).
Qed.

Lemma spaceRunes_not_urlSafe (w : list ascii) (c : ascii) :
  w ∈ Go.spaceRunes -> c ∈ w -> urlSafe c = false.
Proof.
  assert (Hall : Forall (fun w => Forall (fun c => urlSafe c = false) w)
                        Go.spaceRunes).
  { apply (bool_decide_unpack _). by vm_compute. }
  rewrite Forall_forall in Hall. intros Hw Hc.
  specialize (Hall w Hw). rewrite Forall_forall in Hall. by apply Hall.
Qed.

(** A string over the raw URL alphabet has no white space to trim. *)
Lemma urlSafe_TrimSpace (s : string) :
  Go.allBytes urlSafe s = true -> Go.TrimSpace s = s.
Proof.
  intros Hs. apply allBytes_Forall in Hs. rewrite Forall_forall in Hs.
  pose proof spaceRunes_nonempty as Hne. rewrite Forall_forall in Hne.
  apply TrimSpace_id.
  - intros (w & r & Hw & Hr).
    destruct w as [|c w]; [by apply (Hne [] Hw)|].
    assert (urlSafe c = true) as Ht.
    { apply Hs. rewrite Hr. apply elem_of_cons. by left. }
    rewrite (spaceRunes_not_urlSafe (c :: w) c Hw) in Ht; [done|].
    apply elem_of_cons. by left.
  - intros (w & r & Hw & Hr).
    destruct w as [|c w]; [by apply (Hne [] Hw)|].
    assert (urlSafe c = true) as Ht.
    { apply Hs. rewrite Hr. apply elem_of_app. right. apply elem_of_cons. by left. }
    rewrite (spaceRunes_not_urlSafe (c :: w) c Hw) in Ht; [done|].
    apply elem_of_cons. by left.
Qed.

(** X7.  A generated session token is 43 bytes of the raw URL alphabet, so
    trimming leaves it as it is and it is not empty. *)
Theorem generateSessionToken_shape (e : Entropy) (tok : string) :
  generateSessionToken e = Some tok ->
  String.length tok = 43%nat
  ∧ Go.allBytes urlSafe tok = true
  ∧ Go.TrimSpace tok = tok
  ∧ tok ≠ "".
Proof.
  unfold generateSessionToken. destruct (randFails e); [done|].
  intros Heq.
  assert (tok = Base64.encode (randByte e <$> seq 0 32)) as -> by congruence.
  clear Heq.
  assert (Hlen : String.length (Base64.encode (randByte e <$> seq 0 32)) = 43%nat)
    by (by vm_compute).
  split; [done|]. split; [apply encode_urlSafe|].
  split; [apply urlSafe_TrimSpace, encode_urlSafe|].
  intros He. by rewrite He in Hlen.
Qed.

Lemma generateSessionToken_shape_witness :
  String.length zeroToken = 43%nat
  ∧ Go.allBytes urlSafe zeroToken = true
  ∧ Go.TrimSpace zeroToken = zeroToken
  ∧ zeroToken ≠ "".
Proof.
  apply (generateSessionToken_shape zeroEntropy zeroToken).
  vm_compute. reflexivity.
Defined.

(** ** Login and logout *)

Section Login.
Context {pf : Platform}.

Lemma insertSession_Some (id : UUID) (tok : string) (exp t : Time) (st st' : Store) :
  insertSession id tok exp t st = Some st' ->
  online st = true
  ∧ (∀ s, s ∈ sessions st -> session_id s ≠ id ∧ session_token s ≠ tok)
  ∧ st' = {| notes := notes st;
             sessions := (sessions st ++
                          [ {| session_id := id; session_token := tok;
                               session_created_at := t;
                               session_expires_at := exp |} ])%list;
             online := true |}.
Proof.
  unfold insertSession. destruct (online st); [|done].
  destruct (existsb _ _) eqn:Hex; [done|]. intros [= <-].
  split; [done|]. split; [|done].
  intros s Hs.
  assert (bool_decide (session_id s = id) || bool_decide (session_token s = tok)
          = false) as Hb.
  { apply not_true_is_false. intros Hb.
    assert (existsb (fun s => bool_decide (session_id s = id)
                              || bool_decide (session_token s = tok))
                    (sessions st) = true) as Hex'; [|congruence].
    apply existsb_exists. exists s. split; [by apply list_elem_of_In|done]. }
  apply orb_false_iff in Hb as [Hi Ht].
  apply bool_decide_eq_false in Hi, Ht. done.
Qed.

Lemma insertSession_fresh (id : UUID) (tok : string) (exp t : Time) (st : Store) :
  online st = true ->
  (∀ s, s ∈ sessions st -> session_id s ≠ id ∧ session_token s ≠ tok) ->
  insertSession id tok exp t st
  = Some {| notes := notes st;
            sessions := (sessions st ++
                         [ {| session_id := id; session_token := tok;
                              session_created_at := t;
                              session_expires_at := exp |} ])%list;
            online := true |}.
Proof.
  intros Hon Hfresh. unfold insertSession. rewrite Hon.
  destruct (existsb _ _) eqn:Hex; [|done].
  apply existsb_exists in Hex as (s & Hs & Hb).
  apply list_elem_of_In in Hs. destruct (Hfresh s Hs) as [Hi Ht].
  apply orb_true_iff in Hb as [Hb|Hb]; by apply bool_decide_eq_true in Hb.
Qed.

(** X8.  [handleLogin] answers 400 to a body that does not decode and 401 to
    a password that differs from the configured one; whenever its answer is
    not 200 it sets no cookie and leaves the store as it was. *)
Theorem login_refused (cfg : config.Config) (password : option string)
        (e : Entropy) (r : Request) (sys : Sys) (st : Store) :
  let out := handleLogin cfg password e r sys st in
  (password = None -> out = (writeError StatusBadRequest "invalid json body", st))
  ∧ (∀ pw, password = Some pw -> pw ≠ config.AppPassword cfg ->
           out = (writeError StatusUnauthorized "invalid password", st))
  ∧ (status out.1 ≠ StatusOK -> setCookie out.1 = None ∧ out.2 = st).
Proof.
  unfold handleLogin. split; [by intros ->|]. split.
  - intros pw -> Hne. by rewrite bool_decide_false.
  - destruct password as [pw|]; [|done].
    destruct (negb _); [done|].
    destruct (generateSessionToken e); [|done].
    destruct (insertSession _ _ _ _ st); [|done]. simpl. done.
Qed.

(** X9.  A login with the configured password, working entropy and a
    reachable store in which neither the new id nor the new token is taken
    answers 200 with the token as cookie; with that cookie a request passes
    the gate at every time before the expiry (the time of the login plus the
    TTL) and is answered 401 from the expiry on. *)
Theorem login_then_gate (cfg : config.Config) (e : Entropy) (r r' : Request)
        (sys sys' : Sys) (st : Store) (tok : string) (next : Handler) :
  generateSessionToken e = Some tok ->
  online st = true ->
  (∀ s, s ∈ sessions st ->
        session_id s ≠ newUUID sys ∧ session_token s ≠ tok) ->
  cookieValue r' = Some tok ->
  let expiresAt := (now sys + config.SessionTTL cfg / 1000)%Z in
  let out := handleLogin cfg (Some (config.AppPassword cfg)) e r sys st in
  out.1 = withSessionCookie tok expiresAt (writeJSON StatusOK POk)
  ∧ ((now sys' < expiresAt)%Z ->
     requireSession next r' sys' out.2
     = next (withSessionToken r' tok) sys' out.2)
  ∧ ((expiresAt <= now sys')%Z ->
     requireSession next r' sys' out.2
     = (writeError StatusUnauthorized "unauthorized", out.2)).
Proof.
  intros Htok Hon Hfresh Hc expiresAt out.
  destruct (generateSessionToken_shape e tok Htok) as (_ & _ & Htrim & Hne).
  subst out. unfold handleLogin. rewrite bool_decide_true by done. simpl.
  rewrite Htok. fold expiresAt.
  rewrite (insertSession_fresh _ _ _ _ _ Hon Hfresh). simpl.
  split; [done|]. split.
  - intros Hlt. rewrite <- Htrim at 2.
    apply requireSession_passes; [done|by rewrite Htrim|].
    rewrite Htrim.
    apply (sessionExists_true tok (now sys') _
             {| session_id := newUUID sys; session_token := tok;
                session_created_at := now sys;
                session_expires_at := expiresAt |}); [done| |done|done].
    simpl. apply elem_of_app. right. by apply list_elem_of_singleton.
  - intros Hle. apply (requireSession_rejects next r' sys' _ tok Hc).
    rewrite Htrim. apply sessionExists_false; [done|]. simpl.
    intros x [Hx|Hx]%elem_of_app Hxt.
    + by destruct (Hfresh x Hx).
    + apply list_elem_of_singleton in Hx. by subst x.
Qed.

(** X10.  A logout with a non-empty cookie value that trimming leaves as it
    is removes exactly the sessions with that token from a reachable store,
    and a request with that cookie is answered 401 afterwards. *)
Theorem logout_revokes (r : Request) (sys sys' : Sys) (st : Store) (v : string)
        (next : Handler) :
  cookieValue r = Some v ->
  Go.TrimSpace v = v ->
  v ≠ "" ->
  online st = true ->
  let st' := (handleLogout r sys st).2 in
  (∀ s, s ∈ sessions st' ↔ s ∈ sessions st ∧ session_token s ≠ v)
  ∧ notes st' = notes st
  ∧ requireSession next r sys' st'
    = (writeError StatusUnauthorized "unauthorized", st').
Proof.
  intros Hc Htrim Hne Hon st'. subst st'.
  unfold handleLogout, deleteSession. rewrite Hc, Htrim, Hon.
  rewrite decide_False by done. simpl.
  assert (Hmem : ∀ s, s ∈ List.filter
                        (fun s => negb (bool_decide (session_token s = v)))
                        (sessions st)
                      ↔ s ∈ sessions st ∧ session_token s ≠ v).
  { intros s. rewrite list_elem_of_In, filter_In, <- list_elem_of_In.
    by rewrite negb_true_iff, bool_decide_eq_false. }
  split; [done|]. split; [done|].
  apply (requireSession_rejects next r sys' _ v Hc).
  rewrite Htrim. apply sessionExists_false; [done|]. simpl.
  intros x Hx Hxt. apply Hmem in Hx. tauto.
Qed.

(** X11.  Login and logout keep the tokens of the stored sessions pairwise
    distinct. *)
Theorem login_logout_keep_uniqueTokens (cfg : config.Config)
        (password : option string) (e : Entropy) (r : Request) (sys : Sys)
        (st : Store) :
  uniqueTokens st ->
  uniqueTokens (handleLogin cfg password e r sys st).2
  ∧ uniqueTokens (handleLogout r sys st).2.
Proof.
  unfold uniqueTokens. intros Hst. split.
  - unfold handleLogin. destruct password as [pw|]; [|done].
    destruct (negb _); [done|].
    destruct (generateSessionToken e) as [tok|]; [|done].
    destruct (insertSession _ _ _ _ st) as [st'|] eqn:Hins; [|done]. simpl.
    apply insertSession_Some in Hins as (_ & Hfresh & ->). simpl.
    rewrite fmap_app. apply NoDup_app. split; [done|]. split.
    + intros x (s & -> & Hs)%list_elem_of_fmap Hx.
      apply list_elem_of_singleton in Hx. by destruct (Hfresh s Hs).
    + apply NoDup_singleton.
  - unfold handleLogout, deleteSession.
    destruct (cookieValue r) as [v|]; [|done].
    destruct (decide _); [done|]. destruct (online st); [|done]. simpl.
    clear -Hst. induction (sessions st) as [|s l IH]; [done|].
    simpl in *. apply NoDup_cons in Hst as [Hs Hl].
    destruct (negb _); [|by apply IH].
    rewrite fmap_cons. apply NoDup_cons. split; [|by apply IH].
    intros (x & Hx & Hin)%list_elem_of_fmap. apply Hs.
    apply list_elem_of_fmap. exists x. split; [done|].
    apply list_elem_of_In. apply list_elem_of_In, filter_In in Hin. tauto.
Qed.

(** X12.  The session status is looked up by the cookie value as it came:
    with a value that trimming changes and whose trimmed form is the token
    of a live session, while no session has the untrimmed value as token,
    requests pass the gate and the status answers "not authenticated" and
    clears the cookie; the store stays as it is. *)
Theorem session_status_padded_cookie (next : Handler) (r : Request) (sys : Sys)
        (st : Store) (v : string) (s : session) :
  cookieValue r = Some v ->
  Go.TrimSpace v ≠ "" ->
  online st = true ->
  s ∈ sessions st ->
  session_token s = Go.TrimSpace v ->
  (now sys < session_expires_at s)%Z ->
  (∀ x, x ∈ sessions st -> session_token x ≠ v) ->
  requireSession next r sys st = next (withSessionToken r (Go.TrimSpace v)) sys st
  ∧ handleSessionStatus r sys st
    = ({| srStatus := StatusOK; srBody := SBAuthenticated false;
          srSetCookie := Some clearedCookie |}, st).
Proof.
  intros Hc Hne Hon Hs Htok Hexp Hnone. split.
  - apply requireSession_passes; [done..|]. by eapply sessionExists_true.
  - unfold handleSessionStatus. rewrite Hc, decide_False by done.
    rewrite sessionExists_false; [done..|].
    intros x Hx Hxt. by destruct (Hnone x Hx).
Qed.

(** X13.  With a cookie value that trimming leaves as it is and a reachable
    store, the session status and the gate agree: the status answers
    "authenticated" exactly when a request with that cookie passes the
    gate. *)
Theorem session_status_agrees_with_gate (next : Handler) (r : Request)
        (sys : Sys) (st : Store) (v : string) :
  cookieValue r = Some v ->
  Go.TrimSpace v = v ->
  online st = true ->
  ∃ b, srBody (handleSessionStatus r sys st).1 = SBAuthenticated b
       ∧ srStatus (handleSessionStatus r sys st).1 = StatusOK
       ∧ (handleSessionStatus r sys st).2 = st
       ∧ requireSession next r sys st
         = if b then next (withSessionToken r v) sys st
           else (writeError StatusUnauthorized "unauthorized", st).
Proof.
  intros Hc Htrim Hon. unfold handleSessionStatus, requireSession.
  rewrite Hc, Htrim.
  destruct (decide (v = "")); [by exists false|].
  unfold sessionExists. rewrite Hon.
  destruct (existsb _ (sessions st)); [by exists true|by exists false].
Qed.

End Login.

Section LoginSamples.
#[local] Existing Instance asciiPlatform.

Lemma login_then_gate_witness :
  let expiresAt := (now sys5 + config.SessionTTL sampleConfig / 1000)%Z in
  let out := handleLogin sampleConfig (Some (config.AppPassword sampleConfig))
               zeroEntropy (cookieRequest "") sys5 emptyStore in
  out.1 = withSessionCookie zeroToken expiresAt (writeJSON StatusOK POk)
  ∧ ((now sys200 < expiresAt)%Z ->
     requireSession okHandler (cookieRequest zeroToken) sys200 out.2
     = okHandler (withSessionToken (cookieRequest zeroToken) zeroToken)
                 sys200 out.2)
  ∧ ((expiresAt <= now sys200)%Z ->
     requireSession okHandler (cookieRequest zeroToken) sys200 out.2
     = (writeError StatusUnauthorized "unauthorized", out.2)).
Proof.
  apply (login_then_gate sampleConfig zeroEntropy (cookieRequest "")
           (cookieRequest zeroToken) sys5 sys200 emptyStore zeroToken okHandler).
  - vm_compute. reflexivity.
  - reflexivity.
  - intros s Hs. by apply elem_of_nil in Hs.
  - reflexivity.
Defined.

Lemma logout_revokes_witness :
  let st' := (handleLogout (cookieRequest "tok") sys5 sessionStore).2 in
  (∀ s, s ∈ sessions st' ↔ s ∈ sessions sessionStore ∧ session_token s ≠ "tok")
  ∧ notes st' = notes sessionStore
  ∧ requireSession okHandler (cookieRequest "tok") sys5 st'
    = (writeError StatusUnauthorized "unauthorized", st').
Proof.
  apply (logout_revokes (cookieRequest "tok") sys5 sys5 sessionStore "tok"
           okHandler).
  - reflexivity.
  - vm_compute. reflexivity.
  - discriminate.
  - reflexivity.
Defined.

Lemma login_logout_keep_uniqueTokens_witness :
  uniqueTokens (handleLogin sampleConfig (Some "secret") zeroEntropy
                  (cookieRequest "tok") sys5 sessionStore).2
  ∧ uniqueTokens (handleLogout (cookieRequest "tok") sys5 sessionStore).2.
Proof.
  apply (login_logout_keep_uniqueTokens sampleConfig (Some "secret") zeroEntropy
           (cookieRequest "tok") sys5 sessionStore).
  unfold uniqueTokens. simpl. apply NoDup_singleton.
Defined.

Lemma session_status_padded_cookie_witness :
  requireSession okHandler (cookieRequest " tok") sys5 sessionStore
  = okHandler (withSessionToken (cookieRequest " tok") (Go.TrimSpace " tok"))
              sys5 sessionStore
  ∧ handleSessionStatus (cookieRequest " tok") sys5 sessionStore
    = ({| srStatus := StatusOK; srBody := SBAuthenticated false;
          srSetCookie := Some clearedCookie |}, sessionStore).
Proof.
  apply (session_status_padded_cookie okHandler (cookieRequest " tok") sys5
           sessionStore " tok" sampleSession).
  - reflexivity.
  - vm_compute. discriminate.
  - reflexivity.
  - apply list_elem_of_singleton. reflexivity.
  - vm_compute. reflexivity.
  - vm_compute. reflexivity.
  - intros x Hx. apply list_elem_of_singleton in Hx. subst x.
    vm_compute. discriminate.
Defined.

Lemma session_status_agrees_with_gate_witness :
  ∃ b, srBody (handleSessionStatus (cookieRequest "tok") sys5 sessionStore).1
       = SBAuthenticated b
       ∧ srStatus (handleSessionStatus (cookieRequest "tok") sys5 sessionStore).1
         = StatusOK
       ∧ (handleSessionStatus (cookieRequest "tok") sys5 sessionStore).2
         = sessionStore
       ∧ requireSession okHandler (cookieRequest "tok") sys5 sessionStore
         = if b then okHandler (withSessionToken (cookieRequest "tok") "tok")
                               sys5 sessionStore
           else (writeError StatusUnauthorized "unauthorized", sessionStore).
Proof.
  apply (session_status_agrees_with_gate okHandler (cookieRequest "tok") sys5
           sessionStore "tok").
  - reflexivity.
  - vm_compute. reflexivity.
  - reflexivity.
Defined.

End LoginSamples.

(** ** Notes: reading back, other rows, missing rows *)

Section NotesMore.
Context {pf : Platform}.

Lemma find_updated (id : UUID) (f : note -> note) (l : list note) :
  (∀ m, ID (f m) = ID m) ->
  List.find (fun n => bool_decide (ID n = id))
            ((fun n => if bool_decide (ID n = id) then f n else n) <$> l)
  = f <$> List.find (fun n => bool_decide (ID n = id)) l.
Proof.
  intros Hf. induction l as [|m l IH]; [done|]. cbn [fmap list_fmap List.find].
  destruct (bool_decide (ID m = id)) eqn:Hb.
  - apply bool_decide_eq_true in Hb.
    assert (bool_decide (ID (f m) = id) = true) as ->; [|done].
    apply bool_decide_eq_true. by rewrite Hf.
  - simpl. rewrite Hb. apply IH.
Qed.

Lemma fmap_unchanged (id : UUID) (f : note -> note) (l : list note) :
  List.find (fun n => bool_decide (ID n = id)) l = None ->
  (fun n => if bool_decide (ID n = id) then f n else n) <$> l = l.
Proof.
  induction l as [|m l IH]; [done|]. cbn [fmap list_fmap List.find].
  destruct (bool_decide (ID m = id)) eqn:Hb; [done|].
  intros Hl. f_equal. by apply IH.
Qed.

Lemma filter_unchanged (id : UUID) (l : list note) :
  List.find (fun n => bool_decide (ID n = id)) l = None ->
  List.filter (fun n => negb (bool_decide (ID n = id))) l = l
  ∧ List.filter (fun n => bool_decide (ID n = id)) l = [].
Proof.
  induction l as [|m l IH]; [done|]. simpl.
  destruct (bool_decide (ID m = id)) eqn:Hb; [done|]. intros Hl. simpl.
  destruct (IH Hl) as [-> ->]. done.
Qed.

Lemma find_absent (id : UUID) (l : list note) :
  (∀ m, m ∈ l -> ID m ≠ id) ->
  List.find (fun n => bool_decide (ID n = id)) l = None.
Proof.
  intros Hall. destruct (List.find _ l) as [m|] eqn:Hf; [|done].
  apply find_by_ID in Hf as [Hid Hin]. by destruct (Hall m Hin).
Qed.

Lemma handleFavoriteNote_stores (r : Request) (sys : Sys) (st st' : Store)
      (resp : Response) (n : note) :
  handleFavoriteNote r sys st = (resp, st') ->
  payload resp = PNote n ->
  ∃ value old, bodyFavorite r = Some value
               ∧ parseUUIDParam r = inr (ID old)
               ∧ old ∈ notes st
               ∧ n = {| ID := ID old; Title := Title old; Content := Content old;
                        Tags := Tags old; IsFavorite := value;
                        CreatedAt := CreatedAt old; UpdatedAt := now sys |}
               ∧ status resp = StatusOK
               ∧ n ∈ notes st'
               ∧ online st' = true
               ∧ notes st' = (fun m => if bool_decide (ID m = ID old)
                                       then {| ID := ID m; Title := Title m;
                                               Content := Content m;
                                               Tags := Tags m; IsFavorite := value;
                                               CreatedAt := CreatedAt m;
                                               UpdatedAt := now sys |}
                                       else m) <$> notes st.
Proof.
  unfold handleFavoriteNote, updateNote.
  destruct (parseUUIDParam r) as [e|id] eqn:Hid; [by intros [= <- <-]|].
  destruct (bodyFavorite r) as [value|]; [|by intros [= <- <-]].
  destruct (online st) eqn:Hon; [|by intros [= <- <-]].
  destruct (List.find _ (notes st)) as [old|] eqn:Hf; simpl;
    [|by intros [= <- <-]].
  intros [= <- <-]; simpl. intros [= <-].
  apply find_by_ID in Hf as [<- Hin].
  exists value, old. repeat split; try done.
  apply list_elem_of_fmap. exists old. split; [|done].
  by rewrite bool_decide_true.
Qed.

(** X14.  After an update or a favorite call answered with a note, a get on
    the id of that note returns that same note. *)
Theorem write_then_get (r rg : Request) (sys sysg : Sys) (st st' : Store)
        (resp : Response) (n : note) :
  handleUpdateNote r sys st = (resp, st')
    ∨ handleFavoriteNote r sys st = (resp, st') ->
  payload resp = PNote n ->
  parseUUIDParam rg = inr (ID n) ->
  handleGetNote rg sysg st' = (writeJSON StatusOK (PNote n), st').
Proof.
  intros [Hu|Hf] Hp Hg; unfold handleGetNote, selectNote; rewrite Hg.
  - unfold handleUpdateNote, updateNote in Hu.
    destruct (parseUUIDParam r) as [e|id]; [by injection Hu as <- <-|].
    destruct (bodyNote r) as [req|]; [|by injection Hu as <- <-].
    destruct (online st); [|by injection Hu as <- <-].
    destruct (forallb _ _); [|by injection Hu as <- <-].
    destruct (List.find _ (notes st)) as [old|] eqn:Hold; simpl in Hu;
      [|by injection Hu as <- <-].
    injection Hu as <- <-. simpl in Hp. injection Hp as <-. simpl.
    apply find_by_ID in Hold as Hid. destruct Hid as [<- _].
    by rewrite find_updated, Hold by done.
  - unfold handleFavoriteNote, updateNote in Hf.
    destruct (parseUUIDParam r) as [e|id]; [by injection Hf as <- <-|].
    destruct (bodyFavorite r) as [value|]; [|by injection Hf as <- <-].
    destruct (online st); [|by injection Hf as <- <-].
    destruct (List.find _ (notes st)) as [old|] eqn:Hold; simpl in Hf;
      [|by injection Hf as <- <-].
    injection Hf as <- <-. simpl in Hp. injection Hp as <-. simpl.
    apply find_by_ID in Hold as Hid. destruct Hid as [<- _].
    by rewrite find_updated, Hold by done.
Qed.

End NotesMore.

Section NotesFrame.
Context {pf : Platform}.

(** X15.  A favorite call answered with a note has set the flag of the row
    to the submitted value and its update time to the clock, and has left
    its id, title, content, tags and creation time as they were. *)
Theorem favorite_changes_flag_only (r : Request) (sys : Sys) (st st' : Store)
        (resp : Response) (n : note) :
  handleFavoriteNote r sys st = (resp, st') ->
  payload resp = PNote n ->
  ∃ value old, bodyFavorite r = Some value
               ∧ old ∈ notes st
               ∧ parseUUIDParam r = inr (ID old)
               ∧ n ∈ notes st'
               ∧ IsFavorite n = value
               ∧ UpdatedAt n = now sys
               ∧ ID n = ID old
               ∧ Title n = Title old
               ∧ Content n = Content old
               ∧ Tags n = Tags old
               ∧ CreatedAt n = CreatedAt old.
Proof.
  intros Hf Hp.
  destruct (handleFavoriteNote_stores _ _ _ _ _ _ Hf Hp)
    as (value & old & Hb & Hid & Hold & -> & _ & Hin & _).
  by exists value, old.
Qed.

Lemma elem_of_updated (id : UUID) (f : note -> note) (l : list note) (m : note) :
  (∀ x, ID (f x) = ID x) ->
  ID m ≠ id ->
  m ∈ (fun n => if bool_decide (ID n = id) then f n else n) <$> l ↔ m ∈ l.
Proof.
  intros Hf Hm. rewrite list_elem_of_fmap. split.
  - intros (x & -> & Hx). case_bool_decide as Hid; [|done].
    exfalso. apply Hm. by rewrite Hf.
  - intros Hin. exists m. by rewrite bool_decide_false.
Qed.

Lemma elem_of_deleted (id : UUID) (l : list note) (m : note) :
  ID m ≠ id ->
  m ∈ List.filter (fun n => negb (bool_decide (ID n = id))) l ↔ m ∈ l.
Proof.
  intros Hm. rewrite list_elem_of_In, filter_In, <- list_elem_of_In.
  rewrite negb_true_iff, bool_decide_eq_false. tauto.
Qed.

(** X16.  Get, update, delete and favorite touch no row but those with the
    id of the URL: a row with another id is in the store afterwards exactly
    when it was there before; and they leave the sessions as they are. *)
Theorem other_rows_untouched (h : Handler) (r : Request) (sys : Sys)
        (st : Store) (id : UUID) (m : note) :
  takesNoteID h ->
  parseUUIDParam r = inr id ->
  ID m ≠ id ->
  (m ∈ notes (h r sys st).2 ↔ m ∈ notes st)
  ∧ sessions (h r sys st).2 = sessions st.
Proof.
  intros [-> | [-> | [-> | ->]]] Hid Hm.
  - unfold handleGetNote. rewrite Hid.
    by destruct (selectNote id st) as [[?|]|].
  - unfold handleUpdateNote, updateNote. rewrite Hid.
    destruct (bodyNote r); [|done]. destruct (online st); [|done].
    destruct (forallb _ _); [|done].
    destruct (List.find _ (notes st)); simpl;
      (split; [by apply elem_of_updated|done]).
  - unfold handleDeleteNote, deleteNote. rewrite Hid.
    destruct (online st); [|done].
    destruct (List.length _); simpl;
      (split; [by apply elem_of_deleted|done]).
  - unfold handleFavoriteNote, updateNote. rewrite Hid.
    destruct (bodyFavorite r); [|done]. destruct (online st); [|done].
    destruct (List.find _ (notes st)); simpl;
      (split; [by apply elem_of_updated|done]).
Qed.

(** X17.  On a reachable store without a row of the id of the URL, get,
    update, delete and favorite answer 404 "note not found" (update once
    its body decodes into text the server takes, favorite once its body
    decodes) and leave the store as it is. *)
Theorem missing_note_not_found (h : Handler) (r : Request) (sys : Sys)
        (st : Store) (id : UUID) :
  takesNoteID h ->
  parseUUIDParam r = inr id ->
  online st = true ->
  (∀ m, m ∈ notes st -> ID m ≠ id) ->
  (h = handleUpdateNote -> ∃ req, bodyNote r = Some req ∧ textAccepted req) ->
  (h = handleFavoriteNote -> bodyFavorite r ≠ None) ->
  h r sys st = (writeError StatusNotFound "note not found", st).
Proof.
  intros Hh Hid Hon Habs Hbu Hbf.
  pose proof (find_absent id (notes st) Habs) as Hfind.
  destruct st as [ns ss on]. simpl in *. subst on.
  destruct Hh as [-> | [-> | [-> | ->]]].
  - unfold handleGetNote, selectNote. rewrite Hid. simpl. by rewrite Hfind.
  - destruct (Hbu eq_refl) as (req & Hreq & Htext).
    unfold textAccepted, normalizeTitle in Htext.
    unfold handleUpdateNote, updateNote. rewrite Hid, Hreq. cbn [online].
    rewrite Htext. cbn [notes sessions].
    by rewrite Hfind, fmap_unchanged.
  - unfold handleDeleteNote, deleteNote. rewrite Hid. simpl.
    destruct (filter_unchanged id ns Hfind) as [-> ->]. done.
  - unfold handleFavoriteNote, updateNote. rewrite Hid.
    destruct (bodyFavorite r); [|by destruct Hbf]. simpl.
    by rewrite Hfind, fmap_unchanged.
Qed.

(** X18.  Get, update, delete and favorite answer 400 to a missing id ("id
    is required") and to one [uuid.Parse] rejects ("invalid id"), whatever
    the body, and leave the store as it is. *)
Theorem malformed_id_rejected (h : Handler) (r : Request) (sys : Sys)
        (st : Store) :
  takesNoteID h ->
  (urlParamID r = "" ->
   h r sys st = (writeError StatusBadRequest "id is required", st))
  ∧ (urlParamID r ≠ "" -> uuidParse (urlParamID r) = None ->
     h r sys st = (writeError StatusBadRequest "invalid id", st)).
Proof.
  intros Hh. split.
  - intros He.
    assert (parseUUIDParam r = inl "id is required") as Hp.
    { unfold parseUUIDParam. by rewrite He. }
    destruct Hh as [-> | [-> | [-> | ->]]];
      unfold handleGetNote, handleUpdateNote, handleDeleteNote,
        handleFavoriteNote; by rewrite Hp.
  - intros Hne Hnone.
    assert (parseUUIDParam r = inl "invalid id") as Hp.
    { unfold parseUUIDParam. rewrite decide_False by done. by rewrite Hnone. }
    destruct Hh as [-> | [-> | [-> | ->]]];
      unfold handleGetNote, handleUpdateNote, handleDeleteNote,
        handleFavoriteNote; by rewrite Hp.
Qed.

Lemma createdNote_wellFormed (req : noteRequest) (sys : Sys) :
  wellFormedNote (createdNote req sys).
Proof.
  unfold wellFormedNote. simpl.
  destruct (sanitizeTags_wellStored (reqTags req)) as (Hnd & Hne & Hlen & _).
  split; [|by repeat split].
  unfold normalizeTitle. by destruct (decide (Go.TrimSpace (reqTitle req) = "")).
Qed.

(** X19.  The notes handlers keep every stored note well formed (a title
    that is not empty, tags without duplicates and empty strings and of at
    most 32 bytes, an update time not before the creation time), as long as
    the clock is not before the creation time of a stored note. *)
Theorem handlers_keep_notes_wellFormed (h : Handler) (r : Request) (sys : Sys)
        (st : Store) :
  notesHandler h ->
  Forall wellFormedNote (notes st) ->
  (∀ m, m ∈ notes st -> (CreatedAt m <= now sys)%Z) ->
  Forall wellFormedNote (notes (h r sys st).2).
Proof.
  intros Hh Hwf Hclock.
  assert (Hmap : ∀ (id : UUID) (f : note -> note),
             (∀ m, m ∈ notes st -> wellFormedNote m -> wellFormedNote (f m)) ->
             Forall wellFormedNote
               ((fun n => if bool_decide (ID n = id) then f n else n)
                  <$> notes st)).
  { intros id f Hf. rewrite Forall_forall in Hwf. apply Forall_forall.
    intros m (m0 & -> & Hm0)%list_elem_of_fmap.
    case_bool_decide; [apply Hf|]; auto. }
  destruct Hh as [-> | [-> | [-> | [-> | [-> | ->]]]]].
  - unfold handleListNotes.
    destruct (decide _); [|destruct (Go.ParseBool _); [|done]];
      destruct (countNotes _ _ _ st); try done;
      by destruct (selectPage _ _ _ _ _ st).
  - unfold handleCreateNote, insertNote.
    destruct (bodyNote r) as [req|]; [|done]. destruct (online st); [|done].
    destruct (forallb _ _); [|done].
    destruct (existsb _ _); [done|]. simpl.
    apply Forall_app. split; [done|]. apply Forall_singleton.
    apply (createdNote_wellFormed req sys).
  - unfold handleGetNote. destruct (parseUUIDParam r); [done|].
    by destruct (selectNote _ st) as [[?|]|].
  - unfold handleUpdateNote, updateNote.
    destruct (parseUUIDParam r) as [|id]; [done|].
    destruct (bodyNote r) as [req|]; [|done]. destruct (online st); [|done].
    assert (Hgoal : Forall wellFormedNote
              ((fun n => if bool_decide (ID n = id)
                         then updatedNote req sys n else n) <$> notes st)).
    { apply Hmap. intros m Hm _.
      destruct (createdNote_wellFormed req sys) as (Ht & Hnd & Hne & Hlen & _).
      unfold wellFormedNote. simpl. repeat split; try done. by apply Hclock. }
    destruct (forallb _ _); [|done].
    by destruct (List.find _ (notes st)).
  - unfold handleDeleteNote, deleteNote.
    destruct (parseUUIDParam r) as [|id]; [done|]. destruct (online st); [|done].
    assert (Hgoal : Forall wellFormedNote
              (List.filter (fun n => negb (bool_decide (ID n = id))) (notes st))).
    { rewrite Forall_forall in Hwf. apply Forall_forall. intros m Hm.
      apply Hwf. apply list_elem_of_In. apply list_elem_of_In, filter_In in Hm.
      tauto. }
    by destruct (List.length _).
  - unfold handleFavoriteNote, updateNote.
    destruct (parseUUIDParam r) as [|id]; [done|].
    destruct (bodyFavorite r) as [value|]; [|done].
    destruct (online st); [|done].
    assert (Hgoal : Forall wellFormedNote
              ((fun n => if bool_decide (ID n = id)
                         then {| ID := ID n; Title := Title n;
                                 Content := Content n; Tags := Tags n;
                                 IsFavorite := value; CreatedAt := CreatedAt n;
                                 UpdatedAt := now sys |}
                         else n) <$> notes st)).
    { apply Hmap. intros m Hm (Ht & Hnd & Hne & Hlen & _).
      unfold wellFormedNote. simpl. repeat split; try done. by apply Hclock. }
    by destruct (List.find _ (notes st)).
Qed.

End NotesFrame.

(** ** Listing: page sizes, consecutive pages, fresh writes *)

Section ListingMore.
Context {pf : Platform}.

(** X20.  A list answer holds at most [limit] items and at most [total]
    items, its total is at most the number of stored notes, and every item
    is a stored note satisfying the filter of the request. *)
Theorem list_page_bounds (r : Request) (sys : Sys) (st st' : Store)
        (resp : Response) (items : list note) (page limit total : Z) :
  handleListNotes r sys st = (resp, st') ->
  payload resp = PList items page limit total ->
  (Z.of_nat (List.length items) <= limit)%Z
  ∧ (Z.of_nat (List.length items) <= total)%Z
  ∧ (total <= Z.of_nat (List.length (notes st)))%Z
  ∧ ∃ favorite, favoriteFilter r = Some favorite
                ∧ Forall (fun n => n ∈ notes st
                                   ∧ satisfiesFilter (listQuery r) (listTag r)
                                                     favorite n) items.
Proof.
  intros Hh Hp.
  destruct (handleListNotes_listed _ _ _ _ _ _ _ _ _ Hh Hp)
    as (favorite & Hf & _ & _ & _ & _ & -> & -> & -> & ->).
  pose proof (listLimit_range r) as Hl.
  unfold pageSlice.
  set (rows := matchingRows r favorite st).
  assert (Hlen : List.length (orderByUpdatedAtDesc rows) = List.length rows).
  { by rewrite orderByUpdatedAtDesc_perm. }
  split; [rewrite length_take; lia|].
  split; [rewrite length_take, length_drop; lia|].
  split.
  { unfold rows, matchingRows. pose proof (length_filter
      (satisfiesFilter (listQuery r) (listTag r) favorite) (notes st)). lia. }
  exists favorite. split; [done|].
  apply Forall_take, Forall_drop. rewrite orderByUpdatedAtDesc_perm.
  apply Forall_forall. intros n Hn. unfold rows, matchingRows in Hn.
  apply list_elem_of_filter in Hn. tauto.
Qed.

(** Rows without ties have one sorted order only. *)
Lemma sorted_order_unique (l1 l2 : list note) :
  noTies l1 ->
  l1 ≡ₚ l2 ->
  StronglySorted newerFirst l1 ->
  StronglySorted newerFirst l2 ->
  l1 = l2.
Proof.
  unfold noTies. revert l2.
  induction l1 as [|a l1 IH]; intros l2 Hnd Hperm Hs1 Hs2.
  { by apply Permutation_nil_l in Hperm. }
  destruct l2 as [|b l2]; [by apply Permutation_nil_r in Hperm|].
  assert (a = b) as <-.
  { destruct (decide (a = b)) as [|Hne]; [done|]. exfalso.
    assert (a ∈ l2) as Ha.
    { assert (a ∈ b :: l2) as Hin by (rewrite <- Hperm; by left).
      apply elem_of_cons in Hin as [|]; done. }
    assert (b ∈ l1) as Hb.
    { assert (b ∈ a :: l1) as Hin by (rewrite Hperm; by left).
      apply elem_of_cons in Hin as [|]; [congruence|done]. }
    apply StronglySorted_cons in Hs1 as [Hs1 _].
    apply StronglySorted_cons in Hs2 as [Hs2 _].
    rewrite Forall_forall in Hs1, Hs2.
    pose proof (Hs1 b Hb) as H1. pose proof (Hs2 a Ha) as H2.
    unfold newerFirst in H1, H2.
    apply Hne, (NoDup_fmap_inj UpdatedAt (a :: l1)); try done.
    - by left.
    - by right.
    - lia. }
  f_equal. apply IH.
  - rewrite fmap_cons in Hnd. by apply NoDup_cons in Hnd as [_ ?].
  - by apply Permutation_cons_inv in Hperm.
  - by apply StronglySorted_cons in Hs1 as [_ ?].
  - by apply StronglySorted_cons in Hs2 as [_ ?].
Qed.

(** X21.  On one store, with the same filter (a query and a tag the server
    takes as text) and limit, when no two rows matching the filter share
    their [updated_at] and the offsets fit [int], the items of a page
    followed by the items of the next page are the slice of twice the limit
    at the offset of the first page, whatever sorted order of the matching
    rows each of the two statements takes. *)
Theorem consecutive_pages_join (r1 r2 : Request) (sys1 sys2 : Sys) (st : Store)
        (favorite : option bool) :
  online st = true ->
  Pg.validText (listQuery r1) = true ->
  Pg.validText (listTag r1) = true ->
  noTies (matchingRows r1 favorite st) ->
  favoriteFilter r1 = Some favorite ->
  favoriteFilter r2 = Some favorite ->
  listQuery r2 = listQuery r1 ->
  listTag r2 = listTag r1 ->
  listLimit r2 = listLimit r1 ->
  listPage r2 = (listPage r1 + 1)%Z ->
  (listPage r1 * listLimit r1 <= Go.maxInt)%Z ->
  ∃ items1 items2 total,
    handleListNotes r1 sys1 st
    = (writeJSON StatusOK (PList items1 (listPage r1) (listLimit r1) total), st)
    ∧ handleListNotes r2 sys2 st
      = (writeJSON StatusOK (PList items2 (listPage r2) (listLimit r2) total), st)
    ∧ (items1 ++ items2)%list
      = pageSlice r1 favorite st (2 * listLimit r1)
                  ((listPage r1 - 1) * listLimit r1)
    ∧ ∀ order1 order2,
        order1 ≡ₚ matchingRows r1 favorite st ->
        order2 ≡ₚ matchingRows r1 favorite st ->
        StronglySorted newerFirst order1 ->
        StronglySorted newerFirst order2 ->
        (take (Z.to_nat (listLimit r1))
              (drop (Z.to_nat ((listPage r1 - 1) * listLimit r1)) order1)
         ++ take (Z.to_nat (listLimit r1))
                 (drop (Z.to_nat (listPage r1 * listLimit r1)) order2))%list
        = (items1 ++ items2)%list.
Proof.
  intros Hon Hvq Hvt Hties Hf1 Hf2 Hq Ht Hl Hp Hfit.
  pose proof (listPage_positive r1) as Hp1.
  pose proof (listLimit_range r1) as Hl1.
  assert (Ho1 : listOffset r1 = ((listPage r1 - 1) * listLimit r1)%Z).
  { unfold listOffset. apply wrap64_small. unfold Go.minInt, Go.maxInt in *. nia. }
  assert (Ho2 : listOffset r2 = (listPage r1 * listLimit r1)%Z).
  { unfold listOffset. rewrite Hp, Hl.
    replace (listPage r1 + 1 - 1)%Z with (listPage r1) by lia.
    apply wrap64_small. unfold Go.minInt, Go.maxInt in *. nia. }
  eexists _, _, _.
  split; [apply (handleListNotes_ok r1 sys1 st favorite); [done..|nia]|].
  split.
  { rewrite (handleListNotes_ok r2 sys2 st favorite)
      by (rewrite ?Hq, ?Ht; (done || nia)).
    unfold matchingRows. by rewrite Hq, Ht. }
  split.
  { unfold pageSlice, matchingRows. rewrite Hq, Ht, Hl, Ho1, Ho2.
    set (rows := orderByUpdatedAtDesc _).
    replace (Z.to_nat (listPage r1 * listLimit r1))
      with (Z.to_nat ((listPage r1 - 1) * listLimit r1)
            + Z.to_nat (listLimit r1))%nat by nia.
    rewrite <- drop_drop.
    rewrite take_take_drop. f_equal. lia. }
  intros order1 order2 Hp1' Hp2' Hs1 Hs2.
  assert (Horder : ∀ order, order ≡ₚ matchingRows r1 favorite st ->
                            StronglySorted newerFirst order ->
                            orderByUpdatedAtDesc (matchingRows r1 favorite st)
                            = order).
  { intros order Hperm Hs. apply sorted_order_unique.
    - unfold noTies. by rewrite orderByUpdatedAtDesc_perm.
    - by rewrite orderByUpdatedAtDesc_perm, Hperm.
    - apply orderByUpdatedAtDesc_sorted.
    - done. }
  rewrite <- (Horder order1 Hp1' Hs1), <- (Horder order2 Hp2' Hs2).
  unfold pageSlice, matchingRows. by rewrite Hq, Ht, Hl, Ho1, Ho2.
Qed.

(** The row that is strictly newest heads every unfiltered list. *)
Lemma newest_row_first (st : Store) (n : note) (rl : Request) (sysl : Sys) :
  online st = true ->
  n ∈ notes st ->
  (∀ m, m ∈ notes st -> m ≠ n -> (UpdatedAt m < UpdatedAt n)%Z) ->
  listQuery rl = "" ->
  listTag rl = "" ->
  favoriteRaw rl = "" ->
  listPage rl = 1%Z ->
  ∃ rest total,
    handleListNotes rl sysl st
    = (writeJSON StatusOK (PList (n :: rest) 1 (listLimit rl) total), st).
Proof.
  intros Hon Hin Hnew Hq Ht Hfav Hpage.
  assert (Hoff : listOffset rl = 0%Z).
  { unfold listOffset. rewrite Hpage. by vm_compute. }
  assert (Hfl : favoriteFilter rl = Some None).
  { unfold favoriteFilter. by rewrite Hfav. }
  rewrite (handleListNotes_ok rl sysl st None)
    by (rewrite ?Hq, ?Ht; (done || lia)).
  rewrite Hpage, Hoff. unfold pageSlice, matchingRows.
  rewrite Hq, Ht, filter_all
    by (intros m; split; [by left|split; [by left|done]]).
  destruct (orderByUpdatedAtDesc_head (notes st) n Hin Hnew) as [rest Hrest].
  rewrite Hrest. simpl.
  pose proof (listLimit_range rl) as Hl.
  destruct (Z.to_nat (listLimit rl)) as [|k] eqn:Hk; [lia|].
  simpl. by eexists _, _.
Qed.

(** X22.  When a create or a favorite call is stamped with a clock reading
    later than the update time of every other row, the note it answers with
    is the first item of an unfiltered list call for page 1 on the store it
    leaves. *)
Theorem created_or_favorited_first (r rl : Request) (sys sysl : Sys)
        (st st1 : Store) (resp : Response) (n : note) :
  handleCreateNote r sys st = (resp, st1)
    ∨ handleFavoriteNote r sys st = (resp, st1) ->
  payload resp = PNote n ->
  uniqueIDs st ->
  (∀ m, m ∈ notes st -> ID m ≠ ID n -> (UpdatedAt m < now sys)%Z) ->
  listQuery rl = "" ->
  listTag rl = "" ->
  favoriteRaw rl = "" ->
  listPage rl = 1%Z ->
  ∃ rest total,
    handleListNotes rl sysl st1
    = (writeJSON StatusOK (PList (n :: rest) 1 (listLimit rl) total), st1).
Proof.
  intros [Hc|Hf] Hp Huniq Hclock Hq Ht Hfav Hpage.
  - destruct (handleCreateNote_stores _ _ _ _ _ _ Hc Hp)
      as (req & _ & Hn & _ & Hnotes & _ & Hon & Hfresh).
    apply newest_row_first; try done.
    + rewrite Hnotes. apply elem_of_app. right. by apply list_elem_of_singleton.
    + intros m Hm Hne. rewrite Hnotes in Hm.
      apply elem_of_app in Hm as [Hm|Hm];
        [|apply list_elem_of_singleton in Hm; done].
      assert (UpdatedAt n = now sys) as -> by (by rewrite Hn).
      apply Hclock; [done|]. intros Hid.
      assert (In m (notes st)) as Hm' by (by apply list_elem_of_In).
      pose proof (find_none _ _ Hfresh m Hm') as Hb. simpl in Hb.
      by apply bool_decide_eq_false in Hb.
  - destruct (handleFavoriteNote_stores _ _ _ _ _ _ Hf Hp)
      as (value & old & _ & _ & Hold & Hn & _ & Hin & Hon & Hnotes).
    apply newest_row_first; try done.
    intros m Hm Hne. rewrite Hnotes in Hm.
    apply list_elem_of_fmap in Hm as (m0 & -> & Hm0).
    assert (ID n = ID old) as HIDn by (by rewrite Hn).
    case_bool_decide as Hid.
    + exfalso. apply Hne. rewrite Hn.
      by rewrite (NoDup_fmap_inj ID (notes st) m0 old Huniq Hm0 Hold Hid).
    + assert (UpdatedAt n = now sys) as -> by (by rewrite Hn).
      apply Hclock; [done|]. by rewrite HIDn.
Qed.

(** ** The routes *)

(** X23.  Every notes route is behind the session gate: on a reachable store
    with no live session for the cookie of the request, also when there is
    no cookie, each of the six notes routes answers 401 "unauthorized" and
    leaves the store as it is. *)
Theorem notes_routes_gated (cfg : config.Config) (route : Route) (i : Inbound)
        (sys : Sys) (st : Store) :
  gated route = true ->
  online st = true ->
  noLiveSession (inRequest i) sys st ->
  serve cfg route i sys st
  = (ReplyJSON (writeError StatusUnauthorized "unauthorized"), st).
Proof.
  intros Hg Hon Hno.
  assert (Hgate : ∀ next, requireSession next (inRequest i) sys st
                          = (writeError StatusUnauthorized "unauthorized", st)).
  { intros next. destruct (cookieValue (inRequest i)) as [v|] eqn:Hc.
    - apply (requireSession_rejects next _ sys st v Hc).
      apply sessionExists_false; [done|]. intros x Hx Hxt. by apply (Hno v x).
    - unfold requireSession. by rewrite Hc. }
  destruct route; try done; unfold serve; by rewrite Hgate.
Qed.

(** X24.  The routes answering a GET (health, session status, list, get)
    never change the store. *)
Theorem get_routes_read_only (cfg : config.Config) (route : Route) (i : Inbound)
        (sys : Sys) (st : Store) :
  readOnly route = true ->
  (serve cfg route i sys st).2 = st.
Proof.
  assert (Hgate : ∀ next, (∀ r' s', (next r' sys s').2 = s') ->
                          (requireSession next (inRequest i) sys st).2 = st).
  { intros next Hnext. unfold requireSession.
    destruct (cookieValue (inRequest i)) as [v|]; [|done].
    destruct (decide _); [done|].
    destruct (sessionExists _ _ st) as [[|]|]; [apply Hnext|done|done]. }
  intros Hr. destruct route; try done; unfold serve.
  - unfold handleSessionStatus.
    destruct (cookieValue (inRequest i)) as [v|]; [|done].
    destruct (decide _); [done|].
    by destruct (sessionExists _ _ st) as [[|]|].
  - destruct (requireSession handleListNotes (inRequest i) sys st) as [resp st']
      eqn:Hh. simpl.
    change st' with (resp, st').2. rewrite <- Hh. apply Hgate.
    intros r' s'. unfold handleListNotes.
    destruct (decide _); [|destruct (Go.ParseBool _); [|done]];
      destruct (countNotes _ _ _ s'); try done;
      by destruct (selectPage _ _ _ _ _ s').
  - destruct (requireSession handleGetNote (inRequest i) sys st) as [resp st']
      eqn:Hh. simpl.
    change st' with (resp, st').2. rewrite <- Hh. apply Hgate.
    intros r' s'. unfold handleGetNote.
    destruct (parseUUIDParam r'); [done|].
    by destruct (selectNote _ s') as [[?|]|].
Qed.

End ListingMore.

(** ** Tags: order of submission, submitting stored tags again *)

Lemma list_ascii_of_mapBytes (f : ascii -> ascii) (s : string) :
  list_ascii_of_string (Go.mapBytes f s) = f <$> list_ascii_of_string s.
Proof. induction s as [|c s IH]; simpl; [done|]. by rewrite IH. Qed.

Lemma mapBytes_length (f : ascii -> ascii) (s : string) :
  String.length (Go.mapBytes f s) = String.length s.
Proof. induction s as [|c s IH]; simpl; [done|]. by rewrite IH. Qed.

Lemma lowerByte_facts (c : ascii) :
  Go.lowerByte (Go.lowerByte c) = Go.lowerByte c
  ∧ (Go.isASCIIByte c = true -> Go.isASCIIByte (Go.lowerByte c) = true)
  ∧ (bool_decide ([Go.lowerByte c] ∈ Go.spaceRunes) = true -> Go.lowerByte c = c).
Proof.
  destruct c as [[] [] [] [] [] [] [] []]; vm_compute;
    (split; [reflexivity|split; intros H; first [reflexivity|discriminate H]]).
Qed.

Lemma mapBytes_lower_fixed (s : string) :
  Go.mapBytes Go.lowerByte (Go.mapBytes Go.lowerByte s)
  = Go.mapBytes Go.lowerByte s.
Proof.
  induction s as [|c s IH]; cbn [Go.mapBytes]; [done|].
  rewrite IH. by destruct (lowerByte_facts c) as [-> _].
Qed.

Lemma mapBytes_lower_ASCII (s : string) :
  Go.allBytes Go.isASCIIByte s = true ->
  Go.allBytes Go.isASCIIByte (Go.mapBytes Go.lowerByte s) = true.
Proof.
  induction s as [|c s IH]; cbn [Go.mapBytes Go.allBytes]; [done|].
  intros [Hc Hs]%andb_true_iff. apply andb_true_iff. split; [|by apply IH].
  by apply lowerByte_facts.
Qed.

(** An encoding of the table made of ASCII bytes is a single byte. *)
Lemma spaceRunes_ASCII_single (w : list ascii) :
  w ∈ Go.spaceRunes -> Forall (fun c => Go.isASCIIByte c = true) w ->
  ∃ c, w = [c].
Proof.
  assert (Hall : forallb (fun w => negb (forallb Go.isASCIIByte w)
                                   || (List.length w =? 1)%nat)
                         Go.spaceRunes = true) by (by vm_compute).
  rewrite forallb_forall in Hall. intros Hw Hascii.
  specialize (Hall w). rewrite <- list_elem_of_In in Hall. specialize (Hall Hw).
  apply orb_true_iff in Hall as [Hn|Hl].
  - apply negb_true_iff in Hn.
    assert (forallb Go.isASCIIByte w = true) as Ht; [|congruence].
    apply forallb_forall. rewrite Forall_forall in Hascii.
    intros c Hc. by apply Hascii, list_elem_of_In.
  - apply Nat.eqb_eq in Hl. destruct w as [|c [|? ?]]; try done. by exists c.
Qed.

(** Lowering an ASCII string puts no white space at its ends. *)
Lemma lower_keeps_trimmed (t : string) :
  Go.allBytes Go.isASCIIByte t = true ->
  ¬ startsWithSpace t -> ¬ endsWithSpace t ->
  Go.TrimSpace (Go.mapBytes Go.lowerByte t) = Go.mapBytes Go.lowerByte t.
Proof.
  intros Hascii Hstart Hend.
  pose proof (mapBytes_lower_ASCII t Hascii) as Hlow.
  apply allBytes_Forall in Hlow. rewrite list_ascii_of_mapBytes in Hlow.
  apply TrimSpace_id.
  - intros (w & r & Hw & Hr). rewrite list_ascii_of_mapBytes in Hr.
    destruct (spaceRunes_ASCII_single w Hw) as [c' ->].
    { rewrite Hr in Hlow. by apply Forall_app in Hlow as [? _]. }
    destruct (list_ascii_of_string t) as [|c l] eqn:Ht; [done|].
    cbn [fmap list_fmap app] in Hr. injection Hr as Hc _. subst c'.
    destruct (lowerByte_facts c) as (_ & _ & Hfix).
    rewrite Hfix in Hw by (by apply bool_decide_eq_true).
    apply Hstart. by exists [c], l.
  - intros (w & r & Hw & Hr). rewrite list_ascii_of_mapBytes in Hr.
    destruct (spaceRunes_ASCII_single w Hw) as [c' ->].
    { rewrite Hr in Hlow. by apply Forall_app in Hlow as [_ ?]. }
    apply fmap_app_inv in Hr as (l1 & l2 & Hl1 & Hl2 & Ht).
    destruct l2 as [|c [|? ?]]; try done.
    cbn [fmap list_fmap] in Hl2. injection Hl2 as Hc. subst c'.
    destruct (lowerByte_facts c) as (_ & _ & Hfix).
    rewrite Hfix in Hw by (by apply bool_decide_eq_true).
    apply Hend. by exists [c], l1.
Qed.

Section TagsAgain.
Context {pf : Platform}.

Lemma TrimSpace_ASCII (s : string) :
  Go.allBytes Go.isASCIIByte s = true ->
  Go.allBytes Go.isASCIIByte (Go.TrimSpace s) = true.
Proof.
  rewrite !allBytes_Forall.
  destruct (TrimSpace_trimmedOf s) as [(p & q & Hs & _) _]. rewrite Hs.
  intros [_ [H _]%Forall_app]%Forall_app. done.
Qed.

(** The normal form of a short ASCII tag is its own normal form. *)
Lemma normalizeTag_fixed (tag : string) :
  shortASCIITag tag -> normalizeTag (normalizeTag tag) = normalizeTag tag.
Proof.
  intros [Hascii Hlen].
  pose proof (TrimSpace_ASCII tag Hascii) as Hta.
  destruct (TrimSpace_trimmedOf tag) as (_ & Hs & He).
  assert (Hn : normalizeTag tag = Go.mapBytes Go.lowerByte (Go.TrimSpace tag)).
  { unfold normalizeTag, ToLower, Go.ToLower. rewrite Hta.
    apply substring_0_all. by rewrite mapBytes_length. }
  rewrite Hn. unfold normalizeTag, ToLower, Go.ToLower.
  rewrite lower_keeps_trimmed by done.
  rewrite mapBytes_lower_ASCII by done.
  rewrite mapBytes_lower_fixed.
  apply substring_0_all. by rewrite mapBytes_length.
Qed.

Lemma dedupFirst_NoDup_id (l : list string) : NoDup l -> dedupFirst l = l.
Proof.
  induction 1 as [|x l Hx Hl IH]; [done|]. simpl. rewrite IH. f_equal.
  clear IH Hl. induction l as [|y l IH]; [done|].
  apply not_elem_of_cons in Hx as [Hxy Hx].
  rewrite filter_cons_True by done. f_equal. by apply IH.
Qed.

Lemma dedupFirst_length (l : list string) :
  (List.length (dedupFirst l) <= List.length l)%nat.
Proof.
  induction l as [|x l IH]; simpl; [done|].
  pose proof (length_filter (fun y => y ≠ x) (dedupFirst l)). lia.
Qed.

(** X25.  The stored tags do not depend on the order of the submitted tags
    but for their own order, and are at most as many as the submitted
    ones. *)
Theorem sanitizeTags_order_insensitive (tags1 tags2 : list string) :
  tags1 ≡ₚ tags2 ->
  sanitizeTags tags1 ≡ₚ sanitizeTags tags2
  ∧ (List.length (sanitizeTags tags1) <= List.length tags1)%nat.
Proof.
  intros Hperm.
  destruct (sanitizeTags_wellStored tags1) as (Hnd1 & _ & _ & Hmem1 & Hspec).
  destruct (sanitizeTags_wellStored tags2) as (Hnd2 & _ & _ & Hmem2 & _).
  split.
  - apply NoDup_Permutation; [done..|]. intros t. rewrite Hmem1, Hmem2.
    by setoid_rewrite Hperm.
  - rewrite Hspec. unfold specTags.
    pose proof (dedupFirst_length
                  (filter (fun t => t ≠ "") (normalizeTag <$> tags1))).
    pose proof (length_filter (fun t => t ≠ "") (normalizeTag <$> tags1)).
    rewrite length_fmap in *. lia.
Qed.

(** X26.  Submitting the stored tags again stores the same tags, when the
    tags first submitted are ASCII and at most 32 bytes long once
    trimmed. *)
Theorem sanitizeTags_again (tags : list string) :
  Forall shortASCIITag tags ->
  sanitizeTags (sanitizeTags tags) = sanitizeTags tags.
Proof.
  intros Hshort.
  destruct (sanitizeTags_wellStored tags) as (Hnd & Hne & _ & Hmem & _).
  set (stored := sanitizeTags tags) in *.
  rewrite (sanitizeTags_specTags stored). unfold specTags.
  assert (Hfix : normalizeTag <$> stored = stored).
  { rewrite <- (list_fmap_id stored) at 2. apply list_fmap_ext.
    intros i t Ht. apply list_elem_of_lookup_2 in Ht.
    apply Hmem in Ht as (_ & tag & Htag & ->).
    apply normalizeTag_fixed. rewrite Forall_forall in Hshort. by apply Hshort. }
  rewrite Hfix.
  assert (Hall : filter (fun t => t ≠ "") stored = stored).
  { clear -Hne. induction stored as [|t l IH]; [done|].
    apply not_elem_of_cons in Hne as [Ht Hl].
    rewrite filter_cons_True by done. f_equal. by apply IH. }
  rewrite Hall. by apply dedupFirst_NoDup_id.
Qed.

End TagsAgain.

(** ** Text the server refuses *)

Section RefusedText.
Context {pf : Platform}.

(** X27.  A list call with a well-formed favorite parameter whose query or
    tag the server does not take as text is answered 500 "database error"
    and leaves the store as it is. *)
Theorem list_refused_text (r : Request) (sys : Sys) (st : Store)
        (favorite : option bool) :
  favoriteFilter r = Some favorite ->
  Pg.validText (listQuery r) && Pg.validText (listTag r) = false ->
  handleListNotes r sys st
  = (writeError StatusInternalServerError "database error", st).
Proof.
  intros Hf Htext. rewrite handleListNotes_unfold, Hf.
  unfold listWith, countNotes. rewrite Htext. by destruct (online st).
Qed.

(** X28.  When the server does not take the normalised title, the content
    or one of the stored tags of a decoded body as text, create is
    answered 500 "database error", and so is update for every well-formed
    id, whether a row of that id exists or not; the store stays as it
    is. *)
Theorem refused_text_not_stored (r : Request) (sys : Sys) (st : Store)
        (req : noteRequest) :
  bodyNote r = Some req ->
  ¬ textAccepted req ->
  handleCreateNote r sys st
  = (writeError StatusInternalServerError "database error", st)
  ∧ (∀ id, parseUUIDParam r = inr id ->
           handleUpdateNote r sys st
           = (writeError StatusInternalServerError "database error", st)).
Proof.
  intros Hbody Htext. unfold textAccepted, normalizeTitle in Htext.
  apply not_true_is_false in Htext. split.
  - unfold handleCreateNote, insertNote. rewrite Hbody, Htext.
    by destruct (online st).
  - intros id Hid. unfold handleUpdateNote, updateNote.
    rewrite Hid, Hbody, Htext. by destruct (online st).
Qed.

End RefusedText.

(** ** The further properties on sample requests *)

Section MoreSamples.
#[local] Existing Instance asciiPlatform.

Lemma write_then_get_witness :
  handleGetNote (queryRequest "1" []) sys5 updatedStore
  = (writeJSON StatusOK (PNote sampleNoteUpdated), updatedStore).
Proof.
  apply (write_then_get (noteBodyRequest "1" sampleNoteRequest)
                        (queryRequest "1" []) sys200 sys5 twoNoteStore
                        updatedStore
                        (writeJSON StatusOK (PNote sampleNoteUpdated))).
  - left. vm_compute. reflexivity.
  - reflexivity.
  - vm_compute. reflexivity.
Defined.

Lemma favorite_changes_flag_only_witness :
  ∃ value old, bodyFavorite (favoriteRequest "1" true) = Some value
               ∧ old ∈ notes twoNoteStore
               ∧ parseUUIDParam (favoriteRequest "1" true) = inr (ID old)
               ∧ sampleNoteFavorited ∈ notes favoritedStore
               ∧ IsFavorite sampleNoteFavorited = value
               ∧ UpdatedAt sampleNoteFavorited = now sys200
               ∧ ID sampleNoteFavorited = ID old
               ∧ Title sampleNoteFavorited = Title old
               ∧ Content sampleNoteFavorited = Content old
               ∧ Tags sampleNoteFavorited = Tags old
               ∧ CreatedAt sampleNoteFavorited = CreatedAt old.
Proof.
  apply (favorite_changes_flag_only
           (favoriteRequest "1" true) sys200 twoNoteStore favoritedStore
           (writeJSON StatusOK (PNote sampleNoteFavorited))).
  - vm_compute. reflexivity.
  - reflexivity.
Defined.

Lemma other_rows_untouched_witness :
  (otherNote ∈ notes (handleDeleteNote (queryRequest "1" []) sys5 twoNoteStore).2
   ↔ otherNote ∈ notes twoNoteStore)
  ∧ sessions (handleDeleteNote (queryRequest "1" []) sys5 twoNoteStore).2
    = sessions twoNoteStore.
Proof.
  apply (other_rows_untouched handleDeleteNote (queryRequest "1" []) sys5
                              twoNoteStore 1%N otherNote).
  - right. right. left. reflexivity.
  - vm_compute. reflexivity.
  - vm_compute. discriminate.
Defined.

Lemma missing_note_not_found_witness :
  handleUpdateNote (bothBodiesRequest "3") sys5 twoNoteStore
  = (writeError StatusNotFound "note not found", twoNoteStore).
Proof.
  apply (missing_note_not_found handleUpdateNote (bothBodiesRequest "3") sys5
                                twoNoteStore 3%N).
  - right. left. reflexivity.
  - vm_compute. reflexivity.
  - reflexivity.
  - intros m Hm. apply list_elem_of_In in Hm.
    destruct Hm as [<- | [<- | []]]; vm_compute; discriminate.
  - intros _. exists sampleNoteRequest. split; [reflexivity|].
    vm_compute. reflexivity.
  - intros _. discriminate.
Defined.

Lemma malformed_id_rejected_witness :
  (urlParamID (queryRequest "zz" []) = "" ->
   handleDeleteNote (queryRequest "zz" []) sys5 twoNoteStore
   = (writeError StatusBadRequest "id is required", twoNoteStore))
  ∧ (urlParamID (queryRequest "zz" []) ≠ "" ->
     uuidParse (urlParamID (queryRequest "zz" [])) = None ->
     handleDeleteNote (queryRequest "zz" []) sys5 twoNoteStore
     = (writeError StatusBadRequest "invalid id", twoNoteStore)).
Proof.
  apply (malformed_id_rejected handleDeleteNote (queryRequest "zz" []) sys5
                               twoNoteStore).
  right. right. left. reflexivity.
Defined.

Lemma handlers_keep_notes_wellFormed_witness :
  Forall wellFormedNote
         (notes (handleUpdateNote (noteBodyRequest "1" sampleNoteRequest)
                                  sys200 twoNoteStore).2).
Proof.
  apply (handlers_keep_notes_wellFormed
           handleUpdateNote (noteBodyRequest "1" sampleNoteRequest) sys200
           twoNoteStore).
  - right. right. right. left. reflexivity.
  - unfold wellFormedNote. apply (bool_decide_unpack _). vm_compute. reflexivity.
  - intros m Hm. apply list_elem_of_In in Hm.
    destruct Hm as [<- | [<- | []]]; vm_compute; discriminate.
Defined.

Lemma list_page_bounds_witness :
  (Z.of_nat (List.length (drop 10 (orderByUpdatedAtDesc (notes fifteenNotes))))
   <= 10)%Z
  ∧ (Z.of_nat (List.length (drop 10 (orderByUpdatedAtDesc (notes fifteenNotes))))
     <= 15)%Z
  ∧ (15 <= Z.of_nat (List.length (notes fifteenNotes)))%Z
  ∧ ∃ favorite,
      favoriteFilter (queryRequest "" [("page", "2"); ("limit", "10")])
      = Some favorite
      ∧ Forall (fun n => n ∈ notes fifteenNotes
                         ∧ satisfiesFilter
                             (listQuery (queryRequest "" [("page", "2"); ("limit", "10")]))
                             (listTag (queryRequest "" [("page", "2"); ("limit", "10")]))
                             favorite n)
               (drop 10 (orderByUpdatedAtDesc (notes fifteenNotes))).
Proof.
  apply (list_page_bounds
           (queryRequest "" [("page", "2"); ("limit", "10")]) sys5
           fifteenNotes fifteenNotes
           (writeJSON StatusOK
                      (PList (drop 10 (orderByUpdatedAtDesc (notes fifteenNotes)))
                             2 10 15))
           (drop 10 (orderByUpdatedAtDesc (notes fifteenNotes))) 2 10 15).
  - vm_compute. reflexivity.
  - reflexivity.
Defined.

Lemma consecutive_pages_join_witness :
  ∃ items1 items2 total,
    handleListNotes (queryRequest "" [("page", "1"); ("limit", "10")]) sys5
                    fifteenNotes
    = (writeJSON StatusOK
                 (PList items1
                        (listPage (queryRequest "" [("page", "1"); ("limit", "10")]))
                        (listLimit (queryRequest "" [("page", "1"); ("limit", "10")]))
                        total), fifteenNotes)
    ∧ handleListNotes (queryRequest "" [("page", "2"); ("limit", "10")]) sys200
                      fifteenNotes
      = (writeJSON StatusOK
                   (PList items2
                          (listPage (queryRequest "" [("page", "2"); ("limit", "10")]))
                          (listLimit (queryRequest "" [("page", "2"); ("limit", "10")]))
                          total), fifteenNotes)
    ∧ (items1 ++ items2)%list
      = pageSlice (queryRequest "" [("page", "1"); ("limit", "10")]) None
                  fifteenNotes
                  (2 * listLimit (queryRequest "" [("page", "1"); ("limit", "10")]))
                  ((listPage (queryRequest "" [("page", "1"); ("limit", "10")]) - 1)
                   * listLimit (queryRequest "" [("page", "1"); ("limit", "10")]))
    ∧ ∀ order1 order2,
        order1 ≡ₚ matchingRows (queryRequest "" [("page", "1"); ("limit", "10")])
                               None fifteenNotes ->
        order2 ≡ₚ matchingRows (queryRequest "" [("page", "1"); ("limit", "10")])
                               None fifteenNotes ->
        StronglySorted newerFirst order1 ->
        StronglySorted newerFirst order2 ->
        (take (Z.to_nat (listLimit (queryRequest "" [("page", "1"); ("limit", "10")])))
              (drop (Z.to_nat
                       ((listPage (queryRequest "" [("page", "1"); ("limit", "10")]) - 1)
                        * listLimit (queryRequest "" [("page", "1"); ("limit", "10")])))
                    order1)
         ++ take (Z.to_nat (listLimit (queryRequest "" [("page", "1"); ("limit", "10")])))
                 (drop (Z.to_nat
                          (listPage (queryRequest "" [("page", "1"); ("limit", "10")])
                           * listLimit (queryRequest "" [("page", "1"); ("limit", "10")])))
                       order2))%list
        = (items1 ++ items2)%list.
Proof.
  apply (consecutive_pages_join
           (queryRequest "" [("page", "1"); ("limit", "10")])
           (queryRequest "" [("page", "2"); ("limit", "10")])
           sys5 sys200 fifteenNotes None).
  - reflexivity.
  - vm_compute. reflexivity.
  - vm_compute. reflexivity.
  - unfold noTies. apply (bool_decide_unpack _). vm_compute. reflexivity.
  - vm_compute. reflexivity.
  - vm_compute. reflexivity.
  - vm_compute. reflexivity.
  - vm_compute. reflexivity.
  - vm_compute. reflexivity.
  - vm_compute. reflexivity.
  - vm_compute. discriminate.
Defined.

Lemma created_or_favorited_first_witness :
  ∃ rest total,
    handleListNotes (queryRequest "" []) sys5 favoritedStore
    = (writeJSON StatusOK
                 (PList (sampleNoteFavorited :: rest) 1
                        (listLimit (queryRequest "" [])) total),
       favoritedStore).
Proof.
  apply (created_or_favorited_first
           (favoriteRequest "1" true) (queryRequest "" []) sys200 sys5
           twoNoteStore favoritedStore
           (writeJSON StatusOK (PNote sampleNoteFavorited))).
  - right. vm_compute. reflexivity.
  - reflexivity.
  - unfold uniqueIDs. apply (bool_decide_unpack _). vm_compute. reflexivity.
  - intros m Hm Hid. apply list_elem_of_In in Hm.
    destruct Hm as [<- | [<- | []]]; [by destruct Hid|]. vm_compute. reflexivity.
  - vm_compute. reflexivity.
  - vm_compute. reflexivity.
  - vm_compute. reflexivity.
  - vm_compute. reflexivity.
Defined.

Lemma notes_routes_gated_witness :
  serve sampleConfig PutNote (sampleInbound "1") sys200 sessionStore
  = (ReplyJSON (writeError StatusUnauthorized "unauthorized"), sessionStore).
Proof.
  apply (notes_routes_gated sampleConfig PutNote (sampleInbound "1") sys200
                            sessionStore).
  - reflexivity.
  - reflexivity.
  - intros v s _ Hs _. apply list_elem_of_In in Hs.
    destruct Hs as [<- | []]. vm_compute. discriminate.
Defined.

Lemma get_routes_read_only_witness :
  (serve sampleConfig GetNote (sampleInbound "1") sys5 twoNoteStore).2
  = twoNoteStore.
Proof.
  apply (get_routes_read_only sampleConfig GetNote (sampleInbound "1") sys5
                              twoNoteStore).
  reflexivity.
Defined.

Lemma sanitizeTags_order_insensitive_witness :
  sanitizeTags ["B"; " a "; "b"] ≡ₚ sanitizeTags [" a "; "B"; "b"]
  ∧ (List.length (sanitizeTags ["B"; " a "; "b"])
     <= List.length ["B"; " a "; "b"])%nat.
Proof.
  apply (sanitizeTags_order_insensitive ["B"; " a "; "b"] [" a "; "B"; "b"]).
  apply perm_swap.
Defined.

Lemma sanitizeTags_again_witness :
  sanitizeTags (sanitizeTags [" A b "; "a B"; "c"])
  = sanitizeTags [" A b "; "a B"; "c"].
Proof.
  apply (sanitizeTags_again [" A b "; "a B"; "c"]).
  repeat constructor; vm_compute; lia.
Defined.

Lemma list_refused_text_witness :
  handleListNotes nulQueryRequest sys5 twoNoteStore
  = (writeError StatusInternalServerError "database error", twoNoteStore).
Proof.
  apply (list_refused_text nulQueryRequest sys5 twoNoteStore None).
  - vm_compute. reflexivity.
  - vm_compute. reflexivity.
Defined.

Lemma refused_text_not_stored_witness :
  handleCreateNote (noteBodyRequest "1" cutRuneRequest) sys300 twoNoteStore
  = (writeError StatusInternalServerError "database error", twoNoteStore)
  ∧ (∀ id, parseUUIDParam (noteBodyRequest "1" cutRuneRequest) = inr id ->
           handleUpdateNote (noteBodyRequest "1" cutRuneRequest) sys300
                            twoNoteStore
           = (writeError StatusInternalServerError "database error",
              twoNoteStore)).
Proof.
  apply (refused_text_not_stored (noteBodyRequest "1" cutRuneRequest) sys300
                                 twoNoteStore cutRuneRequest).
  - reflexivity.
  - unfold textAccepted. vm_compute. discriminate.
Defined.

End MoreSamples.
